(** * Supply-chain cost accounting: costs, products and the Monte Carlo simulator

    A shallow embedding of [v1/cost.py], [v1/product.py], [v1/simulator.py]
    and [v1/center.py], followed by the properties of the specification
    that are stated about them.

    Modelling conventions.
    - Python values that the code inspects dynamically ([isinstance],
      truthiness) are the constructors of [PyVal].
    - A finite [Decimal] or [float] is the rational ([Q]) it denotes;
      numeric equality of Python ([==]) is [Qeq].  Constructing a [Decimal]
      is exact.  The arithmetic of [decimal] rounds every result to the 28
      significant digits of the default context, half to even
      ([context_round]); the arithmetic of [float] rounds to the nearest
      double, half to even, with subnormals and with overflow to infinity
      ([float_round]); [math.sqrt] is the correctly rounded square root of
      IEEE 754 ([sqrt_round]).
    - Not modelled: NaN, infinities as arguments and negative zero.  The
      exponent limits of the decimal context are not part of
      [context_round]: [context_range] says that the result of an operation
      is within them, where [decimal] raises no [Overflow] and keeps the 28
      digits.
    - [Cost] instances are mutable and are stored by reference in the
      dictionaries of [Costs]: they live in a heap, a list indexed by
      location.  [Costs], [Product] and [Simulator] instances are threaded
      as values.
    - Exceptions are values of [exn]; a method is a function into [result],
      or, when it touches the heap, a computation in the monad [M], which
      keeps the state reached when an exception is raised.
    - The other library functions the code calls, and that are not part of
      the repository, are the fields of the class [PyLib] (string to
      [Decimal] conversion, [str] of an attribute) or the variables of the
      section on the sampler ([scipy.stats.truncnorm]). *)

From Stdlib Require Import QArith ZArith Qround Qabs Qpower String List Lia Lqa.
From stdpp Require Import base list strings.

Open Scope Q_scope.

(** ** Python values, exceptions and results *)

Abbreviation loc := nat (only parsing).

Inductive PyVal : Type :=
| VNone
| VBool (b : bool)
| VInt (z : Z)
| VFloat (q : Q)
| VStr (s : string)
| VDecimal (q : Q)
| VCost (l : loc).

Inductive exc_class : Type :=
| AttributeError
| TypeError
| ValueError
| RuntimeError
| NotImplementedError
| InvalidOperation
| ZeroDivisionError
| UserException (name : string) (required_args : nat).

(** [UserException name n] is any other class, built in or not, whose
    constructor requires [n] positional arguments.

    [Exn cls msg arg] is [cls(msg, arg)] (or [cls(msg)]);
    [ExnFrom cls msg e] is [cls(msg, e, traceback)] raised [from] the class
    of [e], which Python instantiates for the purpose. *)
Inductive exn : Type :=
| Exn (cls : exc_class) (msg : string) (arg : option PyVal)
| ExnFrom (cls : exc_class) (msg : string) (exc_value : exn).

Definition exn_class (e : exn) : exc_class :=
  match e with
  | Exn cls _ _ => cls
  | ExnFrom cls _ _ => cls
  end.

Inductive result (A : Type) : Type :=
| Ok (a : A)
| Raise (e : exn).

Arguments Ok {A} a.
Arguments Raise {A} e.

(** The state and exception monad: the state survives a raised exception. *)
Definition M (S A : Type) : Type := S -> result A * S.

Definition ret {S A : Type} (a : A) : M S A := fun s => (Ok a, s).

Definition raise {S A : Type} (e : exn) : M S A := fun s => (Raise e, s).

Definition bind {S A B : Type} (m : M S A) (k : A -> M S B) : M S B :=
  fun s =>
    match m s with
    | (Ok a, s') => k a s'
    | (Raise e, s') => (Raise e, s')
    end.

Definition lift {S A : Type} (r : result A) : M S A := fun s => (r, s).

Declare Scope py_scope.
Delimit Scope py_scope with py.

Notation "x <- m ;; k" := (bind m (fun x => k))
  (at level 100, m at next level, right associativity) : py_scope.
Notation "m ;; k" := (bind m (fun _ => k))
  (at level 100, right associativity) : py_scope.

Fixpoint mapM {S A B : Type} (f : A -> M S B) (l : list A) : M S (list B) :=
  match l with
  | [] => ret []
  | x :: l' => (y <- f x ;; ys <- mapM f l' ;; ret (y :: ys))%py
  end.

(** ** Dynamic checks of Python *)

Definition Qltb (x y : Q) : bool := negb (Qle_bool y x).

Definition Qnonzero (x : Q) : bool := negb (Qeq_bool x 0).

(** [bool(v)]. *)
Definition truthy (v : PyVal) : bool :=
  match v with
  | VNone => false
  | VBool b => b
  | VInt z => negb (z =? 0)%Z
  | VFloat q => Qnonzero q
  | VStr s => negb (s =? EmptyString)%string
  | VDecimal q => Qnonzero q
  | VCost _ => true
  end.

(** [isinstance(v, str)]. *)
Definition isinstance_str (v : PyVal) : bool :=
  match v with
  | VStr _ => true
  | _ => false
  end.

(** [isinstance(v, int)]: [bool] is a subclass of [int]. *)
Definition isinstance_int (v : PyVal) : bool :=
  match v with
  | VInt _ | VBool _ => true
  | _ => false
  end.

(** [isinstance(v, Decimal)]. *)
Definition isinstance_Decimal (v : PyVal) : bool :=
  match v with
  | VDecimal _ => true
  | _ => false
  end.

(** [isinstance(v, (str, float, Decimal, int))]. *)
Definition isinstance_str_float_Decimal_int (v : PyVal) : bool :=
  match v with
  | VStr _ | VFloat _ | VDecimal _ | VInt _ | VBool _ => true
  | VNone | VCost _ => false
  end.

(** [isinstance(v, Cost)]. *)
Definition isinstance_Cost (v : PyVal) : bool :=
  match v with
  | VCost _ => true
  | _ => false
  end.

(** The integer an [int] (or [bool]) stands for. *)
Definition int_value (v : PyVal) : Z :=
  match v with
  | VInt z => z
  | VBool true => 1%Z
  | _ => 0%Z
  end.

(** The number a numeric value stands for. *)
Definition num_value (v : PyVal) : Q :=
  match v with
  | VInt z => inject_Z z
  | VBool true => 1
  | VFloat q | VDecimal q => q
  | _ => 0
  end.

(** ** Library functions outside the repository *)

Inductive attr_value : Type :=
| AttrDict (d : list (string * loc))
| AttrMethod (name : string)
| AttrVal (v : PyVal).

Class PyLib : Type := {
  (** the value of a string accepted by [Decimal(str)] *)
  decimal_of_string : string -> option Q;
  (** the text an f-string interpolates for an attribute *)
  py_format : attr_value -> string
}.

(** [Decimal(value)]. *)
Definition Decimal `{PyLib} (value : PyVal) : result Q :=
  match value with
  | VBool b => Ok (if b then 1 else 0)
  | VInt z => Ok (inject_Z z)
  | VFloat q => Ok q
  | VDecimal q => Ok q
  | VStr s =>
      match decimal_of_string s with
      | Some q => Ok q
      | None => Raise (Exn InvalidOperation "ConversionSyntax" (Some value))
      end
  | VNone | VCost _ =>
      Raise (Exn TypeError "conversion to Decimal is not supported" (Some value))
  end.

(** ** Rounding *)

(** The number of times [n >= 1] can be divided by [b >= 2] before it is
    below [b]: the floor of the logarithm of [n] in base [b]. *)
Fixpoint Zlog_loop (fuel : nat) (b n : Z) : Z :=
  match fuel with
  | O => 0%Z
  | S fuel' => if (n <? b)%Z then 0%Z else (1 + Zlog_loop fuel' b (n / b))%Z
  end.

Definition Zlog (b n : Z) : Z := Zlog_loop (S (Z.to_nat (Z.log2 n))) b n.

(** The exponent of the leading digit of [v > 0] in base [b]: the [k] with
    [b ^ k <= v < b ^ (k + 1)]. *)
Definition Qlog (b : Z) (v : Q) : Z :=
  let n := Qnum v in
  let d := Zpos (Qden v) in
  if (d <=? n)%Z then Zlog b (n / d) else (- (1 + Zlog b ((d - 1) / n)))%Z.

(** The nearest integer, the even one of two that are equally near. *)
Definition round_half_even (x : Q) : Z :=
  let f := Qfloor x in
  match Qcompare (x - inject_Z f) (1 # 2) with
  | Lt => f
  | Eq => if Z.even f then f else (f + 1)%Z
  | Gt => (f + 1)%Z
  end.

(** The nearest multiple of [b ^ e]. *)
Definition round_at (b e : Z) (v : Q) : Q :=
  Qred (inject_Z (round_half_even (v / inject_Z b ^ e)) * inject_Z b ^ e).

(** *** The context of [decimal]

    The default context: a precision of 28 significant digits and the
    rounding [ROUND_HALF_EVEN].  The result of an operation is the exact
    result, rounded. *)
Definition context_round (v : Q) : Q :=
  let v := Qred v in
  if Qeq_bool v 0 then 0 else round_at 10 (Qlog 10 (Qabs v) - 27) v.

(** [x + y], [x * y] and [x / y] on [Decimal]; the [DivisionByZero] of
    [decimal] is a [ZeroDivisionError], and [0 / 0] is an
    [InvalidOperation]. *)
Definition Decimal_add (x y : Q) : Q := context_round (x + y).

Definition Decimal_mul (x y : Q) : Q := context_round (x * y).

Definition Decimal_truediv (x y : Q) : result Q :=
  if Qeq_bool y 0
  then Raise (if Qeq_bool x 0
              then Exn InvalidOperation "DivisionUndefined" None
              else Exn ZeroDivisionError "DivisionByZero" None)
  else Ok (context_round (x / y)).

(** [sum(values)] on a list of [Decimal]: [sum] starts from the integer
    [0], which it returns when the list is empty, and adds the items from
    left to right, the first one to [0]; every addition is rounded. *)
Definition Decimal_sum (values : list Q) : Q := fold_left Decimal_add values 0.

Definition py_sum (values : list Q) : PyVal :=
  match values with
  | [] => VInt 0
  | _ => VDecimal (Decimal_sum values)
  end.

(** *** Floats

    A float that an operation returns is a double or an infinity. *)
Inductive float : Type :=
| Finite (q : Q)
| Infinite (negative : bool).

(** The double nearest to [v]: 53 significant bits, or a multiple of
    [2 ^ -1074] for a subnormal; an infinity from [2 ^ 1024] on. *)
Definition float_round (v : Q) : float :=
  let v := Qred v in
  if Qeq_bool v 0 then Finite 0
  else
    let r := round_at 2 (Z.max (Qlog 2 (Qabs v) - 52) (-1074)) v in
    if Qle_bool (inject_Z 2 ^ 1024) (Qabs r)
    then Infinite (negb (Qle_bool 0 v))
    else Finite r.

(** [x - y] on floats. *)
Definition float_sub (x y : Q) : float := float_round (x - y).

(** [x / y] for a float [y], and for an [x] that may be the overflowed
    result of a subtraction. *)
Definition float_truediv (x : float) (y : Q) : result float :=
  if Qeq_bool y 0
  then Raise (Exn ZeroDivisionError "division by zero" None)
  else Ok match x with
          | Finite q => float_round (q / y)
          | Infinite negative => Infinite (xorb negative (negb (Qle_bool 0 y)))
          end.

(** The double nearest to the square root of the double [y > 0].  With [e]
    the exponent of the last bit of the root, the root of [y / 4 ^ e] has
    53 bits before the point; [Z.sqrt] gives them and the comparison
    decides the rounding. *)
Definition sqrt_round (y : Q) : Q :=
  let y := Qred y in
  if Qeq_bool y 0 then 0
  else
    let e := (Qlog 2 y / 2 - 52)%Z in
    let t := y / inject_Z 2 ^ (2 * e) in
    let m := Z.sqrt (Qfloor t) in
    Qred (inject_Z
            match Qcompare t ((inject_Z m + (1 # 2)) ^ 2) with
            | Lt => m
            | Eq => if Z.even m then m else (m + 1)%Z
            | Gt => (m + 1)%Z
            end * inject_Z 2 ^ e).

(** [math.sqrt(x)] for a [Decimal] [x]: [x] is converted to the nearest
    float, whose root is taken. *)
Definition math_sqrt (x : Q) : result float :=
  match float_round x with
  | Infinite false => Ok (Infinite false)
  | Infinite true => Raise (Exn ValueError "math domain error" None)
  | Finite y =>
      if Qle_bool 0 y then Ok (Finite (sqrt_round y))
      else Raise (Exn ValueError "math domain error" None)
  end.

(** ** cost.py, class Cost *)

Module Cost.

Record obj : Type := {
  _Cost__name : option string;
  _Cost__value : option Q
}.

Abbreviation heap := (list obj) (only parsing).

(** An instance before [__init__] has run. *)
Definition blank : obj := {| _Cost__name := None; _Cost__value := None |}.

Definition new : M heap loc := fun h => (Ok (length h), h ++ [blank]).

Definition load (self : loc) : M heap obj :=
  fun h => (Ok (default blank (h !! self)), h).

Definition store (self : loc) (o : obj) : M heap unit :=
  fun h => (Ok tt, <[self := o]> h).

Section methods.
Context `{PyLib}.

Definition name (self : loc) : M heap string :=
  (o <- load self ;;
   match _Cost__name o with
   | Some s => ret s
   | None => raise (Exn AttributeError "'Cost' object has no attribute '_Cost__name'" None)
   end)%py.

Definition set_name (self : loc) (value : PyVal) : M heap unit :=
  if negb (truthy value) || negb (isinstance_str value)
  then raise (Exn AttributeError "Invalid cost name:" (Some value))
  else match value with
       | VStr s =>
           (o <- load self ;;
            store self {| _Cost__name := Some s; _Cost__value := _Cost__value o |})%py
       | _ => raise (Exn AttributeError "Invalid cost name:" (Some value))
       end.

Definition value (self : loc) : M heap Q :=
  (o <- load self ;;
   match _Cost__value o with
   | Some d => ret d
   | None => raise (Exn AttributeError "'Cost' object has no attribute '_Cost__value'" None)
   end)%py.

(** The assignment to [self.__value] comes before the sign is checked. *)
Definition set_value (self : loc) (value : PyVal) : M heap unit :=
  if negb (isinstance_str_float_Decimal_int value)
  then raise (Exn AttributeError "Invalid cost:" (Some value))
  else
    (d <- lift (Decimal value) ;;
     o <- load self ;;
     store self {| _Cost__name := _Cost__name o; _Cost__value := Some d |} ;;
     if Qltb d 0
     then raise (Exn ValueError "The cost can not be negative:" (Some value))
     else ret tt)%py.

Definition __init__ (self : loc) (name value : PyVal) : M heap unit :=
  (set_name self name ;;
   d <- lift (Decimal value) ;;
   set_value self (VDecimal d))%py.

(** [Cost(args)]: the instance is created, then [__init__] binds its two
    required positional parameters, [name] and [value]. *)
Definition call (args : list PyVal) : M heap loc :=
  (self <- new ;;
   match args with
   | [name; value] => (__init__ self name value ;; ret self)
   | [] =>
       raise (Exn TypeError
         "Cost.__init__() missing 2 required positional arguments: 'name' and 'value'" None)
   | [_] =>
       raise (Exn TypeError
         "Cost.__init__() missing 1 required positional argument: 'value'" None)
   | _ =>
       raise (Exn TypeError
         "Cost.__init__() takes 3 positional arguments but more were given" None)
   end)%py.

End methods.

End Cost.

(** ** cost.py, class Costs *)

Module Costs.

(** A [dict] keeps its keys in insertion order; assigning to a key that is
    present replaces the value in place. *)
Abbreviation dict := (list (string * loc)) (only parsing).

Fixpoint dict_get (k : string) (d : dict) : option loc :=
  match d with
  | [] => None
  | (k', v) :: d' => if (k' =? k)%string then Some v else dict_get k d'
  end.

Fixpoint dict_set (k : string) (v : loc) (d : dict) : dict :=
  match d with
  | [] => [(k, v)]
  | (k', v') :: d' =>
      if (k' =? k)%string then (k', v) :: d' else (k', v') :: dict_set k v d'
  end.

Definition dict_keys (d : dict) : list string := map fst d.

Definition dict_values (d : dict) : list loc := map snd d.

Record obj : Type := { _Costs__costs : dict }.

Definition __init__ : obj := {| _Costs__costs := [] |}.

Section methods.
Context `{PyLib}.

(** Attribute lookup on an instance: the instance dictionary, then the
    class.  [total] is a property, read through [total_getter]. *)
Definition getattr (total_getter : obj -> M Cost.heap PyVal)
    (self : obj) (attr : string) : M Cost.heap attr_value :=
  if (attr =? "_Costs__costs")%string then ret (AttrDict (_Costs__costs self))
  else if (attr =? "total")%string
  then (t <- total_getter self ;; ret (AttrVal t))%py
  else if existsb (String.eqb attr) ["__init__"; "__repr__"; "add"; "get"]
  then ret (AttrMethod attr)
  else raise (Exn AttributeError "'Costs' object has no attribute" (Some (VStr attr))).

Definition add (self : obj) (cost : PyVal) : M Cost.heap obj :=
  if negb (isinstance_Cost cost)
  then raise (Exn AttributeError "Expecting cost, got::" (Some cost))
  else match cost with
       | VCost c =>
           (n <- Cost.name c ;;
            ret {| _Costs__costs := dict_set n c (_Costs__costs self) |})%py
       | _ => raise (Exn AttributeError "Expecting cost, got::" (Some cost))
       end.

(** The default, [Cost(name)], is an argument of [dict.get]: it is
    evaluated before the dictionary is consulted. *)
Definition get (self : obj) (name : PyVal) : M Cost.heap PyVal :=
  (default <- Cost.call [name] ;;
   ret (match name with
        | VStr k =>
            match dict_get k (_Costs__costs self) with
            | Some c => VCost c
            | None => VCost default
            end
        | _ => VCost default
        end))%py.

Definition total (self : obj) : M Cost.heap PyVal :=
  (values <- mapM Cost.value (dict_values (_Costs__costs self)) ;;
   ret (py_sum values))%py.

Definition __repr__ (self : obj) : M Cost.heap string :=
  (n <- getattr total self "name" ;;
   a <- getattr total self "address" ;;
   ret ("<Costs: " ++ py_format n ++ " - " ++ py_format a ++ ">")%string)%py.

End methods.

End Costs.

(** ** product.py *)

Module Product.

(** The class of an instance, with the attribute its [__init__] adds. *)
Inductive variant : Type :=
| Product
| ProducedProduct (production_costs : Costs.obj)
| PurchasedProduct (purchase_costs : Costs.obj).

Inductive cls : Type :=
| ClsProduct
| ClsProducedProduct
| ClsPurchasedProduct.

Record obj : Type := {
  _Product__name : string;
  _Product__inventory : Q;
  _Product__demand : Q;
  _Product__lead_time : Q;
  _Product__price : Q;
  storage_costs : Costs.obj;
  kind : variant
}.

Section methods.
Context `{PyLib}.

(** The body shared by the setters of [inventory], [demand], [lead_time]
    and [price]: the [Decimal] that is assigned, if the assignment is
    reached, and the outcome of the setter. *)
Definition assign_Decimal (invalid negative : string) (value : PyVal)
    : option Q * result unit :=
  if negb (isinstance_str_float_Decimal_int value)
  then (None, Raise (Exn AttributeError invalid (Some value)))
  else match Decimal value with
       | Raise e => (None, Raise e)
       | Ok d =>
           (Some d,
            if Qltb d 0 then Raise (Exn ValueError negative (Some value)) else Ok tt)
       end.

Definition checked_name (value : PyVal) : result string :=
  if negb (truthy value) || negb (isinstance_str value)
  then Raise (Exn AttributeError "Invalid product name:" (Some value))
  else match value with
       | VStr s => Ok s
       | _ => Raise (Exn AttributeError "Invalid product name:" (Some value))
       end.

Definition set_name (value : PyVal) : M obj unit :=
  fun self =>
    match checked_name value with
    | Raise e => (Raise e, self)
    | Ok s =>
        (Ok tt,
         {| _Product__name := s;
            _Product__inventory := _Product__inventory self;
            _Product__demand := _Product__demand self;
            _Product__lead_time := _Product__lead_time self;
            _Product__price := _Product__price self;
            storage_costs := storage_costs self;
            kind := kind self |})
    end.

Definition set_inventory (value : PyVal) : M obj unit :=
  fun self =>
    match assign_Decimal "Invalid product inventory:"
            "The inventory can not be negative:" value with
    | (None, r) => (r, self)
    | (Some d, r) =>
        (r,
         {| _Product__name := _Product__name self;
            _Product__inventory := d;
            _Product__demand := _Product__demand self;
            _Product__lead_time := _Product__lead_time self;
            _Product__price := _Product__price self;
            storage_costs := storage_costs self;
            kind := kind self |})
    end.

Definition set_demand (value : PyVal) : M obj unit :=
  fun self =>
    match assign_Decimal "Invalid demand:" "The demand can not be negative:" value with
    | (None, r) => (r, self)
    | (Some d, r) =>
        (r,
         {| _Product__name := _Product__name self;
            _Product__inventory := _Product__inventory self;
            _Product__demand := d;
            _Product__lead_time := _Product__lead_time self;
            _Product__price := _Product__price self;
            storage_costs := storage_costs self;
            kind := kind self |})
    end.

Definition set_lead_time (value : PyVal) : M obj unit :=
  fun self =>
    match assign_Decimal "Invalid lead time:" "The lead time can not be negative:" value with
    | (None, r) => (r, self)
    | (Some d, r) =>
        (r,
         {| _Product__name := _Product__name self;
            _Product__inventory := _Product__inventory self;
            _Product__demand := _Product__demand self;
            _Product__lead_time := d;
            _Product__price := _Product__price self;
            storage_costs := storage_costs self;
            kind := kind self |})
    end.

Definition set_price (value : PyVal) : M obj unit :=
  fun self =>
    match assign_Decimal "Invalid product price:" "The price can not be negative:" value with
    | (None, r) => (r, self)
    | (Some d, r) =>
        (r,
         {| _Product__name := _Product__name self;
            _Product__inventory := _Product__inventory self;
            _Product__demand := _Product__demand self;
            _Product__lead_time := _Product__lead_time self;
            _Product__price := d;
            storage_costs := storage_costs self;
            kind := kind self |})
    end.

(** The value a setter leaves in its attribute when it returns normally. *)
Definition assigned (invalid negative : string) (value : PyVal) : result Q :=
  match assign_Decimal invalid negative value with
  | (_, Raise e) => Raise e
  | (Some d, Ok _) => Ok d
  | (None, Ok _) => Raise (Exn AttributeError invalid (Some value))
  end.

(** [cls(name, price, demand, lead_time, inventory)]: the attributes are
    assigned in the order [name], [inventory], [demand], [lead_time],
    [price], [storage_costs]; an instance whose [__init__] raises is never
    seen by the caller. *)
Definition __init__ (c : cls) (name price demand lead_time inventory : PyVal)
    : result obj :=
  match checked_name name with
  | Raise e => Raise e
  | Ok n =>
  match assigned "Invalid product inventory:"
          "The inventory can not be negative:" inventory with
  | Raise e => Raise e
  | Ok i =>
  match assigned "Invalid demand:" "The demand can not be negative:" demand with
  | Raise e => Raise e
  | Ok d =>
  match assigned "Invalid lead time:" "The lead time can not be negative:" lead_time with
  | Raise e => Raise e
  | Ok l =>
  match assigned "Invalid product price:" "The price can not be negative:" price with
  | Raise e => Raise e
  | Ok p =>
      Ok {| _Product__name := n;
            _Product__inventory := i;
            _Product__demand := d;
            _Product__lead_time := l;
            _Product__price := p;
            storage_costs := Costs.__init__;
            kind := match c with
                    | ClsProduct => Product
                    | ClsProducedProduct => ProducedProduct Costs.__init__
                    | ClsPurchasedProduct => PurchasedProduct Costs.__init__
                    end |}
  end end end end end.

Definition demand (self : obj) : Q := _Product__demand self.

Definition total_storage_cost (self : obj) : M Cost.heap PyVal :=
  Costs.total (storage_costs self).

Definition total_variable_cost (self : obj) : M Cost.heap PyVal :=
  match kind self with
  | Product => raise (Exn NotImplementedError "Method not overrided!" None)
  | ProducedProduct production_costs => Costs.total production_costs
  | PurchasedProduct purchase_costs => Costs.total purchase_costs
  end.

(** The three guards, then
    [Decimal(math.sqrt(2 * demand * total_variable_cost / total_storage_cost))],
    whose operands are read again, left to right, and whose product and
    quotient are those of [decimal].  The [Decimal] returned is given as
    the float it is made from, exactly: [Infinite false] stands for
    [Decimal('Infinity')]. *)
Definition optimum_inventory_level (self : obj) : M Cost.heap float :=
  if negb (truthy (VDecimal (demand self)))
  then raise (Exn RuntimeError "The demand must be positive." None)
  else
    (h <- total_storage_cost self ;;
     if negb (truthy h)
     then raise (Exn RuntimeError "The total storage cost must be positive." None)
     else
       (K <- total_variable_cost self ;;
        if negb (truthy K)
        then raise (Exn RuntimeError "The total variable cost must be positive." None)
        else
          (K' <- total_variable_cost self ;;
           h' <- total_storage_cost self ;;
           x <- lift (Decimal_truediv
                        (Decimal_mul (Decimal_mul 2 (demand self)) (num_value K'))
                        (num_value h')) ;;
           lift (math_sqrt x))))%py.

End methods.

End Product.

(** ** simulator.py *)

Module Simulator.

(** [times], [title] and [results] are plain attributes. *)
Record obj : Type := {
  times : PyVal;
  title : PyVal;
  results : list Q
}.

Definition __init__ (times title : PyVal) : result obj :=
  if negb (isinstance_int times) || (int_value times <? 0)%Z
  then Raise (Exn AttributeError "Invalid simulator run times:" (Some times))
  else if negb (truthy title) || negb (isinstance_str title)
  then Raise (Exn TypeError "Invalid simulator title:" (Some title))
  else Ok {| times := times; title := title; results := [] |}.

(** *** The truncated normal sampler *)

Section sampler.

(** The state of the random generator, and
    [truncnorm(a, b, loc=loc, scale=scale).rvs()] converted to [Decimal].
    The arguments of [normal] are floats, as annotated, and the bounds [a]
    and [b] are the floats that the subtractions and the divisions of the
    code give; on the small integers that the repository passes, the
    operations of [int] give the same values. *)
Variable G : Type.
Variable truncnorm_rvs : float -> float -> Q -> Q -> M G Q.

Definition normal (mean std upper lower : Q) : M G Q :=
  if Qltb upper mean
  then raise (Exn ValueError "Mean is too high:" (Some (VFloat mean)))
  else if Qltb mean lower
  then raise (Exn ValueError "Mean is too low:" (Some (VFloat mean)))
  else
    (a <- lift (float_truediv (float_sub lower mean) std) ;;
     b <- lift (float_truediv (float_sub upper mean) std) ;;
     truncnorm_rvs a b mean std)%py.

End sampler.

(** *** Running a trial function *)

(** [range(n)] has as many items as the integer [n], none when [n] is
    negative. *)
Definition range_len (n : PyVal) : result nat :=
  if isinstance_int n
  then Ok (Z.to_nat (int_value n))
  else Raise (Exn TypeError "object cannot be interpreted as an integer" (Some n)).

Definition append (self : obj) (d : Q) : obj :=
  {| times := times self; title := title self; results := results self ++ [d] |}.

Section trials.

(** A trial function is a closure over a world [W] (the heap of costs, the
    random generator, ...) that it may change; it does not touch the
    simulator that runs it.  The calls to the logger are left out. *)
Variable W : Type.

Definition trial : Type := M W PyVal.

(** The body of the [for] loop of [decorated], for the items of the range
    that are left. *)
Fixpoint decorated_loop (fn : trial) (n : nat) : M (obj * W) unit :=
  match n with
  | O => ret tt
  | S n' =>
      fun '(self, w) =>
        match fn w with
        | (Raise e, w') => (Raise e, (self, w'))
        | (Ok result, w') =>
            if negb (isinstance_Decimal result)
            then (Raise (Exn TypeError "Expecting a Decimal, got:" (Some result)),
                  (self, w'))
            else match result with
                 | VDecimal d => decorated_loop fn n' (append self d, w')
                 | _ => (Raise (Exn TypeError "Expecting a Decimal, got:" (Some result)),
                         (self, w'))
                 end
        end
  end.

(** [decorated(fn)]: the range is built once, from [self.times]. *)
Definition decorated (fn : trial) : M (obj * W) unit :=
  fun '(self, w) =>
    match range_len (times self) with
    | Raise e => (Raise e, (self, w))
    | Ok n => decorated_loop fn n (self, w)
    end.

(** [simulator.simulate()] returns [decorated]. *)
Definition simulate : trial -> M (obj * W) unit := decorated.

End trials.

(** *** Statistics and the summary *)

(** [sum(self.results) / len(self.results)], a division of [decimal] by
    the length of a list that is not empty. *)
Definition average (self : obj) : Q :=
  match results self with
  | [] => 0
  | _ =>
      context_round
        (num_value (py_sum (results self)) /
         inject_Z (Z.of_nat (length (results self))))
  end.

(** [max] and [min] keep the first of equal items. *)
Definition maximum (self : obj) : Q :=
  match results self with
  | [] => 0
  | x :: l => fold_left (fun m y => if Qltb m y then y else m) l x
  end.

Definition minimum (self : obj) : Q :=
  match results self with
  | [] => 0
  | x :: l => fold_left (fun m y => if Qltb y m then y else m) l x
  end.

(** Standard output: the arguments of each call to [print]. *)
Abbreviation stdout := (list (list PyVal)) (only parsing).

Definition print (args : list PyVal) : M stdout unit :=
  fun out => (Ok tt, out ++ [args]).

Fixpoint str_mul (s : string) (n : nat) : string :=
  match n with
  | O => EmptyString
  | S n' => s ++ str_mul s n'
  end.

Definition summary (self : obj) : M stdout unit :=
  (print [VStr (str_mul "-" 50)] ;;
   print [title self; VStr "Summary:"] ;;
   print [VStr "- Simulated:"; times self; VStr "times"] ;;
   print [VStr "- Average:"; VDecimal (average self)] ;;
   print [VStr "- Maximum:"; VDecimal (maximum self)] ;;
   print [VStr "- Minimum:"; VDecimal (minimum self)] ;;
   print [VStr (str_mul "-" 50)])%py.

Definition __enter__ (self : obj) : obj := self.

(** [exc_type()], which [raise ... from exc_type] evaluates to chain the
    new exception: a class whose constructor requires arguments cannot be
    called without any. *)
Definition instantiate (exc_type : exc_class) : result exn :=
  match exc_type with
  | UserException _ (S _) =>
      Raise (Exn TypeError "__init__() missing required positional arguments" None)
  | _ => Ok (Exn exc_type EmptyString None)
  end.

(** [exc_type] is the class of [exc_value]. *)
Definition __exit__ (self : obj) (exc_value : option exn) : M stdout unit :=
  match exc_value with
  | None => summary self
  | Some e =>
      match instantiate (exn_class e) with
      | Ok _ => raise (ExnFrom RuntimeError "Failed to run simulator!" e)
      | Raise e' => raise e'
      end
  end.

(** [with simulator: simulator.simulate()(fn)], as the modules of the
    repository run their trials. *)
Definition with_simulate {W : Type} (fn : trial W) : M (obj * W * stdout) unit :=
  fun '(self, w, out) =>
    let simulator := __enter__ self in
    match simulate W fn (simulator, w) with
    | (Ok _, (self', w')) =>
        let (r, out') := __exit__ self' None out in (r, (self', w', out'))
    | (Raise e, (self', w')) =>
        let (r, out') := __exit__ self' (Some e) out in (r, (self', w', out'))
    end.

End Simulator.

(** ** center.py *)

Module Center.

Record obj : Type := {
  _Center__name : string;
  _Center__address : string;
  costs : Costs.obj
}.

(** The constructor assigns the private attributes directly: the setters,
    and their checks, are not involved. *)
Definition __init__ : obj :=
  {| _Center__name := "Sample Center";
     _Center__address := EmptyString;
     costs := Costs.__init__ |}.

Definition name (self : obj) : string := _Center__name self.

Definition set_name (value : PyVal) : M obj unit :=
  fun self =>
    if negb (truthy value) || negb (isinstance_str value)
    then (Raise (Exn AttributeError "Invalid center name:" (Some value)), self)
    else match value with
         | VStr s =>
             (Ok tt,
              {| _Center__name := s;
                 _Center__address := _Center__address self;
                 costs := costs self |})
         | _ => (Raise (Exn AttributeError "Invalid center name:" (Some value)), self)
         end.

Definition address (self : obj) : string := _Center__address self.

Definition set_address (value : PyVal) : M obj unit :=
  fun self =>
    if negb (truthy value) || negb (isinstance_str value)
    then (Raise (Exn AttributeError "Invalid center address:" (Some value)), self)
    else match value with
         | VStr s =>
             (Ok tt,
              {| _Center__name := _Center__name self;
                 _Center__address := s;
                 costs := costs self |})
         | _ => (Raise (Exn AttributeError "Invalid center address:" (Some value)), self)
         end.

(** Both attributes are strings, which an f-string interpolates as they
    are. *)
Definition __repr__ (self : obj) : string :=
  ("<Center: " ++ name self ++ " - " ++ address self ++ ">")%string.

Definition total_fixed_cost (self : obj) : M Cost.heap PyVal :=
  Costs.total (costs self).

End Center.

(** ** The trial functions of center.py and product.py

    The third trial function of product.py, which returns the optimum
    inventory level, is not among them. *)

Section mains.
Context `{PyLib}.

(** The generator and the sampler of [scipy], as for [Simulator.normal]. *)
Variable G : Type.
Variable truncnorm_rvs : float -> float -> Q -> Q -> M G Q.

(** What a trial function of the modules works on: the heap of costs,
    the random generator and what it prints. *)
Record world : Type := {
  world_heap : list Cost.obj;
  world_generator : G;
  world_printed : list (list PyVal)
}.

Definition on_heap {A : Type} (m : M (list Cost.obj) A) : M world A :=
  fun w =>
    let (r, h) := m (world_heap w) in
    (r, {| world_heap := h;
           world_generator := world_generator w;
           world_printed := world_printed w |}).

Definition on_generator {A : Type} (m : M G A) : M world A :=
  fun w =>
    let (r, g) := m (world_generator w) in
    (r, {| world_heap := world_heap w;
           world_generator := g;
           world_printed := world_printed w |}).

Definition on_stdout {A : Type} (m : M (list (list PyVal)) A) : M world A :=
  fun w =>
    let (r, out) := m (world_printed w) in
    (r, {| world_heap := world_heap w;
           world_generator := world_generator w;
           world_printed := out |}).

(** An assignment to an attribute of the local variable [center]. *)
Definition assign_center (m : M Center.obj unit) (center : Center.obj)
    : M world Center.obj :=
  fun w =>
    match m center with
    | (Ok _, center') => (Ok center', w)
    | (Raise e, _) => (Raise e, w)
    end.

(** [costs.add(Cost(name, simulator.normal(mean, std, upper, lower)))]:
    the draw, then the constructor, then [add]; the collection is updated
    in place. *)
Definition add_sampled_cost (costs : Costs.obj) (name : string)
    (mean std upper lower : Q) : M world Costs.obj :=
  (v <- on_generator (Simulator.normal G truncnorm_rvs mean std upper lower) ;;
   c <- on_heap (Cost.call [VStr name; VDecimal v]) ;;
   on_heap (Costs.add costs (VCost c)))%py.

Definition with_costs (center : Center.obj) (costs : Costs.obj) : Center.obj :=
  {| Center._Center__name := Center._Center__name center;
     Center._Center__address := Center._Center__address center;
     Center.costs := costs |}.

(** [main] of center.py. *)
Definition center_main : Simulator.trial world :=
  (center <- assign_center (Center.set_name (VStr "My Center I")) Center.__init__ ;;
   center <- assign_center (Center.set_address (VStr "450 Hawk St.")) center ;;
   on_stdout (Simulator.print
                [VStr "Center identifier:"; VStr (Center.__repr__ center)]) ;;
   costs <- add_sampled_cost (Center.costs center)
              "Quality Control Costs" 100 20 3000 50 ;;
   costs <- add_sampled_cost costs "Labor Costs" 500 100 1000 0 ;;
   costs <- add_sampled_cost costs "Energy Costs" 150 180 1000 100 ;;
   costs <- add_sampled_cost costs "Equipment Costs" 200 40 320 160 ;;
   costs <- add_sampled_cost costs "Overhead Costs" 30 20 300 0 ;;
   costs <- add_sampled_cost costs "Warehouse Rent" 300 50 400 200 ;;
   costs <- add_sampled_cost costs "Inventory Management Software" 10 5 80 0 ;;
   on_heap (Center.total_fixed_cost (with_costs center costs)))%py.

Definition with_storage_costs (product : Product.obj) (costs : Costs.obj)
    : Product.obj :=
  {| Product._Product__name := Product._Product__name product;
     Product._Product__inventory := Product._Product__inventory product;
     Product._Product__demand := Product._Product__demand product;
     Product._Product__lead_time := Product._Product__lead_time product;
     Product._Product__price := Product._Product__price product;
     Product.storage_costs := costs;
     Product.kind := Product.kind product |}.

(** The attribute [production_costs], which only a produced product has. *)
Definition production_costs (product : Product.obj) : result Costs.obj :=
  match Product.kind product with
  | Product.ProducedProduct costs => Ok costs
  | _ => Raise (Exn AttributeError "object has no attribute 'production_costs'" None)
  end.

Definition with_production_costs (product : Product.obj) (costs : Costs.obj)
    : Product.obj :=
  {| Product._Product__name := Product._Product__name product;
     Product._Product__inventory := Product._Product__inventory product;
     Product._Product__demand := Product._Product__demand product;
     Product._Product__lead_time := Product._Product__lead_time product;
     Product._Product__price := Product._Product__price product;
     Product.storage_costs := Product.storage_costs product;
     Product.kind := Product.ProducedProduct costs |}.

(** The first [main] of product.py, 'Product Variable Cost'. *)
Definition product_variable_main : Simulator.trial world :=
  (product <- lift (Product.__init__ Product.ClsProducedProduct
                      (VStr "Product I") (VInt 0) (VInt 0) (VInt 0) (VInt 100)) ;;
   costs <- lift (production_costs product) ;;
   costs <- add_sampled_cost costs "Energy Costs" 2 1 5 0 ;;
   costs <- add_sampled_cost costs "Labor Costs" 7 2 10 5 ;;
   on_heap (Product.total_variable_cost (with_production_costs product costs)))%py.

(** The float that the literal [0.1] denotes. *)
Definition float_0_1 : Q := 3602879701896397 # 36028797018963968.

(** The second [main] of product.py, 'Product Storage Cost'. *)
Definition product_storage_main : Simulator.trial world :=
  (product <- lift (Product.__init__ Product.ClsPurchasedProduct
                      (VStr "Product II") (VInt 0) (VInt 0) (VInt 0) (VInt 100)) ;;
   costs <- add_sampled_cost (Product.storage_costs product)
              "Warehousing" float_0_1 float_0_1 (1 # 2) 0 ;;
   costs <- add_sampled_cost costs "Utilities" float_0_1 float_0_1 (1 # 2) 0 ;;
   costs <- add_sampled_cost costs "Insurance" float_0_1 float_0_1 (1 # 2) 0 ;;
   costs <- add_sampled_cost costs "Taxes" float_0_1 float_0_1 (1 # 2) 0 ;;
   costs <- add_sampled_cost costs "Freight" float_0_1 float_0_1 (1 # 2) 0 ;;
   costs <- add_sampled_cost costs "Placement" float_0_1 float_0_1 (1 # 2) 0 ;;
   costs <- add_sampled_cost costs "Ordering" float_0_1 float_0_1 (1 # 2) 0 ;;
   costs <- add_sampled_cost costs "Obsolescence" float_0_1 float_0_1 (1 # 2) 0 ;;
   on_heap (Product.total_storage_cost (with_storage_costs product costs)))%py.

(** [main] of simulator.py: one draw, which is its result. *)
Definition simulator_main : Simulator.trial G :=
  (v <- Simulator.normal G truncnorm_rvs 3 1 10 1 ;; ret (VDecimal v))%py.

End mains.

(** ** The error kinds of the specification

    The specification names error kinds, not exception classes.  They are
    read here as the classes the code raises for them. *)

(** Malformed arguments: [AttributeError] and [TypeError]. *)
Definition is_ValidationError (e : exn) : bool :=
  match exn_class e with
  | AttributeError | TypeError => true
  | _ => false
  end.

(** A rule of the domain is violated: [ValueError] and [RuntimeError]. *)
Definition is_DomainError (e : exn) : bool :=
  match exn_class e with
  | ValueError | RuntimeError => true
  | _ => false
  end.


(** ** A library on which the definitions evaluate

    Unsigned digit strings for [Decimal(str)] and a fixed text for the
    attributes an f-string interpolates: enough to run the definitions on
    the inputs of the examples below. *)

Definition digit_of (c : Ascii.ascii) : option Z :=
  let n := Ascii.nat_of_ascii c in
  if (48 <=? n)%nat && (n <=? 57)%nat then Some (Z.of_nat (n - 48)) else None.

Fixpoint digits (s : string) (acc : Z) : option Z :=
  match s with
  | EmptyString => Some acc
  | String c s' =>
      match digit_of c with
      | Some d => digits s' (10 * acc + d)%Z
      | None => None
      end
  end.

Definition example_lib : PyLib := {|
  decimal_of_string := fun s =>
    match s with
    | EmptyString => None
    | _ => option_map inject_Z (digits s 0)
    end;
  py_format := fun _ => "..."
|}.

(** ** Notions used to state the properties *)

(** The sum of a list of rationals. *)
Definition Qsum (l : list Q) : Q := fold_right Qplus 0 l.

(** [v] has at most [p] digits in base [b]: it is an integer at the
    exponent of its last digit. *)
Definition fits (b p : Z) (v : Q) : Prop :=
  exists m : Z, v == inject_Z m * inject_Z b ^ (Qlog b v - (p - 1)).

(** Half a unit of the last of 28 digits, and of the last of 53 bits,
    for a leading digit of one unit: the largest relative errors of
    [context_round], and of [float_round] on the normal doubles. *)
Definition context_unit : Q := 5 # 10000000000000000000000000000.

Definition double_unit : Q := 1 # 9007199254740992.


(** [v] has at most 28 significant decimal digits. *)
Definition Decimal_fits (v : Q) : bool :=
  let v := Qred v in
  Qeq_bool v 0 ||
  (let t := v / inject_Z 10 ^ (Qlog 10 (Qabs v) - 27) in
   Qeq_bool (inject_Z (Qfloor t)) t).


(** The exponent range of the default context, from [Emin = -999999] to
    [Emax = 999999].  The exact result [v] of an operation is within it
    when [v] is zero, or the leading digit of [v] is at an exponent from
    [Emin] on and the leading digit of [v] rounded at an exponent up to
    [Emax]: the operation then returns [context_round v].  Above the range
    [decimal] raises [Overflow]; below it, it rounds to fewer digits. *)
Definition context_range (v : Q) : bool :=
  Qeq_bool v 0 ||
  ((-999999 <=? Qlog 10 (Qabs v))%Z &&
   (Qlog 10 (Qabs (context_round v)) <=? 999999)%Z).

(** Every addition of [sum(values)], continued from the sum [acc], is within
    the exponent range. *)
Fixpoint sums_in_context (acc : Q) (values : list Q) : bool :=
  match values with
  | [] => true
  | x :: values' =>
      context_range (acc + x) && sums_in_context (Decimal_add acc x) values'
  end.

(** The two products and the quotient of [2 * D * K / h] are within the
    exponent range. *)
Definition quotient_in_context (D K h : Q) : bool :=
  context_range (2 * D)
  && context_range (Decimal_mul 2 D * K)
  && context_range (Decimal_mul (Decimal_mul 2 D) K / h).

(** [x] lies between the two bounds. *)
Definition within (bounds : Q * Q) (x : Q) : Prop :=
  fst bounds <= x <= snd bounds.

(** The bounds on the items of a sum are not negative, and the sums of the
    lower and of the upper bounds have at most 28 digits at every item. *)
Fixpoint bounds_fit (lo hi : Q) (bounds : list (Q * Q)) : bool :=
  match bounds with
  | [] => true
  | (l, u) :: bounds' =>
      Qle_bool 0 l && Decimal_fits (lo + l) && Decimal_fits (hi + u)
      && bounds_fit (lo + l) (hi + u) bounds'
  end.

(** The instance at [c] has run its [__init__]: it has a name and a value. *)
Definition initialised (h : Cost.heap) (c : loc) : Prop :=
  exists n v, h !! c = Some {| Cost._Cost__name := Some n; Cost._Cost__value := Some v |}.

(** The value held by the instance at [c]. *)
Definition stored_value (h : Cost.heap) (c : loc) : Q :=
  match h !! c with
  | Some {| Cost._Cost__value := Some v |} => v
  | _ => 0
  end.

(** A collection as the methods of [Costs] build it: one entry per name,
    each an initialised cost. *)
Definition Costs_wf (h : Cost.heap) (self : Costs.obj) : Prop :=
  NoDup (Costs.dict_keys (Costs._Costs__costs self)) /\
  Forall (initialised h) (Costs.dict_values (Costs._Costs__costs self)).


(** The outcomes of [n] successive calls of a trial function, and the
    world they leave. *)
Fixpoint call_sequence {W : Type} (fn : Simulator.trial W) (n : nat) (w : W)
    : list (result PyVal) * W :=
  match n with
  | O => ([], w)
  | S n' =>
      let (r, w') := fn w in
      let (rs, w'') := call_sequence fn n' w' in
      (r :: rs, w'')
  end.

(** The simulator after the decimals [ds] have been appended. *)
Definition appended (self : Simulator.obj) (ds : list Q) : Simulator.obj :=
  {| Simulator.times := Simulator.times self;
     Simulator.title := Simulator.title self;
     Simulator.results := Simulator.results self ++ ds |}.

(** ** Inputs of the examples *)

(** A sampler that always draws the lower end of the support, and one
    that always draws the upper end. *)
Definition lowest_draw : float -> float -> Q -> Q -> M unit Q :=
  fun a b loc scale =>
    match a with
    | Finite a => ret (loc + scale * a)
    | Infinite _ => ret loc
    end.





(** The trial function of the end-to-end scenario: always [Decimal(42)]. *)
Definition constant_trial : Simulator.trial unit :=
  fun w => (Ok (VDecimal 42), w).

(** A trial function that returns [Decimal(42)] twice and then the integer
    [1]; its world counts the calls. *)
Definition third_call_int : Simulator.trial nat :=
  fun w => (if (w <? 2)%nat then Ok (VDecimal 42) else Ok (VInt 1), S w).

(** A trial function that returns [Decimal(42)] twice and then raises an
    exception of a class whose constructor requires three arguments, as
    [json.JSONDecodeError(msg, doc, pos)] does. *)
Definition third_call_raises : Simulator.trial nat :=
  fun w =>
    (if (w <? 2)%nat then Ok (VDecimal 42)
     else Raise (Exn (UserException "JSONDecodeError" 3) "Expecting value" None),
     S w).

(** A heap with [Cost('Labor', 5)], [Cost('Labor', 7)], [Cost('Energy', 1)]
    and [Cost('Warehousing', 20)]. *)
Definition example_heap : Cost.heap :=
  [ {| Cost._Cost__name := Some "Labor"; Cost._Cost__value := Some 5 |};
    {| Cost._Cost__name := Some "Labor"; Cost._Cost__value := Some 7 |};
    {| Cost._Cost__name := Some "Energy"; Cost._Cost__value := Some 1 |};
    {| Cost._Cost__name := Some "Warehousing"; Cost._Cost__value := Some 20 |} ].

(** A produced product with the given demand and storage costs, and no
    production cost. *)
Definition example_product (demand : Q) (storage : Costs.dict) : Product.obj :=
  {| Product._Product__name := "Product I";
     Product._Product__inventory := 100;
     Product._Product__demand := demand;
     Product._Product__lead_time := 0;
     Product._Product__price := 0;
     Product.storage_costs := {| Costs._Costs__costs := storage |};
     Product.kind := Product.ProducedProduct Costs.__init__ |}.

(** A heap with [Cost('Ordering', 100)] and [Cost('Holding', 20)], and a
    produced product with the given demand, the production cost [Ordering]
    and the storage cost [Holding]. *)
Definition example_order_heap : Cost.heap :=
  [ {| Cost._Cost__name := Some "Ordering"; Cost._Cost__value := Some 100 |};
    {| Cost._Cost__name := Some "Holding"; Cost._Cost__value := Some 20 |} ].

Definition example_ordered_product (demand : Q) : Product.obj :=
  {| Product._Product__name := "Product III";
     Product._Product__inventory := 100;
     Product._Product__demand := demand;
     Product._Product__lead_time := 0;
     Product._Product__price := 0;
     Product.storage_costs := {| Costs._Costs__costs := [("Holding"%string, 1%nat)] |};
     Product.kind :=
       Product.ProducedProduct {| Costs._Costs__costs := [("Ordering"%string, 0%nat)] |} |}.

(** ** Assignments to a center *)

(** An assignment to [name] or to [address]; a caller may catch the
    exception it raises and go on with the center. *)
Inductive Center_assignment : Type :=
| AssignName (value : PyVal)
| AssignAddress (value : PyVal).

Definition Center_assign (a : Center_assignment) : M Center.obj unit :=
  match a with
  | AssignName value => Center.set_name value
  | AssignAddress value => Center.set_address value
  end.

(** The center after a sequence of assignments, and the outcome of each. *)
Fixpoint Center_assign_all (l : list Center_assignment) (self : Center.obj)
    : list (result unit) * Center.obj :=
  match l with
  | [] => ([], self)
  | a :: l' =>
      let (r, self') := Center_assign a self in
      let (rs, self'') := Center_assign_all l' self' in
      (r :: rs, self'')
  end.

(** An assignment that gives the center a new address: one of a non-empty
    string to [address]. *)
Definition assigns_address (a : Center_assignment) : bool :=
  match a with
  | AssignAddress (VStr s) => negb (s =? EmptyString)%string
  | _ => false
  end.

(** ** Values a numeric setter accepts *)

(** [value] has an accepted type and converts to the decimal [d], which is
    not negative. *)
Definition accepted_Decimal `{PyLib} (value : PyVal) (d : Q) : Prop :=
  isinstance_str_float_Decimal_int value = true /\ Decimal value = Ok d /\ 0 <= d.

(** The outcome of the sign check of a setter, for the decimal [d]
    converted from [value]. *)
Definition sign_check (negative : string) (value : PyVal) (d : Q) : result unit :=
  if Qltb d 0 then Raise (Exn ValueError negative (Some value)) else Ok tt.

(** An instance of the base class, and a produced product with a demand
    of [1000], the storage cost [Warehousing] and the production cost
    [Labor] of [example_heap]. *)
Definition example_base_product : Product.obj :=
  {| Product._Product__name := "Product 0";
     Product._Product__inventory := 0;
     Product._Product__demand := 1000;
     Product._Product__lead_time := 0;
     Product._Product__price := 0;
     Product.storage_costs := {| Costs._Costs__costs := [("Warehousing"%string, 3%nat)] |};
     Product.kind := Product.Product |}.

Definition example_stocked_product : Product.obj :=
  {| Product._Product__name := "Product I";
     Product._Product__inventory := 100;
     Product._Product__demand := 1000;
     Product._Product__lead_time := 0;
     Product._Product__price := 0;
     Product.storage_costs := {| Costs._Costs__costs := [("Warehousing"%string, 3%nat)] |};
     Product.kind :=
       Product.ProducedProduct {| Costs._Costs__costs := [("Labor"%string, 0%nat)] |} |}.

(** A simulator of three trials, before and after the results [3], [1]
    and [2]. *)
Definition example_simulator : Simulator.obj :=
  {| Simulator.times := VInt 3; Simulator.title := VStr "Example";
     Simulator.results := [] |}.

Definition example_simulator_run : Simulator.obj :=
  {| Simulator.times := VInt 3; Simulator.title := VStr "Example";
     Simulator.results := [3; 1; 2] |}.

(** A world with no cost, nothing printed and the generator of
    [lowest_draw]. *)
Definition example_world : world unit :=
  {| world_heap := []; world_generator := tt; world_printed := [] |}.

(** * Properties *)

(** ** Comparisons on rationals *)

Lemma Qltb_lt (x y : Q) : Qltb x y = true <-> x < y.
Proof.
  unfold Qltb. rewrite negb_true_iff.
  destruct (Qle_bool y x) eqn:E.
  - apply Qle_bool_iff in E. split; [discriminate | intros L; exfalso; lra].
  - split; [intros _ | reflexivity].
    destruct (Qlt_le_dec x y) as [L | L]; [exact L |].
    apply Qle_bool_iff in L. congruence.
Qed.

Lemma Qltb_ge (x y : Q) : Qltb x y = false <-> y <= x.
Proof.
  unfold Qltb. rewrite negb_false_iff. apply Qle_bool_iff.
Qed.

Lemma Qnonzero_false (x : Q) : Qnonzero x = false <-> x == 0.
Proof.
  unfold Qnonzero. rewrite negb_false_iff. apply Qeq_bool_iff.
Qed.

Lemma Qnonzero_true (x : Q) : Qnonzero x = true <-> ~ x == 0.
Proof.
  rewrite <- Qnonzero_false. destruct (Qnonzero x); split; congruence.
Qed.

(** ** Rounding *)

(** *** Logarithms *)

Lemma Zlog_loop_spec (b : Z) (fuel : nat) (n : Z) :
  (2 <= b)%Z -> (1 <= n < 2 ^ Z.of_nat fuel)%Z ->
  (0 <= Zlog_loop fuel b n /\
   b ^ Zlog_loop fuel b n <= n < b ^ (Zlog_loop fuel b n + 1))%Z.
Proof.
  intros Hb. revert n. induction fuel as [| fuel IH]; intros n Hn.
  - simpl in Hn. lia.
  - cbn [Zlog_loop]. destruct (Z.ltb_spec n b) as [Hlt | Hge].
    + rewrite Z.pow_0_r, Z.pow_1_r. lia.
    + assert (Hq : (1 <= n / b < 2 ^ Z.of_nat fuel)%Z).
      { split.
        - apply Z.div_le_lower_bound; lia.
        - apply Z.div_lt_upper_bound; [lia |].
          rewrite Nat2Z.inj_succ, Z.pow_succ_r in Hn by lia.
          assert (0 < 2 ^ Z.of_nat fuel)%Z by (apply Z.pow_pos_nonneg; lia).
          nia. }
      destruct (IH _ Hq) as (H0 & Hlo & Hhi).
      set (k := Zlog_loop fuel b (n / b)) in *.
      split; [lia |].
      replace (1 + k)%Z with (Z.succ k) by lia.
      replace (Z.succ k + 1)%Z with (Z.succ (k + 1)) by lia.
      rewrite !Z.pow_succ_r by lia.
      pose proof (Z.div_mod n b ltac:(lia)) as Hdm.
      pose proof (Z.mod_pos_bound n b ltac:(lia)) as Hmod.
      split; nia.
Qed.

Lemma Zlog_spec (b n : Z) :
  (2 <= b)%Z -> (1 <= n)%Z ->
  (0 <= Zlog b n /\ b ^ Zlog b n <= n < b ^ (Zlog b n + 1))%Z.
Proof.
  intros Hb Hn. apply Zlog_loop_spec; [exact Hb |].
  split; [exact Hn |].
  rewrite Nat2Z.inj_succ, Z2Nat.id by apply Z.log2_nonneg.
  apply Z.log2_spec. lia.
Qed.

Lemma Qlog_spec (b : Z) (v : Q) :
  (2 <= b)%Z -> 0 < v ->
  inject_Z b ^ Qlog b v <= v /\ v < inject_Z b ^ (Qlog b v + 1).
Proof.
  intros Hb Hv. destruct v as [n d]. unfold Qlog. cbn [Qnum Qden].
  assert (Hn : (0 < n)%Z).
  { unfold Qlt in Hv. simpl in Hv. lia. }
  destruct (Z.leb_spec (Z.pos d) n) as [Hle | Hgt].
  - assert (Hq : (1 <= n / Z.pos d)%Z) by (apply Z.div_le_lower_bound; lia).
    destruct (Zlog_spec b _ Hb Hq) as (H0 & Hlo & Hhi).
    set (k := Zlog b (n / Z.pos d)) in *.
    rewrite <- !Zpower_Qpower by lia.
    pose proof (Z.div_mod n (Z.pos d) ltac:(lia)) as Hdm.
    pose proof (Z.mod_pos_bound n (Z.pos d) ltac:(lia)) as Hmod.
    unfold Qle, Qlt. cbn [Qnum Qden inject_Z]. split; nia.
  - assert (Hq : (1 <= (Z.pos d - 1) / n)%Z) by (apply Z.div_le_lower_bound; lia).
    destruct (Zlog_spec b _ Hb Hq) as (H0 & Hlo & Hhi).
    set (k := Zlog b ((Z.pos d - 1) / n)) in *.
    pose proof (Z.div_mod (Z.pos d - 1) n ltac:(lia)) as Hdm.
    pose proof (Z.mod_pos_bound (Z.pos d - 1) n ltac:(lia)) as Hmod.
    assert (Hbk : (0 < b ^ k)%Z) by (apply Z.pow_pos_nonneg; lia).
    assert (Hbk1 : (0 < b ^ (k + 1))%Z) by (apply Z.pow_pos_nonneg; lia).
    replace (- (1 + k) + 1)%Z with (- k)%Z by lia.
    replace (- (1 + k))%Z with (- (k + 1))%Z by lia.
    rewrite !Qpower_opp, <- !Zpower_Qpower by lia.
    split.
    + apply Qle_shift_inv_r.
      * unfold Qlt. simpl. lia.
      * unfold Qle. cbn [Qnum Qden inject_Z Qmult]. nia.
    + apply Qlt_shift_inv_l.
      * unfold Qlt. simpl. lia.
      * unfold Qlt. cbn [Qnum Qden inject_Z Qmult]. nia.
Qed.

Lemma Qlog_unique (b : Z) (v : Q) (k : Z) :
  (2 <= b)%Z -> 0 < v ->
  inject_Z b ^ k <= v -> v < inject_Z b ^ (k + 1) ->
  Qlog b v = k.
Proof.
  intros Hb Hv Hlo Hhi.
  destruct (Qlog_spec b v Hb Hv) as [Hlo' Hhi'].
  assert (H1 : 1 < inject_Z b) by (unfold Qlt; simpl; lia).
  assert (A : (Qlog b v < k + 1)%Z).
  { apply Qpower_lt_compat_l_inv with (q := inject_Z b); [| exact H1].
    eapply Qle_lt_trans; [exact Hlo' | exact Hhi]. }
  assert (B : (k < Qlog b v + 1)%Z).
  { apply Qpower_lt_compat_l_inv with (q := inject_Z b); [| exact H1].
    eapply Qle_lt_trans; [exact Hlo | exact Hhi']. }
  lia.
Qed.

Lemma round_half_even_ge (x : Q) (n : Z) :
  inject_Z n <= x -> (n <= round_half_even x)%Z.
Proof.
  intros H. assert (Hf : (n <= Qfloor x)%Z).
  { rewrite <- (Qfloor_Z n). apply Qfloor_resp_le, H. }
  unfold round_half_even.
  destruct (Qcompare _ _); [destruct (Z.even _) | |]; lia.
Qed.

Lemma round_half_even_le (x : Q) (n : Z) :
  x <= inject_Z n -> (round_half_even x <= n)%Z.
Proof.
  intros H. unfold round_half_even.
  pose proof (Qfloor_le x) as Hfl.
  pose proof (Qlt_floor x) as Hfu.
  assert (Hf : (Qfloor x <= n)%Z).
  { rewrite Zle_Qle. lra. }
  destruct (Z.eq_dec (Qfloor x) n) as [E | E].
  - assert (Hx : x == inject_Z (Qfloor x)) by (rewrite E in *; lra).
    destruct (Qcompare_spec (x - inject_Z (Qfloor x)) (1 # 2)) as [C | C | C];
      try lra. lia.
  - destruct (Qcompare _ _); [destruct (Z.even _) | |]; lia.
Qed.

Lemma round_half_even_Z (n : Z) : round_half_even (inject_Z n) = n.
Proof.
  apply Z.le_antisymm.
  - apply round_half_even_le. lra.
  - apply round_half_even_ge. lra.
Qed.

Lemma round_half_even_near (x : Q) :
  x - (1 # 2) <= inject_Z (round_half_even x) <= x + (1 # 2).
Proof.
  unfold round_half_even.
  pose proof (Qfloor_le x) as Hfl.
  pose proof (Qlt_floor x) as Hfu.
  rewrite inject_Z_plus in Hfu. change (inject_Z 1) with 1 in Hfu.
  destruct (Qcompare_spec (x - inject_Z (Qfloor x)) (1 # 2)) as [C | C | C].
  - destruct (Z.even _);
      [| rewrite inject_Z_plus; change (inject_Z 1) with 1]; lra.
  - lra.
  - rewrite inject_Z_plus. change (inject_Z 1) with 1. lra.
Qed.

(** *** Rounding at an exponent *)

Lemma Qeq_bool_false (x y : Q) : Qeq_bool x y = false -> ~ x == y.
Proof.
  intros E H. apply Qeq_bool_iff in H. congruence.
Qed.

Section precision.

Variables b p : Z.
Hypothesis Hb : (2 <= b)%Z.
Hypothesis Hp : (1 <= p)%Z.

Lemma base_gt_1 : 1 < inject_Z b.
Proof. unfold Qlt. simpl. lia. Qed.

Lemma base_neq_0 : ~ inject_Z b == 0.
Proof. pose proof base_gt_1. lra. Qed.

Lemma base_pow_pos (k : Z) : 0 < inject_Z b ^ k.
Proof. apply Qpower_0_lt. pose proof base_gt_1. lra. Qed.

(** The scaled significand of a positive [v] has [p] digits. *)
Lemma scaled_range (v : Q) :
  0 < v ->
  let e := (Qlog b v - (p - 1))%Z in
  inject_Z (b ^ (p - 1)) <= v / inject_Z b ^ e /\ v / inject_Z b ^ e < inject_Z (b ^ p).
Proof.
  intros Hv e. destruct (Qlog_spec b v Hb Hv) as [Hlo Hhi].
  pose proof (base_pow_pos e) as He.
  rewrite !Zpower_Qpower by lia.
  replace (Qlog b v) with (e + (p - 1))%Z in Hlo by (unfold e; lia).
  replace (Qlog b v + 1)%Z with (e + p)%Z in Hhi by (unfold e; lia).
  rewrite Qpower_plus in Hlo, Hhi by apply base_neq_0.
  split.
  - apply Qle_shift_div_l; [exact He |]. lra.
  - apply Qlt_shift_div_r; [exact He |]. lra.
Qed.

Lemma round_at_nonneg (e : Z) (v : Q) : 0 <= v -> 0 <= round_at b e v.
Proof.
  intros Hv. unfold round_at. rewrite Qred_correct.
  pose proof (base_pow_pos e) as He.
  assert (H0 : (0 <= round_half_even (v / inject_Z b ^ e))%Z).
  { apply round_half_even_ge. change (inject_Z 0) with 0.
    apply Qle_shift_div_l; [exact He |]. lra. }
  apply Qmult_le_0_compat; [| lra]. rewrite Zle_Qle in H0. exact H0.
Qed.

Lemma round_at_nonpos (e : Z) (v : Q) : v <= 0 -> round_at b e v <= 0.
Proof.
  intros Hv. unfold round_at. rewrite Qred_correct.
  pose proof (base_pow_pos e) as He.
  assert (H0 : (round_half_even (v / inject_Z b ^ e) <= 0)%Z).
  { apply round_half_even_le. change (inject_Z 0) with 0.
    apply Qle_shift_div_r; [exact He |]. lra. }
  rewrite Zle_Qle in H0. change (inject_Z 0) with 0 in H0.
  assert (0 <= (- inject_Z (round_half_even (v / inject_Z b ^ e))) * inject_Z b ^ e).
  { apply Qmult_le_0_compat; lra. }
  lra.
Qed.


Lemma round_at_upper (v hi : Q) :
  0 < v -> v <= hi -> fits b p hi ->
  round_at b (Qlog b v - (p - 1)) v <= hi.
Proof.
  intros Hv Hle [m Hm]. unfold round_at. rewrite Qred_correct.
  set (e := (Qlog b v - (p - 1))%Z).
  destruct (scaled_range v Hv) as [Hlo Hhi]. fold e in Hlo, Hhi.
  pose proof (base_pow_pos e) as He.
  destruct (Qlog_spec b v Hb Hv) as [Slo Shi].
  destruct (Qlt_le_dec hi (inject_Z b ^ (Qlog b v + 1))) as [Hin | Hout].
  - assert (El : Qlog b hi = Qlog b v).
    { apply Qlog_unique; [exact Hb | lra | lra | exact Hin]. }
    rewrite El in Hm. fold e in Hm.
    assert (Ht : v / inject_Z b ^ e <= inject_Z m).
    { apply Qle_shift_div_r; [exact He |]. lra. }
    apply round_half_even_le in Ht. rewrite Zle_Qle in Ht.
    rewrite Hm. apply Qmult_le_compat_r; [exact Ht | lra].
  - assert (Ht : v / inject_Z b ^ e <= inject_Z (b ^ p)) by lra.
    apply round_half_even_le in Ht. rewrite Zle_Qle in Ht.
    replace (Qlog b v + 1)%Z with (p + e)%Z in Hout by (unfold e; lia).
    rewrite Qpower_plus in Hout by apply base_neq_0.
    rewrite Zpower_Qpower in Ht by lia.
    eapply Qle_trans; [| exact Hout].
    apply Qmult_le_compat_r; [exact Ht | lra].
Qed.

Lemma round_at_lower (v lo : Q) :
  0 < lo -> lo <= v -> fits b p lo ->
  lo <= round_at b (Qlog b v - (p - 1)) v.
Proof.
  intros Hlo0 Hle [m Hm]. unfold round_at. rewrite Qred_correct.
  assert (Hv : 0 < v) by lra.
  set (e := (Qlog b v - (p - 1))%Z).
  destruct (scaled_range v Hv) as [Hlo Hhi]. fold e in Hlo, Hhi.
  pose proof (base_pow_pos e) as He.
  destruct (Qlog_spec b v Hb Hv) as [Slo Shi].
  destruct (Qlt_le_dec lo (inject_Z b ^ Qlog b v)) as [Hout | Hin].
  - apply round_half_even_ge in Hlo. rewrite Zle_Qle in Hlo.
    rewrite Zpower_Qpower in Hlo by lia.
    replace (Qlog b v) with ((p - 1) + e)%Z in Hout by (unfold e; lia).
    rewrite Qpower_plus in Hout by apply base_neq_0.
    eapply Qle_trans; [apply Qlt_le_weak, Hout |].
    apply Qmult_le_compat_r; [exact Hlo | lra].
  - assert (El : Qlog b lo = Qlog b v).
    { apply Qlog_unique; [exact Hb | lra | lra | lra]. }
    rewrite El in Hm. fold e in Hm.
    assert (Ht : inject_Z m <= v / inject_Z b ^ e).
    { apply Qle_shift_div_l; [exact He |]. lra. }
    apply round_half_even_ge in Ht. rewrite Zle_Qle in Ht.
    rewrite Hm. apply Qmult_le_compat_r; [exact Ht | lra].
Qed.


(** The error of rounding is at most half a unit of the last digit. *)
Lemma round_at_near (e : Z) (v : Q) :
  v - (1 # 2) * inject_Z b ^ e <= round_at b e v <= v + (1 # 2) * inject_Z b ^ e.
Proof.
  unfold round_at. rewrite Qred_correct.
  pose proof (base_pow_pos e) as He.
  pose proof (round_half_even_near (v / inject_Z b ^ e)) as [Hl Hu].
  assert (Ev : v == v / inject_Z b ^ e * inject_Z b ^ e) by (field; lra).
  set (t := v / inject_Z b ^ e) in *.
  set (r := inject_Z (round_half_even t)) in *.
  set (Be := inject_Z b ^ e) in *.
  assert ((t - (1 # 2)) * Be <= r * Be) by (apply Qmult_le_compat_r; lra).
  assert (r * Be <= (t + (1 # 2)) * Be) by (apply Qmult_le_compat_r; lra).
  split; lra.
Qed.

End precision.

(** *** The context of [decimal] and the doubles *)

Lemma Qlog_comp (b : Z) (x y : Q) :
  (2 <= b)%Z -> 0 < x -> x == y -> Qlog b x = Qlog b y.
Proof.
  intros Hb Hx E. assert (Hy : 0 < y) by lra.
  destruct (Qlog_spec b y Hb Hy) as [Hlo Hhi].
  apply Qlog_unique; [exact Hb | exact Hx | lra | lra].
Qed.

Lemma Qlog_Qabs_Qred (b : Z) (v : Q) :
  (2 <= b)%Z -> 0 < v -> Qlog b (Qabs (Qred v)) = Qlog b v.
Proof.
  intros Hb Hv. apply Qlog_comp; [exact Hb | |].
  - rewrite Qabs_pos; rewrite Qred_correct; lra.
  - rewrite Qabs_pos; rewrite Qred_correct; lra.
Qed.

Lemma Decimal_fits_fits (v : Q) :
  0 < v -> Decimal_fits v = true -> fits 10 28 v.
Proof.
  intros Hv. unfold Decimal_fits.
  destruct (Qeq_bool (Qred v) 0) eqn:E0.
  { apply Qeq_bool_iff in E0. rewrite Qred_correct in E0. lra. }
  rewrite (Qlog_Qabs_Qred 10 v) by (lia || exact Hv). simpl orb.
  intros Ht. apply Qeq_bool_iff in Ht.
  exists (Qfloor (Qred v / inject_Z 10 ^ (Qlog 10 v - 27))).
  change (28 - 1)%Z with 27%Z.
  pose proof (base_pow_pos 10 ltac:(lia) (Qlog 10 v - 27)) as He.
  rewrite Ht. transitivity (Qred v); [symmetry; apply Qred_correct |].
  field. lra.
Qed.

(** Rounding to the context keeps a value between bounds of at most 28
    digits. *)
Lemma context_round_upper (v hi : Q) :
  0 <= v -> v <= hi -> Decimal_fits hi = true -> context_round v <= hi.
Proof.
  intros Hv Hle Hhi. unfold context_round.
  destruct (Qeq_bool (Qred v) 0) eqn:E0; [lra |].
  apply Qeq_bool_false in E0. rewrite Qred_correct in E0.
  assert (Hv' : 0 < v) by lra.
  rewrite (Qlog_Qabs_Qred 10 v) by (lia || exact Hv').
  rewrite <- (Qlog_comp 10 (Qred v) v) by (lia || rewrite Qred_correct; lra).
  apply (round_at_upper 10 28); try lia; rewrite ?Qred_correct; try lra.
  apply Decimal_fits_fits; [lra | exact Hhi].
Qed.

Lemma context_round_lower (v lo : Q) :
  0 <= lo -> lo <= v -> Decimal_fits lo = true -> lo <= context_round v.
Proof.
  intros Hlo Hle Hfit. unfold context_round.
  destruct (Qeq_bool (Qred v) 0) eqn:E0.
  { apply Qeq_bool_iff in E0. rewrite Qred_correct in E0. lra. }
  apply Qeq_bool_false in E0. rewrite Qred_correct in E0.
  assert (Hv' : 0 < v) by lra.
  rewrite (Qlog_Qabs_Qred 10 v) by (lia || exact Hv').
  destruct (Qle_lt_or_eq _ _ Hlo) as [Hpos | Hz].
  - rewrite <- (Qlog_comp 10 (Qred v) v) by (lia || rewrite Qred_correct; lra).
    apply (round_at_lower 10 28); try lia; rewrite ?Qred_correct; try lra.
    apply Decimal_fits_fits; [lra | exact Hfit].
  - rewrite <- Hz. apply (round_at_nonneg 10); [lia |].
    rewrite Qred_correct. lra.
Qed.


(** Within the exponent range, a result that is not zero is at least
    [10 ^ Emin] and its rounding is below [10 ^ (Emax + 1)]. *)
Lemma context_range_bounds (v : Q) :
  context_range v = true -> ~ v == 0 ->
  inject_Z 10 ^ (-999999) <= Qabs v
  /\ Qabs (context_round v) < inject_Z 10 ^ 1000000.
Proof.
  unfold context_range. intros Hr Hv.
  destruct (Qeq_bool v 0) eqn:E0.
  { apply Qeq_bool_iff in E0. contradiction. }
  simpl in Hr. apply andb_prop in Hr. destruct Hr as [Hlo Hhi].
  apply Z.leb_le in Hlo, Hhi.
  assert (H10 : 1 <= inject_Z 10) by (unfold Qle; simpl; lia).
  split.
  - assert (Ha : 0 < Qabs v).
    { destruct (Qlt_le_dec 0 (Qabs v)) as [Hp | Hz]; [exact Hp |].
      exfalso. apply Hv. apply Qabs_Qle_condition in Hz. lra. }
    destruct (Qlog_spec 10 (Qabs v) ltac:(lia) Ha) as [Hs _].
    eapply Qle_trans; [| exact Hs].
    apply Qpower_le_compat_l; [exact Hlo | exact H10].
  - set (r := Qabs (context_round v)) in *.
    destruct (Qlt_le_dec 0 r) as [Hp | Hz].
    + destruct (Qlog_spec 10 r ltac:(lia) Hp) as [_ Hs].
      eapply Qlt_le_trans; [exact Hs |].
      apply Qpower_le_compat_l; [lia | exact H10].
    + eapply Qle_lt_trans; [exact Hz |].
      apply Qpower_0_lt. reflexivity.
Qed.


Lemma float_round_comp (x y : Q) : x == y -> float_round x = float_round y.
Proof.
  intros E. unfold float_round. rewrite (Qred_complete x y E). reflexivity.
Qed.

(** Rounding to a double keeps the sign. *)
Lemma float_round_nonneg (v r : Q) :
  0 <= v -> float_round v = Finite r -> 0 <= r.
Proof.
  intros Hv. unfold float_round.
  destruct (Qeq_bool (Qred v) 0); [intros [= <-]; lra |].
  destruct (Qle_bool _ _); [discriminate |]. intros [= <-].
  apply (round_at_nonneg 2); [lia |]. rewrite Qred_correct. exact Hv.
Qed.

Lemma float_round_nonpos (v r : Q) :
  v <= 0 -> float_round v = Finite r -> r <= 0.
Proof.
  intros Hv. unfold float_round.
  destruct (Qeq_bool (Qred v) 0); [intros [= <-]; lra |].
  destruct (Qle_bool _ _); [discriminate |]. intros [= <-].
  apply (round_at_nonpos 2); [lia |]. rewrite Qred_correct. exact Hv.
Qed.

(** *** The error of rounding *)

(** Rounding to the context is within a relative error of half a unit of
    the 28th digit. *)
Lemma context_round_near (v : Q) :
  0 < v ->
  v * (1 - context_unit) <= context_round v <= v * (1 + context_unit).
Proof.
  intros Hv. unfold context_round.
  destruct (Qeq_bool (Qred v) 0) eqn:E0.
  { apply Qeq_bool_iff in E0. rewrite Qred_correct in E0. lra. }
  rewrite (Qlog_Qabs_Qred 10 v) by (lia || exact Hv).
  pose proof (round_at_near 10 ltac:(lia) (Qlog 10 v - 27) (Qred v)) as Hnear.
  destruct (Qlog_spec 10 v ltac:(lia) Hv) as [Hlo _].
  replace (Qlog 10 v) with ((Qlog 10 v - 27) + 27)%Z in Hlo at 1 by lia.
  rewrite Qpower_plus in Hlo by (apply base_neq_0; lia).
  pose proof (base_pow_pos 10 ltac:(lia) (Qlog 10 v - 27)) as He.
  set (Be := inject_Z 10 ^ (Qlog 10 v - 27)) in *.
  set (r := round_at 10 (Qlog 10 v - 27) (Qred v)) in *.
  assert (E27 : inject_Z 10 ^ 27 == 1000000000000000000000000000) by reflexivity.
  rewrite E27 in Hlo. rewrite Qred_correct in Hnear.
  unfold context_unit. lra.
Qed.

Lemma Qlog_lower (b : Z) (v : Q) (k : Z) :
  (2 <= b)%Z -> 0 < v -> inject_Z b ^ k <= v -> (k <= Qlog b v)%Z.
Proof.
  intros Hb Hv Hk. destruct (Qlog_spec b v Hb Hv) as [_ Hhi].
  assert (H : (k < Qlog b v + 1)%Z).
  { apply Qpower_lt_compat_l_inv with (q := inject_Z b);
      [| apply base_gt_1; exact Hb].
    eapply Qle_lt_trans; [exact Hk | exact Hhi]. }
  lia.
Qed.

(** A positive value in the range of the normal doubles rounds to a
    double within a relative error of [2 ^ -53]. *)
Lemma float_round_near (v : Q) :
  inject_Z 2 ^ (-1022) <= v -> v <= inject_Z 2 ^ 1023 ->
  exists y,
    float_round v = Finite y
    /\ v * (1 - double_unit) <= y <= v * (1 + double_unit).
Proof.
  intros Hlo Hhi.
  assert (Hv : 0 < v).
  { eapply Qlt_le_trans; [| exact Hlo]. apply base_pow_pos. lia. }
  unfold float_round.
  destruct (Qeq_bool (Qred v) 0) eqn:E0.
  { apply Qeq_bool_iff in E0. rewrite Qred_correct in E0. lra. }
  rewrite (Qlog_Qabs_Qred 2 v) by (lia || exact Hv).
  pose proof (Qlog_lower 2 v (-1022) ltac:(lia) Hv Hlo) as Hk.
  rewrite Z.max_l by lia.
  pose proof (round_at_near 2 ltac:(lia) (Qlog 2 v - 52) (Qred v)) as Hnear.
  assert (Hpos : 0 <= round_at 2 (Qlog 2 v - 52) (Qred v)).
  { apply round_at_nonneg; [lia |]. rewrite Qred_correct. lra. }
  destruct (Qlog_spec 2 v ltac:(lia) Hv) as [Slo _].
  replace (Qlog 2 v) with ((Qlog 2 v - 52) + 52)%Z in Slo at 1 by lia.
  rewrite Qpower_plus in Slo by (apply base_neq_0; lia).
  pose proof (base_pow_pos 2 ltac:(lia) (Qlog 2 v - 52)) as He.
  set (Be := inject_Z 2 ^ (Qlog 2 v - 52)) in *.
  set (r := round_at 2 (Qlog 2 v - 52) (Qred v)) in *.
  assert (E52 : inject_Z 2 ^ 52 == 4503599627370496) by reflexivity.
  rewrite E52 in Slo. rewrite Qred_correct in Hnear.
  assert (Hr : v * (1 - double_unit) <= r <= v * (1 + double_unit))
    by (unfold double_unit; lra).
  assert (Hfin : Qle_bool (inject_Z 2 ^ 1024) (Qabs r) = false).
  { destruct (Qle_bool (inject_Z 2 ^ 1024) (Qabs r)) eqn:Ele; [| reflexivity].
    apply Qle_bool_iff in Ele. rewrite Qabs_pos in Ele by exact Hpos.
    assert (E1024 : inject_Z 2 ^ 1024 == 2 * inject_Z 2 ^ 1023).
    { change 1024%Z with (1 + 1023)%Z.
      rewrite Qpower_plus by (apply base_neq_0; lia). reflexivity. }
    pose proof (base_pow_pos 2 ltac:(lia) 1023) as H1023.
    rewrite E1024 in Ele. unfold double_unit in Hr. lra. }
  rewrite Hfin. exists r. split; [reflexivity | exact Hr].
Qed.



Lemma Qsquare_le (a b : Q) : 0 <= a -> a <= b -> a * a <= b * b.
Proof. intros. nra. Qed.

(** The root that [math.sqrt] returns for a positive double is within a
    relative error of [2 ^ -53] of the square root. *)
Lemma sqrt_round_near (y : Q) :
  0 < y ->
  0 < sqrt_round y
  /\ (sqrt_round y * (1 - double_unit)) * (sqrt_round y * (1 - double_unit)) <= y
  /\ y <= (sqrt_round y * (1 + double_unit)) * (sqrt_round y * (1 + double_unit)).
Proof.
  intros Hy. unfold sqrt_round.
  pose proof (Qred_correct y) as Ey.
  set (y' := Qred y) in *.
  assert (Hy' : 0 < y') by lra.
  destruct (Qeq_bool y' 0) eqn:E0.
  { apply Qeq_bool_iff in E0. lra. }
  destruct (Qlog_spec 2 y' ltac:(lia) Hy') as [Slo Shi].
  set (k := Qlog 2 y') in *.
  set (e := (k / 2 - 52)%Z).
  pose proof (Z.div_mod k 2 ltac:(lia)) as Hdm.
  pose proof (Z.mod_pos_bound k 2 ltac:(lia)) as Hmod.
  pose proof (base_pow_pos 2 ltac:(lia) (2 * e)) as H2e.
  pose proof (base_pow_pos 2 ltac:(lia) e) as He.
  assert (E2e : inject_Z 2 ^ (2 * e) == inject_Z 2 ^ e * inject_Z 2 ^ e).
  { replace (2 * e)%Z with (e + e)%Z by lia.
    apply Qpower_plus, base_neq_0. lia. }
  set (t := y' / inject_Z 2 ^ (2 * e)).
  assert (Et : y' == t * inject_Z 2 ^ (2 * e)) by (unfold t; field; lra).
  assert (Ht : inject_Z (2 ^ 104) <= t).
  { unfold t. apply Qle_shift_div_l; [exact H2e |].
    rewrite Zpower_Qpower by lia.
    rewrite <- Qpower_plus by (apply base_neq_0; lia).
    eapply Qle_trans; [| exact Slo].
    apply Qpower_le_compat_l; [unfold e; lia |].
    apply Qlt_le_weak, base_gt_1. lia. }
  set (F := Qfloor t).
  assert (HF : (2 ^ 104 <= F)%Z).
  { unfold F. rewrite <- (Qfloor_Z (2 ^ 104)). apply Qfloor_resp_le, Ht. }
  pose proof (Qfloor_le t) as HFl. pose proof (Qlt_floor t) as HFu.
  fold F in HFl, HFu. rewrite inject_Z_plus in HFu.
  change (inject_Z 1) with 1 in HFu.
  set (m := Z.sqrt F).
  assert (Hm : (2 ^ 52 <= m)%Z).
  { change (2 ^ 52)%Z with (Z.sqrt (2 ^ 104)). apply Z.sqrt_le_mono, HF. }
  destruct (Z.sqrt_spec F ltac:(lia)) as [Hsl Hsu]. fold m in Hsl, Hsu.
  assert (Qsl : inject_Z m * inject_Z m <= inject_Z F).
  { rewrite <- inject_Z_mult. rewrite <- Zle_Qle. exact Hsl. }
  assert (Qsu : inject_Z F + 1 <= (inject_Z m + 1) * (inject_Z m + 1)).
  { change 1 with (inject_Z 1). rewrite <- !inject_Z_plus, <- inject_Z_mult.
    rewrite <- Zle_Qle. unfold Z.succ in Hsu. lia. }
  assert (Qm : 4503599627370496 <= inject_Z m).
  { change 4503599627370496 with (inject_Z (2 ^ 52)). rewrite <- Zle_Qle. exact Hm. }
  assert (Esq : forall q : Q, q ^ 2 = q * q) by reflexivity.
  set (M := match Qcompare t ((inject_Z m + (1 # 2)) ^ 2) with
            | Lt => m
            | Eq => if Z.even m then m else (m + 1)%Z
            | Gt => (m + 1)%Z
            end).
  assert (HM : 4503599627370496 <= inject_Z M
               /\ (inject_Z M - (1 # 2)) * (inject_Z M - (1 # 2)) <= t
               /\ t <= (inject_Z M + (1 # 2)) * (inject_Z M + (1 # 2))).
  { unfold M.
    destruct (Qcompare_spec t ((inject_Z m + (1 # 2)) ^ 2)) as [C | C | C];
      rewrite Esq in C.
    - destruct (Z.even m).
      + split; [exact Qm |]. split; nra.
      + rewrite inject_Z_plus. change (inject_Z 1) with 1.
        split; [lra |]. split; nra.
    - split; [exact Qm |]. split; nra.
    - rewrite inject_Z_plus. change (inject_Z 1) with 1.
      split; [lra |]. split; nra. }
  destruct HM as (HM0 & HMl & HMu).
  set (R := inject_Z M) in *.
  rewrite Qred_correct.
  split; [apply Qmult_lt_0_compat; lra |].
  assert (A : (R * (1 - double_unit)) * (R * (1 - double_unit)) <= t).
  { eapply Qle_trans; [| exact HMl].
    apply Qsquare_le; unfold double_unit.
    - apply Qmult_le_0_compat; lra.
    - lra. }
  assert (B : t <= (R * (1 + double_unit)) * (R * (1 + double_unit))).
  { eapply Qle_trans; [exact HMu |].
    apply Qsquare_le; unfold double_unit; lra. }
  rewrite <- Ey, Et, E2e.
  set (P := inject_Z 2 ^ e) in *.
  assert (HPP : 0 <= P * P) by (apply Qmult_le_0_compat; lra).
  split.
  - assert (E : R * P * (1 - double_unit) * (R * P * (1 - double_unit)) ==
                (R * (1 - double_unit)) * (R * (1 - double_unit)) * (P * P))
      by ring.
    rewrite E. apply Qmult_le_compat_r; assumption.
  - assert (E : R * P * (1 + double_unit) * (R * P * (1 + double_unit)) ==
                (R * (1 + double_unit)) * (R * (1 + double_unit)) * (P * P))
      by ring.
    rewrite E. apply Qmult_le_compat_r; assumption.
Qed.

(** ** Construction of a simulator *)

(** The guard [not value or not isinstance(value, str)] lets through the
    non-empty strings and nothing else. *)
Lemma nonempty_str_guard (value : PyVal) :
  negb (truthy value) || negb (isinstance_str value) = false <->
  exists s, value = VStr s /\ s <> EmptyString.
Proof.
  destruct value as [| b | z | q | s | q | l]; simpl;
    rewrite ?orb_true_r;
    try (split; [discriminate | intros (s' & E & _); discriminate]).
  rewrite orb_false_r, negb_involutive.
  destruct (String.eqb_spec s EmptyString) as [-> | Hne].
  - split; [discriminate | intros (s' & E & Hs); congruence].
  - split; [intros _; eauto | reflexivity].
Qed.

Lemma Simulator_init_accepts (times title : PyVal) (s : string) :
  isinstance_int times = true -> (0 <= int_value times)%Z ->
  title = VStr s -> s <> EmptyString ->
  Simulator.__init__ times title =
    Ok {| Simulator.times := times; Simulator.title := title;
          Simulator.results := [] |}.
Proof.
  intros Hint Hpos Ht Hs. unfold Simulator.__init__.
  rewrite Hint. apply Z.ltb_ge in Hpos. rewrite Hpos. simpl.
  assert (G : negb (truthy title) || negb (isinstance_str title) = false)
    by (apply nonempty_str_guard; eauto).
  rewrite G. reflexivity.
Qed.

Lemma Simulator_init_returns (times title : PyVal) (self : Simulator.obj) :
  Simulator.__init__ times title = Ok self ->
  isinstance_int times = true /\ (0 <= int_value times)%Z /\
  (exists s, title = VStr s /\ s <> EmptyString) /\
  self = {| Simulator.times := times; Simulator.title := title;
            Simulator.results := [] |}.
Proof.
  unfold Simulator.__init__.
  destruct (isinstance_int times); simpl; [| discriminate].
  destruct (int_value times <? 0)%Z eqn:El; simpl; [discriminate |].
  apply Z.ltb_ge in El.
  destruct (negb (truthy title) || negb (isinstance_str title)) eqn:Et;
    [discriminate |].
  apply nonempty_str_guard in Et. intros [= <-]. auto.
Qed.

Lemma Simulator_init_raises (times title : PyVal) (e : exn) :
  Simulator.__init__ times title = Raise e -> is_ValidationError e = true.
Proof.
  unfold Simulator.__init__.
  destruct (negb (isinstance_int times) || (int_value times <? 0)%Z);
    [intros [= <-]; reflexivity |].
  destruct (negb (truthy title) || negb (isinstance_str title));
    [intros [= <-]; reflexivity | discriminate].
Qed.

(** C9. [Simulator(times, title)] returns an instance exactly when [times]
    is an [int] (a [bool] is one) that is not negative and [title] is a
    non-empty [str]; for
    all other arguments it raises a validation error ([AttributeError] for
    [times], [TypeError] for [title]), and the instance it returns holds the
    two arguments and no results. *)
Theorem Simulator_init_validates (times title : PyVal) :
  ((exists self, Simulator.__init__ times title = Ok self) <->
   (isinstance_int times = true /\ (0 <= int_value times)%Z /\
    exists s, title = VStr s /\ s <> EmptyString))
  /\
  match Simulator.__init__ times title with
  | Ok self =>
      self = {| Simulator.times := times; Simulator.title := title;
                Simulator.results := [] |}
  | Raise e => is_ValidationError e = true
  end.
Proof.
  split.
  - split.
    + intros [self E]. apply Simulator_init_returns in E. tauto.
    + intros (Hint & Hpos & s & Ht & Hs). eexists.
      eapply Simulator_init_accepts; eauto.
  - destruct (Simulator.__init__ times title) as [self | e] eqn:E.
    + apply Simulator_init_returns in E. tauto.
    + eapply Simulator_init_raises, E.
Qed.

(** ** The representation of a cost collection *)

Section Costs_repr.
Context `{PyLib}.

(** C10. [repr] of a cost collection raises [AttributeError] for every
    collection and every heap: neither [name] nor [address] is an attribute
    of a [Costs] instance, and [name] is looked up first. *)
Theorem Costs_repr_raises_AttributeError (self : Costs.obj) (h : Cost.heap) :
  Costs.__repr__ self h =
    (Raise (Exn AttributeError "'Costs' object has no attribute" (Some (VStr "name"))), h)
  /\ Costs.getattr Costs.total self "address" h =
    (Raise (Exn AttributeError "'Costs' object has no attribute" (Some (VStr "address"))), h).
Proof.
  split; reflexivity.
Qed.

End Costs_repr.

(** ** Cost instances on the heap *)

Section Cost_facts.
Context `{PyLib}.

Lemma Cost_load_live (h : Cost.heap) (c : loc) (o : Cost.obj) :
  h !! c = Some o -> Cost.load c h = (Ok o, h).
Proof.
  intros E. unfold Cost.load. rewrite E. reflexivity.
Qed.

Lemma Cost_name_live (h : Cost.heap) (c : loc) (o : Cost.obj) (n : string) :
  h !! c = Some o -> Cost._Cost__name o = Some n -> Cost.name c h = (Ok n, h).
Proof.
  intros E En. unfold Cost.name, bind. rewrite (Cost_load_live _ _ _ E), En.
  reflexivity.
Qed.

Lemma Cost_value_live (h : Cost.heap) (c : loc) (o : Cost.obj) (v : Q) :
  h !! c = Some o -> Cost._Cost__value o = Some v -> Cost.value c h = (Ok v, h).
Proof.
  intros E Ev. unfold Cost.value, bind. rewrite (Cost_load_live _ _ _ E), Ev.
  reflexivity.
Qed.

(** Reading an attribute never changes the heap. *)
Lemma Cost_value_pure (h h' : Cost.heap) (c : loc) (r : result Q) :
  Cost.value c h = (r, h') -> h' = h.
Proof.
  unfold Cost.value, bind, Cost.load.
  destruct (Cost._Cost__value (default Cost.blank (h !! c)));
    unfold ret, raise; congruence.
Qed.

Lemma Cost_name_pure (h h' : Cost.heap) (c : loc) (r : result string) :
  Cost.name c h = (r, h') -> h' = h.
Proof.
  unfold Cost.name, bind, Cost.load.
  destruct (Cost._Cost__name (default Cost.blank (h !! c)));
    unfold ret, raise; congruence.
Qed.

(** What the setter of [value] does on a live instance, for a value of an
    accepted type that converts to [d]: [d] is stored, whatever its sign,
    and the sign decides the outcome. *)
Lemma Cost_set_value_stores (h : Cost.heap) (c : loc) (o : Cost.obj)
    (value : PyVal) (d : Q) :
  h !! c = Some o ->
  isinstance_str_float_Decimal_int value = true ->
  Decimal value = Ok d ->
  Cost.set_value c value h =
    (if Qltb d 0
     then Raise (Exn ValueError "The cost can not be negative:" (Some value))
     else Ok tt,
     <[c := {| Cost._Cost__name := Cost._Cost__name o;
               Cost._Cost__value := Some d |}]> h).
Proof.
  intros E Ei Ed. unfold Cost.set_value. rewrite Ei. simpl.
  unfold bind, lift. rewrite Ed, (Cost_load_live _ _ _ E). simpl.
  destruct (Qltb d 0); reflexivity.
Qed.

(** A failed assignment of a negative value leaves the negative value in
    the instance. *)
Lemma Cost_set_value_negative (h : Cost.heap) (c : loc) (o : Cost.obj)
    (value : PyVal) (d : Q) :
  h !! c = Some o ->
  isinstance_str_float_Decimal_int value = true ->
  Decimal value = Ok d ->
  d < 0 ->
  exists h',
    Cost.set_value c value h =
      (Raise (Exn ValueError "The cost can not be negative:" (Some value)), h')
    /\ Cost.value c h' = (Ok d, h').
Proof.
  intros E Ei Ed Hd.
  rewrite (Cost_set_value_stores h c o value d E Ei Ed).
  apply Qltb_lt in Hd. rewrite Hd.
  eexists. split; [reflexivity |].
  eapply Cost_value_live.
  - apply list_lookup_insert_eq. eapply lookup_lt_Some, E.
  - reflexivity.
Qed.

Lemma Cost_new_lookup (h : Cost.heap) :
  (h ++ [Cost.blank]) !! length h = Some Cost.blank.
Proof.
  rewrite lookup_app_r by lia. rewrite Nat.sub_diag. reflexivity.
Qed.

(** [Cost(name, value)] for a non-empty string [name] and a [value] that
    converts to [d]: the new instance holds [name] and [d], and the sign
    of [d] decides the outcome. *)
Lemma Cost_call_computes (n : string) (value : PyVal) (d : Q) (h : Cost.heap) :
  n <> EmptyString ->
  Decimal value = Ok d ->
  Cost.call [VStr n; value] h =
    (if Qltb d 0
     then Raise (Exn ValueError "The cost can not be negative:" (Some (VDecimal d)))
     else Ok (length h),
     h ++ [{| Cost._Cost__name := Some n; Cost._Cost__value := Some d |}]).
Proof.
  intros Hn Ed.
  unfold Cost.call, bind, Cost.new, Cost.__init__, bind, Cost.set_name.
  assert (G : negb (truthy (VStr n)) || negb (isinstance_str (VStr n)) = false)
    by (apply nonempty_str_guard; eauto).
  rewrite G. unfold bind.
  rewrite (Cost_load_live _ _ _ (Cost_new_lookup h)).
  unfold Cost.store, lift. simpl. rewrite Ed.
  set (h1 := <[length h := _]> (h ++ [Cost.blank])).
  assert (E1 : h1 !! length h =
               Some {| Cost._Cost__name := Some n; Cost._Cost__value := None |}).
  { apply list_lookup_insert_eq. rewrite length_app. simpl. lia. }
  rewrite (Cost_set_value_stores h1 _ _ (VDecimal d) d E1 eq_refl eq_refl).
  assert (E2 : <[length h := {| Cost._Cost__name := Some n;
                                 Cost._Cost__value := Some d |}]> h1 =
               h ++ [{| Cost._Cost__name := Some n; Cost._Cost__value := Some d |}]).
  { unfold h1. rewrite list_insert_insert_eq.
    rewrite insert_app_r_alt by lia. rewrite Nat.sub_diag. reflexivity. }
  simpl. rewrite E2. destruct (Qltb d 0); reflexivity.
Qed.

(** A constructor call that returns has built an instance with a name and
    a value that is not negative. *)
Lemma Cost_call_returns (args : list PyVal) (h h' : Cost.heap) (c : loc) :
  Cost.call args h = (Ok c, h') ->
  exists n d,
    c = length h /\
    h' = h ++ [{| Cost._Cost__name := Some n; Cost._Cost__value := Some d |}] /\
    0 <= d.
Proof.
  destruct args as [| name [| value [| x args]]]; try discriminate.
  destruct (negb (truthy name) || negb (isinstance_str name)) eqn:G.
  { unfold Cost.call, bind, Cost.new, Cost.__init__, bind, Cost.set_name.
    rewrite G. discriminate. }
  apply nonempty_str_guard in G. destruct G as (n & -> & Hn).
  destruct (Decimal value) as [d | e] eqn:Ed.
  - rewrite (Cost_call_computes n value d h Hn Ed).
    destruct (Qltb d 0) eqn:Hd; [discriminate |].
    intros [= <- <-]. exists n, d. repeat split. apply Qltb_ge, Hd.
  - unfold Cost.call, bind, Cost.new, Cost.__init__, bind, Cost.set_name.
    simpl. destruct (n =? EmptyString)%string; [discriminate |]. simpl.
    unfold bind, Cost.load, Cost.store, lift. rewrite Ed. discriminate.
Qed.

(** Constructing a cost with a negative value raises. *)
Lemma Cost_call_negative (name value : PyVal) (d : Q) (h : Cost.heap) :
  Decimal value = Ok d -> d < 0 ->
  exists e h', Cost.call [name; value] h = (Raise e, h').
Proof.
  intros Ed Hd.
  destruct (negb (truthy name) || negb (isinstance_str name)) eqn:G.
  - unfold Cost.call, bind, Cost.new, Cost.__init__, bind, Cost.set_name.
    rewrite G. unfold raise. eauto.
  - apply nonempty_str_guard in G. destruct G as (n & -> & Hn).
    rewrite (Cost_call_computes n value d h Hn Ed).
    apply Qltb_lt in Hd. rewrite Hd. eauto.
Qed.

End Cost_facts.

(** ** Initialised costs stay initialised *)

Section heap_evolution.
Context `{PyLib}.

Lemma store_initialised (h : Cost.heap) (c c' : loc) (o : Cost.obj) :
  initialised h c' ->
  (c = c' -> exists n v,
     o = {| Cost._Cost__name := Some n; Cost._Cost__value := Some v |}) ->
  initialised (<[c := o]> h) c'.
Proof.
  intros (n & v & E) Ho. destruct (decide (c = c')) as [-> | Hne].
  - destruct (Ho eq_refl) as (n' & v' & ->). exists n', v'.
    apply list_lookup_insert_eq. eapply lookup_lt_Some, E.
  - exists n, v. rewrite list_lookup_insert_ne by exact Hne. exact E.
Qed.

Lemma Cost_set_value_initialised (h h' : Cost.heap) (c c' : loc)
    (value : PyVal) (r : result unit) :
  initialised h c' ->
  Cost.set_value c value h = (r, h') ->
  initialised h' c'.
Proof.
  intros Hc'. unfold Cost.set_value.
  destruct (negb (isinstance_str_float_Decimal_int value));
    [unfold raise; intros [= _ <-]; exact Hc' |].
  unfold bind, lift.
  destruct (Decimal value) as [d | e]; [| intros [= _ <-]; exact Hc'].
  unfold Cost.load, Cost.store. simpl.
  intros E.
  assert (Hh' : h' = <[c := {| Cost._Cost__name :=
                                 Cost._Cost__name (default Cost.blank (h !! c));
                               Cost._Cost__value := Some d |}]> h).
  { destruct (Qltb d 0); unfold raise, ret in E; congruence. }
  rewrite Hh'. apply store_initialised; [exact Hc' |].
  intros ->. destruct Hc' as (n & v & ->). simpl. eauto.
Qed.

Lemma Cost_set_name_initialised (h h' : Cost.heap) (c c' : loc)
    (value : PyVal) (r : result unit) :
  initialised h c' ->
  Cost.set_name c value h = (r, h') ->
  initialised h' c'.
Proof.
  intros Hc'. unfold Cost.set_name.
  destruct (negb (truthy value) || negb (isinstance_str value));
    [unfold raise; intros [= _ <-]; exact Hc' |].
  destruct value; try (unfold raise; intros [= _ <-]; exact Hc').
  unfold bind, Cost.load, Cost.store. intros [= _ <-].
  apply store_initialised; [exact Hc' |].
  intros ->. destruct Hc' as (n & v & ->). simpl. eauto.
Qed.

Lemma new_initialised (h : Cost.heap) (c' : loc) :
  initialised h c' -> initialised (h ++ [Cost.blank]) c' /\ c' <> length h.
Proof.
  intros (n & v & E). pose proof (lookup_lt_Some _ _ _ E) as Hlt.
  split; [| lia]. exists n, v. rewrite lookup_app_l by exact Hlt. exact E.
Qed.

Lemma Cost_call_initialised (h h' : Cost.heap) (c' : loc)
    (args : list PyVal) (r : result loc) :
  initialised h c' ->
  Cost.call args h = (r, h') ->
  initialised h' c'.
Proof.
  intros Hc'. destruct (new_initialised h c' Hc') as [Hnew _].
  unfold Cost.call, bind, Cost.new.
  destruct args as [| name [| value [| x args]]];
    try (unfold raise; intros [= _ <-]; exact Hnew).
  unfold Cost.__init__, bind.
  destruct (Cost.set_name (length h) name (h ++ [Cost.blank]))
    as [[[] | e] h1] eqn:E1;
    apply (Cost_set_name_initialised _ _ _ c' _ _ Hnew) in E1;
    [| intros [= _ <-]; exact E1].
  unfold lift.
  destruct (Decimal value) as [d | e]; [| intros [= _ <-]; exact E1].
  destruct (Cost.set_value (length h) (VDecimal d) h1) as [[[] | e] h2] eqn:E2;
    apply (Cost_set_value_initialised _ _ _ c' _ _ E1) in E2;
    unfold ret; intros [= _ <-]; exact E2.
Qed.

(** A well-formed collection stays well formed while the heap evolves. *)
Lemma Costs_wf_mono (h h' : Cost.heap) (self : Costs.obj) :
  (forall c, initialised h c -> initialised h' c) ->
  Costs_wf h self -> Costs_wf h' self.
Proof.
  intros Hmono [Hk Hv]. split; [exact Hk |].
  eapply Forall_impl; [exact Hv | exact Hmono].
Qed.

End heap_evolution.

(** ** Re-assigning the value of a cost *)

Section Cost_value_setter.
Context `{PyLib}.

(** C7. The code breaks the invariant [value >= 0] on a failed
    re-assignment.  [c = Cost('Labor', 5)] holds [5]; [c.value = -1] then
    raises [ValueError], and afterwards the instance holds [-1], which the
    getter returns. *)
Theorem Cost_failed_assignment_keeps_negative_value :
  exists c h0 h1,
    Cost.call [VStr "Labor"; VInt 5] [] = (Ok c, h0)
    /\ Cost.value c h0 = (Ok 5, h0)
    /\ Cost.set_value c (VInt (-1)) h0 =
         (Raise (Exn ValueError "The cost can not be negative:" (Some (VInt (-1)))), h1)
    /\ Cost.value c h1 = (Ok (-1), h1)
    /\ ~ 0 <= -1.
Proof.
  eexists _, _, _.
  split; [reflexivity |]. split; [reflexivity |]. split; [reflexivity |].
  split; [reflexivity |]. intros L. lra.
Qed.

End Cost_value_setter.

(** ** Looking a cost up by name *)

Section Costs_get.
Context `{PyLib}.

(** [get] raises before the dictionary is read: its default, [Cost(name)],
    lacks the required argument [value]. *)
Lemma Costs_get_raises (self : Costs.obj) (name : PyVal) (h : Cost.heap) :
  Costs.get self name h =
    (Raise (Exn TypeError
       "Cost.__init__() missing 1 required positional argument: 'value'" None),
     h ++ [Cost.blank]).
Proof.
  reflexivity.
Qed.

(** C6. The code fails where the specification says it never does.  After
    [costs.add(Cost('Labor', 5))], [costs.get('Labor')] raises [TypeError]
    instead of returning the stored cost, and so does [get] of a name that
    was never added. *)
Theorem Costs_get_stored_name_raises :
  exists e,
    e = Exn TypeError
          "Cost.__init__() missing 1 required positional argument: 'value'" None
    /\ fst ((c <- Cost.call [VStr "Labor"; VInt 5] ;;
             costs <- Costs.add Costs.__init__ (VCost c) ;;
             Costs.get costs (VStr "Labor"))%py []) = Raise e
    /\ fst ((c <- Cost.call [VStr "Labor"; VInt 5] ;;
             costs <- Costs.add Costs.__init__ (VCost c) ;;
             Costs.get costs (VStr "Energy"))%py []) = Raise e.
Proof.
  eexists. split; [reflexivity |]. split; reflexivity.
Qed.

End Costs_get.

(** ** Sums *)



(** Bounds on the items bound [sum], when the sums of the bounds have at
    most 28 digits. *)
Lemma Decimal_sum_bounded_from (bounds : list (Q * Q)) (values : list Q)
    (lo hi acc : Q) :
  Forall2 within bounds values ->
  0 <= lo -> lo <= acc <= hi ->
  bounds_fit lo hi bounds = true ->
  lo + Qsum (map fst bounds) <= fold_left Decimal_add values acc
    <= hi + Qsum (map snd bounds).
Proof.
  intros Hb. revert lo hi acc.
  induction Hb as [| [l u] x bounds values [Hl Hu] Hb IH]; intros lo hi acc H0 Hacc Hf.
  - simpl. lra.
  - cbn [bounds_fit] in Hf. rewrite !andb_true_iff in Hf.
    destruct Hf as [[[Hl0 Hfl] Hfu] Hf]. apply Qle_bool_iff in Hl0.
    cbn [fst snd] in Hl, Hu.
    cbn [fold_left map Qsum fold_right fst snd].
    fold (Qsum (map fst bounds)). fold (Qsum (map snd bounds)).
    assert (Hstep : lo + l <= Decimal_add acc x <= hi + u).
    { unfold Decimal_add. split.
      - apply context_round_lower; [lra | lra | exact Hfl].
      - apply context_round_upper; [lra | lra | exact Hfu]. }
    specialize (IH (lo + l) (hi + u) (Decimal_add acc x) ltac:(lra) Hstep Hf).
    lra.
Qed.

Lemma Qsum_app (l1 l2 : list Q) : Qsum (l1 ++ l2) == Qsum l1 + Qsum l2.
Proof.
  induction l1 as [| x l1 IH]; simpl; [ring | rewrite IH; ring].
Qed.

(** ** Dictionaries *)

Lemma dict_get_set_eq (k : string) (v : loc) (d : Costs.dict) :
  Costs.dict_get k (Costs.dict_set k v d) = Some v.
Proof.
  induction d as [| [k' v'] d IH]; simpl.
  - rewrite String.eqb_refl. reflexivity.
  - destruct (k' =? k)%string eqn:E; simpl; rewrite E; [reflexivity | exact IH].
Qed.

Lemma dict_get_set_ne (k k0 : string) (v : loc) (d : Costs.dict) :
  k <> k0 -> Costs.dict_get k0 (Costs.dict_set k v d) = Costs.dict_get k0 d.
Proof.
  intros Hne. induction d as [| [k' v'] d IH]; simpl.
  - destruct (String.eqb_spec k k0); [contradiction | reflexivity].
  - destruct (String.eqb_spec k' k) as [-> | Hk]; simpl.
    + destruct (String.eqb_spec k k0); [contradiction | reflexivity].
    + rewrite IH. reflexivity.
Qed.


Lemma dict_keys_set_in (k : string) (v : loc) (d : Costs.dict) :
  k ∈ Costs.dict_keys d ->
  Costs.dict_keys (Costs.dict_set k v d) = Costs.dict_keys d.
Proof.
  induction d as [| [k' v'] d IH]; simpl; intros Hin.
  - inversion Hin.
  - destruct (String.eqb_spec k' k) as [-> | Hk]; simpl; [reflexivity |].
    f_equal. apply IH. apply elem_of_cons in Hin. destruct Hin; congruence.
Qed.

Lemma dict_keys_set_notin (k : string) (v : loc) (d : Costs.dict) :
  k ∉ Costs.dict_keys d ->
  Costs.dict_keys (Costs.dict_set k v d) = Costs.dict_keys d ++ [k].
Proof.
  induction d as [| [k' v'] d IH]; simpl; intros Hin; [reflexivity |].
  apply not_elem_of_cons in Hin. destruct Hin as [Hne Hin].
  destruct (String.eqb_spec k' k); [congruence |]. simpl.
  f_equal. apply IH, Hin.
Qed.






(** ** The total of a cost collection *)

Section Costs_total.
Context `{PyLib}.

Lemma initialised_value (h : Cost.heap) (c : loc) :
  initialised h c -> Cost.value c h = (Ok (stored_value h c), h).
Proof.
  intros (n & v & E). unfold stored_value. rewrite E.
  eapply Cost_value_live; [exact E | reflexivity].
Qed.

Lemma mapM_value (h : Cost.heap) (cs : list loc) :
  Forall (initialised h) cs ->
  mapM Cost.value cs h = (Ok (map (stored_value h) cs), h).
Proof.
  induction cs as [| c cs IH]; intros Hcs; [reflexivity |].
  inversion Hcs as [| ? ? Hc Hcs']; subst. simpl.
  unfold bind at 1. rewrite (initialised_value h c Hc).
  unfold bind at 1. rewrite (IH Hcs'). reflexivity.
Qed.

(** Reading the total never changes the heap. *)
Lemma mapM_value_pure (cs : list loc) (h h' : Cost.heap) (r : result (list Q)) :
  mapM Cost.value cs h = (r, h') -> h' = h.
Proof.
  revert r h'. induction cs as [| c cs IH]; intros r h'; simpl.
  - unfold ret. congruence.
  - unfold bind at 1.
    destruct (Cost.value c h) as [[v | e] h1] eqn:Ev;
      apply Cost_value_pure in Ev; subst h1; [| congruence].
    unfold bind at 1.
    destruct (mapM Cost.value cs h) as [[vs | e] h2] eqn:Em;
      specialize (IH _ _ eq_refl); subst h2; unfold ret; congruence.
Qed.

Lemma Costs_total_pure (self : Costs.obj) (h h' : Cost.heap) (r : result PyVal) :
  Costs.total self h = (r, h') -> h' = h.
Proof.
  unfold Costs.total, bind.
  destruct (mapM Cost.value _ h) as [[vs | e] h1] eqn:Em;
    apply mapM_value_pure in Em; unfold ret; congruence.
Qed.

(** The total is [sum] of a list of decimals: the integer [0] or a
    [Decimal]. *)
Lemma Costs_total_number (self : Costs.obj) (h h' : Cost.heap) (t : PyVal) :
  Costs.total self h = (Ok t, h') -> t = VInt 0 \/ exists q, t = VDecimal q.
Proof.
  unfold Costs.total, bind.
  destruct (mapM Cost.value _ h) as [[vs | e] h1]; [| discriminate].
  unfold ret. intros [= <- _]. destruct vs; simpl; eauto.
Qed.

Lemma Costs_total_wf (h : Cost.heap) (self : Costs.obj) :
  Costs_wf h self ->
  Costs.total self h =
    (Ok (py_sum (map (stored_value h) (Costs.dict_values (Costs._Costs__costs self)))), h).
Proof.
  intros [_ Hv]. unfold Costs.total, bind. rewrite (mapM_value h _ Hv).
  reflexivity.
Qed.

Lemma Costs_add_live (h : Cost.heap) (self : Costs.obj) (c : loc) (n : string) (v : Q) :
  h !! c = Some {| Cost._Cost__name := Some n; Cost._Cost__value := Some v |} ->
  Costs.add self (VCost c) h =
    (Ok {| Costs._Costs__costs := Costs.dict_set n c (Costs._Costs__costs self) |}, h).
Proof.
  intros E. unfold Costs.add. simpl. unfold bind.
  rewrite (Cost_name_live h c _ n E eq_refl). reflexivity.
Qed.

Lemma Costs_init_wf (h : Cost.heap) : Costs_wf h Costs.__init__.
Proof.
  split; simpl; constructor.
Qed.



End Costs_total.

(** ** The guards of the optimum inventory level *)

Section Product_guards.
Context `{PyLib}.

(** A total is falsy exactly when it is zero. *)
Lemma total_truthy (self : Costs.obj) (h h' : Cost.heap) (t : PyVal) :
  Costs.total self h = (Ok t, h') ->
  (truthy t = false <-> num_value t == 0).
Proof.
  intros E. apply Costs_total_number in E. destruct E as [-> | [q ->]]; simpl.
  - split; reflexivity.
  - apply Qnonzero_false.
Qed.

Lemma total_variable_cost_truthy (self : Product.obj) (h h' : Cost.heap) (t : PyVal) :
  Product.total_variable_cost self h = (Ok t, h') ->
  (truthy t = false <-> num_value t == 0).
Proof.
  unfold Product.total_variable_cost.
  destruct (Product.kind self); [discriminate | |]; apply total_truthy.
Qed.

(** C2. Reading [optimum_inventory_level] raises a domain error
    ([RuntimeError]) with its own message for each quantity that is zero:
    for a zero demand; for a zero total storage cost under a positive
    demand; for a zero total variable cost under a positive demand and a
    positive total storage cost.  The heap is left as it was. *)
Theorem optimum_inventory_level_zero_guards (self : Product.obj) (h : Cost.heap) :
  (Product.demand self == 0 ->
   Product.optimum_inventory_level self h =
     (Raise (Exn RuntimeError "The demand must be positive." None), h))
  /\
  (forall s,
     0 < Product.demand self ->
     Product.total_storage_cost self h = (Ok s, h) -> num_value s == 0 ->
     Product.optimum_inventory_level self h =
       (Raise (Exn RuntimeError "The total storage cost must be positive." None), h))
  /\
  (forall s k,
     0 < Product.demand self ->
     Product.total_storage_cost self h = (Ok s, h) -> 0 < num_value s ->
     Product.total_variable_cost self h = (Ok k, h) -> num_value k == 0 ->
     Product.optimum_inventory_level self h =
       (Raise (Exn RuntimeError "The total variable cost must be positive." None), h))
  /\
  (forall msg, is_DomainError (Exn RuntimeError msg None) = true).
Proof.
  unfold Product.optimum_inventory_level.
  change (truthy (VDecimal (Product.demand self)))
    with (Qnonzero (Product.demand self)).
  split; [| split; [| split]].
  - intros Hd. apply Qnonzero_false in Hd. rewrite Hd. reflexivity.
  - intros s Hd Es Hs.
    assert (Hn : Qnonzero (Product.demand self) = true)
      by (apply Qnonzero_true; lra).
    rewrite Hn. simpl. unfold bind at 1. rewrite Es.
    apply (total_truthy _ _ _ _ Es) in Hs. rewrite Hs. reflexivity.
  - intros s k Hd Es Hs Ek Hk.
    assert (Hn : Qnonzero (Product.demand self) = true)
      by (apply Qnonzero_true; lra).
    rewrite Hn. simpl. unfold bind at 1. rewrite Es.
    assert (Ht : truthy s = true).
    { destruct (truthy s) eqn:Ht; [reflexivity |].
      apply (total_truthy _ _ _ _ Es) in Ht. lra. }
    rewrite Ht. simpl. unfold bind at 1. rewrite Ek.
    apply (total_variable_cost_truthy _ _ _ _ Ek) in Hk. rewrite Hk.
    reflexivity.
  - reflexivity.
Qed.

End Product_guards.

(** ** The truncated normal sampler *)

Lemma float_truediv_pos (x : float) (y : Q) :
  0 < y ->
  float_truediv x y =
    Ok match x with
       | Finite q => float_round (q / y)
       | Infinite negative => Infinite negative
       end.
Proof.
  intros Hy. unfold float_truediv.
  destruct (Qeq_bool y 0) eqn:E.
  { apply Qeq_bool_iff in E. lra. }
  assert (Hle : Qle_bool 0 y = true) by (apply Qle_bool_iff; lra).
  rewrite Hle. destruct x as [q | []]; reflexivity.
Qed.

(** The standardised bounds keep the signs of [lower - mean] and of
    [upper - mean]. *)
Lemma standardised_lower_nonpos (mean std lower a : Q) :
  0 < std -> lower <= mean ->
  float_truediv (float_sub lower mean) std = Ok (Finite a) -> a <= 0.
Proof.
  intros Hstd Hl. rewrite (float_truediv_pos _ _ Hstd). unfold float_sub.
  destruct (float_round (lower - mean)) as [x | s] eqn:Ex; [| discriminate].
  apply float_round_nonpos in Ex; [| lra]. intros [= Ea].
  apply float_round_nonpos in Ea; [exact Ea |].
  apply Qle_shift_div_r; [exact Hstd | lra].
Qed.

Lemma standardised_upper_nonneg (mean std upper b : Q) :
  0 < std -> mean <= upper ->
  float_truediv (float_sub upper mean) std = Ok (Finite b) -> 0 <= b.
Proof.
  intros Hstd Hu. rewrite (float_truediv_pos _ _ Hstd). unfold float_sub.
  destruct (float_round (upper - mean)) as [x | s] eqn:Ex; [| discriminate].
  apply float_round_nonneg in Ex; [| lra]. intros [= Eb].
  apply float_round_nonneg in Eb; [exact Eb |].
  apply Qle_shift_div_l; [exact Hstd | lra].
Qed.



Section sampler_range.

Variable G : Type.
Variable truncnorm_rvs : float -> float -> Q -> Q -> M G Q.

(** What the code relies on from [scipy.stats.truncnorm]: a draw from the
    distribution with the finite shape [a], [b], location [loc] and scale
    [scale] lies in its support, [[loc + scale * a, loc + scale * b]], and
    there is a draw whenever [a < b] and the scale is positive. *)
Hypothesis truncnorm_support :
  forall a b loc scale g x g',
    a <= b -> 0 < scale ->
    truncnorm_rvs (Finite a) (Finite b) loc scale g = (Ok x, g') ->
    loc + scale * a <= x <= loc + scale * b.

Hypothesis truncnorm_draws :
  forall a b loc scale g,
    a < b -> 0 < scale ->
    exists x g', truncnorm_rvs (Finite a) (Finite b) loc scale g = (Ok x, g').

(** Past the guards, with the finite standardised bounds [a] and [b]. *)
Lemma normal_standardised (mean std upper lower a b : Q) (g : G) :
  0 < std -> lower <= mean <= upper ->
  float_truediv (float_sub lower mean) std = Ok (Finite a) ->
  float_truediv (float_sub upper mean) std = Ok (Finite b) ->
  Simulator.normal G truncnorm_rvs mean std upper lower g =
    truncnorm_rvs (Finite a) (Finite b) mean std g
  /\ a <= 0 <= b
  /\ (forall v g',
        Simulator.normal G truncnorm_rvs mean std upper lower g = (Ok v, g') ->
        mean + std * a <= v <= mean + std * b)
  /\ (a < b ->
      exists v g',
        Simulator.normal G truncnorm_rvs mean std upper lower g = (Ok v, g')
        /\ mean + std * a <= v <= mean + std * b).
Proof.
  intros Hstd [Hl Hu] Ea Eb.
  assert (En : Simulator.normal G truncnorm_rvs mean std upper lower g =
               truncnorm_rvs (Finite a) (Finite b) mean std g).
  { unfold Simulator.normal.
    assert (Gu : Qltb upper mean = false) by (apply Qltb_ge; exact Hu).
    assert (Gl : Qltb mean lower = false) by (apply Qltb_ge; exact Hl).
    rewrite Gu, Gl. unfold bind, lift. rewrite Ea, Eb. reflexivity. }
  pose proof (standardised_lower_nonpos _ _ _ _ Hstd Hl Ea) as Ha.
  pose proof (standardised_upper_nonneg _ _ _ _ Hstd Hu Eb) as Hb.
  rewrite En. split; [reflexivity |]. split; [split; assumption |].
  split.
  - intros v g' E. apply truncnorm_support in E; [exact E | lra | exact Hstd].
  - intros Hab.
    destruct (truncnorm_draws a b mean std g Hab Hstd) as (v & g' & E).
    exists v, g'. split; [exact E |].
    apply truncnorm_support in E; [exact E | lra | exact Hstd].
Qed.


End sampler_range.

(** ** Running the trials *)

Section trial_runs.

Variable W : Type.
Variable fn : Simulator.trial W.

Lemma appended_nil (self : Simulator.obj) : appended self [] = self.
Proof.
  destruct self. unfold appended. simpl. rewrite app_nil_r. reflexivity.
Qed.

Lemma appended_cons (self : Simulator.obj) (d : Q) (ds : list Q) :
  appended (Simulator.append self d) ds = appended self (d :: ds).
Proof.
  unfold appended, Simulator.append. simpl. rewrite <- app_assoc. reflexivity.
Qed.

(** While the calls return decimals, the loop appends them in call order:
    after [i] such calls, [i + n] iterations have [n] left. *)
Lemma decorated_loop_prefix (i n : nat) (ds : list Q) (w wi : W)
    (self : Simulator.obj) :
  call_sequence fn i w = (map (fun d => Ok (VDecimal d)) ds, wi) ->
  Simulator.decorated_loop W fn (i + n) (self, w) =
  Simulator.decorated_loop W fn n (appended self ds, wi).
Proof.
  revert ds w self. induction i as [| i IH]; intros ds w self; simpl.
  - intros [= E <-]. symmetry in E. apply map_eq_nil in E. subst ds.
    rewrite appended_nil. reflexivity.
  - destruct (fn w) as [r w1] eqn:E1.
    destruct (call_sequence fn i w1) as [rs w2] eqn:E2.
    intros [= Er <-]. destruct ds as [| d ds]; [discriminate |].
    simpl in Er. injection Er as -> ->. simpl.
    rewrite (IH ds w1 (Simulator.append self d) E2), appended_cons.
    reflexivity.
Qed.

(** A trial function that returns a decimal on every call does so along
    any sequence of calls. *)
Lemma call_sequence_decimals (n : nat) (w : W) :
  (forall w0, exists d w1, fn w0 = (Ok (VDecimal d), w1)) ->
  exists ds w',
    call_sequence fn n w = (map (fun d => Ok (VDecimal d)) ds, w')
    /\ length ds = n.
Proof.
  intros Hfn. revert w. induction n as [| n IH]; intros w; simpl.
  - exists [], w. split; reflexivity.
  - destruct (Hfn w) as (d & w1 & E1). rewrite E1.
    destruct (IH w1) as (ds & w' & E2 & Hlen). rewrite E2.
    exists (d :: ds), w'. split; [reflexivity | simpl; congruence].
Qed.

Lemma call_sequence_length (n : nat) (w w' : W) (rs : list (result PyVal)) :
  call_sequence fn n w = (rs, w') -> length rs = n.
Proof.
  revert w w' rs. induction n as [| n IH]; intros w w' rs; simpl.
  - intros [= <- _]. reflexivity.
  - destruct (fn w) as [r w1]. destruct (call_sequence fn n w1) as [rs' w2] eqn:E.
    intros [= <- _]. simpl. f_equal. eapply IH, E.
Qed.

(** A constructed simulator holds its arguments, and [range(times)] has
    [times] items. *)
Lemma Simulator_init_range (times title : PyVal) (self : Simulator.obj) :
  Simulator.__init__ times title = Ok self ->
  self = {| Simulator.times := times; Simulator.title := title;
            Simulator.results := [] |}
  /\ Simulator.range_len times = Ok (Z.to_nat (int_value times)).
Proof.
  intros Hinit. apply Simulator_init_returns in Hinit.
  destruct Hinit as (Hint & _ & _ & ->). split; [reflexivity |].
  unfold Simulator.range_len. rewrite Hint. reflexivity.
Qed.


(** A simulator constructed with [times = N], run in a [with] block on a
    trial function whose first [i < N] calls return the decimals [ds] and
    whose next call raises, or returns a value that is not a decimal: the
    results are exactly [ds] and nothing is printed.  The block raises
    [RuntimeError('Failed to run simulator!', ...)] around the failure when
    the class of the failure can be called without arguments, and otherwise
    the [TypeError] of that call. *)
Lemma failed_trial_outcome (times title : PyVal) (i : nat)
    (self : Simulator.obj) (w wi wi' : W) (ds : list Q) (r : result PyVal)
    (out : Simulator.stdout) :
  Simulator.__init__ times title = Ok self ->
  (i < Z.to_nat (int_value times))%nat ->
  call_sequence fn i w = (map (fun d => Ok (VDecimal d)) ds, wi) ->
  fn wi = (r, wi') ->
  (forall d, r <> Ok (VDecimal d)) ->
  let failure :=
    match r with
    | Raise e => e
    | Ok v => Exn TypeError "Expecting a Decimal, got:" (Some v)
    end in
  Simulator.with_simulate fn (self, w, out) =
    (Raise match Simulator.instantiate (exn_class failure) with
           | Ok _ => ExnFrom RuntimeError "Failed to run simulator!" failure
           | Raise e => e
           end,
     ({| Simulator.times := times;
         Simulator.title := title;
         Simulator.results := ds |}, wi', out))
  /\ length ds = i.
Proof.
  intros Hinit Hi Eseq Efn Hr failure.
  destruct (Simulator_init_range times title self Hinit) as [-> Hrange].
  split.
  2:{ apply call_sequence_length in Eseq. rewrite length_map in Eseq. exact Eseq. }
  assert (Eloop :
            Simulator.decorated_loop W fn (Z.to_nat (int_value times))
              ({| Simulator.times := times; Simulator.title := title;
                  Simulator.results := [] |}, w) =
            (Raise failure,
             ({| Simulator.times := times; Simulator.title := title;
                 Simulator.results := ds |}, wi'))).
  { replace (Z.to_nat (int_value times))
      with (i + S (Z.to_nat (int_value times) - S i))%nat by lia.
    rewrite (decorated_loop_prefix i _ ds w wi _ Eseq).
    simpl. rewrite Efn. unfold failure.
    destruct r as [v | e]; [| reflexivity].
    destruct v; try reflexivity.
    exfalso. eapply Hr. reflexivity. }
  unfold Simulator.with_simulate, Simulator.__enter__, Simulator.simulate,
    Simulator.decorated.
  cbn [Simulator.times]. rewrite Hrange, Eloop.
  unfold Simulator.__exit__.
  destruct (Simulator.instantiate (exn_class failure)); reflexivity.
Qed.

End trial_runs.

(** ** The formula of the optimum inventory level *)

Lemma context_round_pos (v : Q) : 0 < v -> 0 < context_round v.
Proof.
  intros Hv. unfold context_round.
  destruct (Qeq_bool (Qred v) 0) eqn:E0.
  { apply Qeq_bool_iff in E0. rewrite Qred_correct in E0. lra. }
  assert (Hv' : 0 < Qred v) by (rewrite Qred_correct; exact Hv).
  rewrite (Qlog_Qabs_Qred 10 v) by (lia || exact Hv).
  rewrite <- (Qlog_comp 10 (Qred v) v) by (lia || exact Hv' || apply Qred_correct).
  unfold round_at. rewrite Qred_correct.
  destruct (scaled_range 10 28 ltac:(lia) ltac:(lia) (Qred v) Hv') as [Hlo _].
  apply round_half_even_ge in Hlo. rewrite Zle_Qle in Hlo.
  apply Qmult_lt_0_compat; [| apply base_pow_pos; lia].
  eapply Qlt_le_trans; [| exact Hlo]. reflexivity.
Qed.

(** [math.sqrt] of a positive decimal does not raise. *)
Lemma math_sqrt_pos (x : Q) :
  0 < x ->
  math_sqrt x =
    Ok match float_round x with
       | Finite y => Finite (sqrt_round y)
       | Infinite _ => Infinite false
       end.
Proof.
  intros Hx. unfold math_sqrt.
  destruct (float_round x) as [y | negative] eqn:E.
  - apply float_round_nonneg in E; [| lra].
    apply Qle_bool_iff in E. rewrite E. reflexivity.
  - unfold float_round in E.
    destruct (Qeq_bool (Qred x) 0); [discriminate |].
    destruct (Qle_bool (inject_Z 2 ^ 1024) _); [| discriminate].
    assert (Hle : Qle_bool 0 (Qred x) = true)
      by (apply Qle_bool_iff; rewrite Qred_correct; lra).
    rewrite Hle in E. injection E as <-. reflexivity.
Qed.

(** The value read from a product whose two totals can be read. *)
Lemma optimum_inventory_level_cases (self : Product.obj) (h : Cost.heap)
    (s k : PyVal) :
  Product.total_storage_cost self h = (Ok s, h) ->
  Product.total_variable_cost self h = (Ok k, h) ->
  Product.optimum_inventory_level self h =
    (if Qnonzero (Product.demand self)
     then if truthy s
          then if truthy k
               then math_sqrt
                      (context_round
                         (Decimal_mul (Decimal_mul 2 (Product.demand self))
                            (num_value k) / num_value s))
               else Raise (Exn RuntimeError
                             "The total variable cost must be positive." None)
          else Raise (Exn RuntimeError
                        "The total storage cost must be positive." None)
     else Raise (Exn RuntimeError "The demand must be positive." None), h).
Proof.
  intros Es Ek. unfold Product.optimum_inventory_level.
  change (truthy (VDecimal (Product.demand self)))
    with (Qnonzero (Product.demand self)).
  destruct (Qnonzero (Product.demand self)); [| reflexivity]. simpl.
  unfold bind at 1. rewrite Es.
  destruct (truthy s) eqn:Hs; [| reflexivity]. simpl.
  unfold bind at 1. rewrite Ek.
  destruct (truthy k); [| reflexivity]. simpl.
  unfold bind. rewrite Ek, Es. unfold lift, Decimal_truediv.
  destruct (Qeq_bool (num_value s) 0) eqn:E0; [| reflexivity].
  apply Qeq_bool_iff in E0. apply (total_truthy _ _ _ _ Es) in E0. congruence.
Qed.

(** What [decimal] computes for [2 * D * K / h] is within three roundings
    of it. *)
Lemma Decimal_quotient_near (D K h : Q) :
  0 < D -> 0 < K -> 0 < h ->
  let X := 2 * D * K / h in
  let x := context_round (Decimal_mul (Decimal_mul 2 D) K / h) in
  X * ((1 - context_unit) * (1 - context_unit) * (1 - context_unit)) <= x
  /\ x <= X * ((1 + context_unit) * (1 + context_unit) * (1 + context_unit)).
Proof.
  intros HD HK Hh X x. unfold x, Decimal_mul.
  assert (H2D : 0 < 2 * D) by lra.
  pose proof (context_round_near (2 * D) H2D) as [A1 B1].
  pose proof (context_round_pos (2 * D) H2D) as P1.
  set (p1 := context_round (2 * D)) in *.
  assert (Hp1K : 0 < p1 * K) by (apply Qmult_lt_0_compat; assumption).
  pose proof (context_round_near (p1 * K) Hp1K) as [A2 B2].
  pose proof (context_round_pos (p1 * K) Hp1K) as P2.
  set (p2 := context_round (p1 * K)) in *.
  assert (Hq : 0 < p2 / h).
  { apply Qlt_shift_div_l; [exact Hh | lra]. }
  pose proof (context_round_near (p2 / h) Hq) as [A3 B3].
  set (q := p2 / h) in *.
  assert (Eq : p2 == q * h) by (unfold q; field; lra).
  assert (EX : 2 * D * K == X * h) by (unfold X; field; lra).
  set (u := context_unit) in *.
  assert (Hu : 0 < 1 - u /\ 0 < 1 + u) by (unfold u, context_unit; split; reflexivity).
  destruct Hu as [Hu1 Hu2].
  assert (C1 : 2 * D * K * (1 - u) <= p1 * K).
  { assert (E : 2 * D * K * (1 - u) == 2 * D * (1 - u) * K) by ring.
    rewrite E. apply Qmult_le_compat_r; lra. }
  assert (C2 : p1 * K <= 2 * D * K * (1 + u)).
  { assert (E : 2 * D * K * (1 + u) == 2 * D * (1 + u) * K) by ring.
    rewrite E. apply Qmult_le_compat_r; lra. }
  assert (C3 : 2 * D * K * ((1 - u) * (1 - u)) <= p2).
  { eapply Qle_trans; [| exact A2].
    assert (E : 2 * D * K * ((1 - u) * (1 - u)) == 2 * D * K * (1 - u) * (1 - u))
      by ring.
    rewrite E. apply Qmult_le_compat_r; lra. }
  assert (C4 : p2 <= 2 * D * K * ((1 + u) * (1 + u))).
  { eapply Qle_trans; [exact B2 |].
    assert (E : 2 * D * K * ((1 + u) * (1 + u)) == 2 * D * K * (1 + u) * (1 + u))
      by ring.
    rewrite E. apply Qmult_le_compat_r; lra. }
  rewrite EX, Eq in C3, C4.
  assert (C5 : X * ((1 - u) * (1 - u)) <= q).
  { apply Qmult_le_r with (z := h); [exact Hh |].
    assert (E : X * ((1 - u) * (1 - u)) * h == X * h * ((1 - u) * (1 - u))) by ring.
    rewrite E. exact C3. }
  assert (C6 : q <= X * ((1 + u) * (1 + u))).
  { apply Qmult_le_r with (z := h); [exact Hh |].
    assert (E : X * ((1 + u) * (1 + u)) * h == X * h * ((1 + u) * (1 + u))) by ring.
    rewrite E. exact C4. }
  split.
  - eapply Qle_trans; [| exact A3].
    assert (E : X * ((1 - u) * (1 - u) * (1 - u)) == X * ((1 - u) * (1 - u)) * (1 - u))
      by ring.
    rewrite E. apply Qmult_le_compat_r; lra.
  - eapply Qle_trans; [exact B3 |].
    assert (E : X * ((1 + u) * (1 + u) * (1 + u)) == X * ((1 + u) * (1 + u)) * (1 + u))
      by ring.
    rewrite E. apply Qmult_le_compat_r; lra.
Qed.

(** Within the range of the normal doubles, the square of the value read
    is [2 * D * K / h] up to a relative error of [2 ^ -51]. *)
Lemma rounded_root_near (D K h : Q) :
  0 < D -> 0 < K -> 0 < h ->
  inject_Z 2 ^ (-1021) <= 2 * D * K / h -> 2 * D * K / h <= inject_Z 2 ^ 1022 ->
  exists y,
    float_round (context_round (Decimal_mul (Decimal_mul 2 D) K / h)) = Finite y
    /\ 0 < sqrt_round y
    /\ 2 * D * K / h * (1 - (1 # 2251799813685248)) <= sqrt_round y * sqrt_round y
    /\ sqrt_round y * sqrt_round y <= 2 * D * K / h * (1 + (1 # 2251799813685248)).
Proof.
  intros HD HK Hh Hlo Hhi.
  destruct (Decimal_quotient_near D K h HD HK Hh) as [A B].
  set (X := 2 * D * K / h) in *.
  set (x := context_round (Decimal_mul (Decimal_mul 2 D) K / h)) in *.
  assert (E1021 : inject_Z 2 ^ (-1021) == 2 * inject_Z 2 ^ (-1022)).
  { change (-1021)%Z with (1 + -1022)%Z.
    rewrite Qpower_plus by (apply base_neq_0; lia). reflexivity. }
  assert (E1023 : inject_Z 2 ^ 1023 == 2 * inject_Z 2 ^ 1022).
  { change 1023%Z with (1 + 1022)%Z.
    rewrite Qpower_plus by (apply base_neq_0; lia). reflexivity. }
  pose proof (base_pow_pos 2 ltac:(lia) (-1022)) as Hmin.
  pose proof (base_pow_pos 2 ltac:(lia) 1022) as Hmax.
  assert (HX : 0 < X) by lra.
  unfold context_unit in A, B.
  destruct (float_round_near x) as (y & Ey & Hyl & Hyu).
  { lra. }
  { lra. }
  assert (Hy : 0 < y) by (unfold double_unit in Hyl; lra).
  destruct (sqrt_round_near y Hy) as (Hr & Hrl & Hru).
  exists y. split; [exact Ey |]. split; [exact Hr |].
  set (r := sqrt_round y) in *.
  unfold double_unit in *.
  split; nra.
Qed.

(** C1. For a positive demand [D], total variable cost [K] and total
    storage cost [h], with the products and the quotient of [2 * D * K / h]
    within the exponent range of [decimal], no guard fires and nothing is
    raised: the value read is [Decimal(math.sqrt(x))] for the positive [x]
    that [decimal] computes for [2 * D * K / h], the products and the
    quotient rounded to 28 digits.  [math.sqrt] converts [x] to the nearest
    double and returns the
    double nearest to its root, so the value is [Decimal('Infinity')] when
    [x] rounds beyond the doubles.  When [2 * D * K / h] lies between
    [2 ^ -1021] and [2 ^ 1022], within the normal doubles, the value is a
    positive number whose square is [2 * D * K / h] up to a relative error
    of [2 ^ -51]: the square root to floating precision.  For [D = 1000],
    [K = 100] and [h = 20] the value is [100]. *)
Theorem optimum_inventory_level_is_rounded_root (self : Product.obj)
    (h : Cost.heap) (s k : PyVal) :
  0 < Product.demand self ->
  Product.total_storage_cost self h = (Ok s, h) -> 0 < num_value s ->
  Product.total_variable_cost self h = (Ok k, h) -> 0 < num_value k ->
  quotient_in_context (Product.demand self) (num_value k) (num_value s) = true ->
  let X := 2 * Product.demand self * num_value k / num_value s in
  let x :=
    context_round
      (Decimal_mul (Decimal_mul 2 (Product.demand self)) (num_value k) /
       num_value s) in
  0 < x
  /\ Product.optimum_inventory_level self h =
       (Ok match float_round x with
           | Finite y => Finite (sqrt_round y)
           | Infinite _ => Infinite false
           end, h)
  /\ (inject_Z 2 ^ (-1021) <= X -> X <= inject_Z 2 ^ 1022 ->
      exists r,
        Product.optimum_inventory_level self h = (Ok (Finite r), h)
        /\ 0 < r
        /\ X * (1 - (1 # 2251799813685248)) <= r * r
        /\ r * r <= X * (1 + (1 # 2251799813685248)))
  /\ (Product.demand self = 1000 -> num_value k = 100 -> num_value s = 20 ->
      Product.optimum_inventory_level self h = (Ok (Finite 100), h)).
Proof.
  intros Hd Es Hs Ek Hk _ X x.
  assert (Hx : 0 < x).
  { unfold x, Decimal_mul. apply context_round_pos.
    apply Qlt_shift_div_l; [exact Hs |]. rewrite Qmult_0_l.
    apply context_round_pos. apply Qmult_lt_0_compat; [| exact Hk].
    apply context_round_pos. lra. }
  assert (E : Product.optimum_inventory_level self h =
              (Ok match float_round x with
                  | Finite y => Finite (sqrt_round y)
                  | Infinite _ => Infinite false
                  end, h)).
  { rewrite (optimum_inventory_level_cases self h s k Es Ek).
    assert (Hn : Qnonzero (Product.demand self) = true)
      by (apply Qnonzero_true; lra).
    assert (Hts : truthy s = true).
    { destruct (truthy s) eqn:Ht; [reflexivity |].
      apply (total_truthy _ _ _ _ Es) in Ht. lra. }
    assert (Htk : truthy k = true).
    { destruct (truthy k) eqn:Ht; [reflexivity |].
      apply (total_variable_cost_truthy _ _ _ _ Ek) in Ht. lra. }
    rewrite Hn, Hts, Htk. fold x. rewrite (math_sqrt_pos x Hx). reflexivity. }
  split; [exact Hx |]. split; [exact E |]. split.
  - intros Hlo Hhi.
    destruct (rounded_root_near (Product.demand self) (num_value k) (num_value s)
                Hd Hk Hs Hlo Hhi) as (y & Ey & Hr & Hrl & Hru).
    exists (sqrt_round y). rewrite E. fold x in Ey. rewrite Ey.
    repeat split; assumption.
  - intros ED EK Eh. rewrite E. unfold x. rewrite ED, EK, Eh.
    vm_compute. reflexivity.
Qed.

(** ** The properties on the inputs of the examples *)

Lemma lowest_draw_support (a b loc scale : Q) (g : unit) (x : Q) (g' : unit) :
  a <= b -> 0 < scale ->
  lowest_draw (Finite a) (Finite b) loc scale g = (Ok x, g') ->
  loc + scale * a <= x <= loc + scale * b.
Proof.
  intros Hab Hs [= <- _].
  assert (scale * a <= scale * b) by (apply Qmult_le_l; assumption).
  lra.
Qed.

Lemma lowest_draw_draws (a b loc scale : Q) (g : unit) :
  a < b -> 0 < scale ->
  exists x g', lowest_draw (Finite a) (Finite b) loc scale g = (Ok x, g').
Proof.
  intros _ _. eexists _, _. reflexivity.
Qed.





(** A demand of [1000], a production cost of [100] and a storage cost of
    [20]. *)
Lemma optimum_inventory_level_is_rounded_root_witness :
  0 < context_round (Decimal_mul (Decimal_mul 2 1000) 100 / 20)
  /\ Product.optimum_inventory_level (example_ordered_product 1000)
       example_order_heap =
       (Ok match float_round
                   (context_round (Decimal_mul (Decimal_mul 2 1000) 100 / 20)) with
           | Finite y => Finite (sqrt_round y)
           | Infinite _ => Infinite false
           end, example_order_heap)
  /\ (inject_Z 2 ^ (-1021) <= 2 * 1000 * 100 / 20 ->
      2 * 1000 * 100 / 20 <= inject_Z 2 ^ 1022 ->
      exists r,
        Product.optimum_inventory_level (example_ordered_product 1000)
          example_order_heap = (Ok (Finite r), example_order_heap)
        /\ 0 < r
        /\ 2 * 1000 * 100 / 20 * (1 - (1 # 2251799813685248)) <= r * r
        /\ r * r <= 2 * 1000 * 100 / 20 * (1 + (1 # 2251799813685248)))
  /\ (1000 = 1000 -> 100 = 100 -> 20 = 20 ->
      Product.optimum_inventory_level (example_ordered_product 1000)
        example_order_heap = (Ok (Finite 100), example_order_heap)).
Proof.
  apply (optimum_inventory_level_is_rounded_root (example_ordered_product 1000)
           example_order_heap (VDecimal 20) (VDecimal 100)).
  - reflexivity.
  - vm_compute. reflexivity.
  - reflexivity.
  - vm_compute. reflexivity.
  - reflexivity.
  - vm_compute. reflexivity.
Defined.

(** C1, as stated, fails.  A produced product with a demand of
    [Decimal('1e400')], a production cost of [100] and a storage cost of
    [20]: the three quantities are positive, the products and the quotient
    are within the exponent range of [decimal], [2 * D * K / h] is [1e401],
    whose root is about [3.16e200], and the value read is
    [Decimal('Infinity')], since the double nearest to [1e401] is the
    infinity. *)
Lemma optimum_inventory_level_beyond_doubles :
  0 < Product.demand (example_ordered_product (inject_Z (10 ^ 400)))
  /\ Product.total_variable_cost (example_ordered_product (inject_Z (10 ^ 400)))
       example_order_heap = (Ok (VDecimal 100), example_order_heap)
  /\ Product.total_storage_cost (example_ordered_product (inject_Z (10 ^ 400)))
       example_order_heap = (Ok (VDecimal 20), example_order_heap)
  /\ quotient_in_context (inject_Z (10 ^ 400)) 100 20 = true
  /\ Product.optimum_inventory_level (example_ordered_product (inject_Z (10 ^ 400)))
       example_order_heap = (Ok (Infinite false), example_order_heap)
  /\ (forall r : Q, Infinite false <> Finite r).
Proof.
  split; [vm_compute; reflexivity |].
  split; [vm_compute; reflexivity |].
  split; [vm_compute; reflexivity |].
  split; [vm_compute; reflexivity |].
  split; [vm_compute; reflexivity | discriminate].
Qed.


(** C5. The code does not wrap every failure.  Of three trials, the third
    raises an exception of a class whose constructor requires arguments:
    the two results are retained and nothing is printed, but the [with]
    block raises the [TypeError] of [raise ... from exc_type], which calls
    the class without arguments, and not the [RuntimeError] around the
    failure.  A third trial that returns the integer [1] is wrapped: the
    [TypeError] of [simulate] can be called without arguments. *)
Theorem failed_trial_of_class_with_arguments_is_not_wrapped :
  fst (call_sequence third_call_raises 3 0%nat) =
    [Ok (VDecimal 42); Ok (VDecimal 42);
     Raise (Exn (UserException "JSONDecodeError" 3) "Expecting value" None)]
  /\
  Simulator.with_simulate third_call_raises
    ({| Simulator.times := VInt 3; Simulator.title := VStr "Example";
        Simulator.results := [] |}, 0%nat, []) =
    (Raise (Exn TypeError "__init__() missing required positional arguments" None),
     ({| Simulator.times := VInt 3; Simulator.title := VStr "Example";
         Simulator.results := [42; 42] |}, 3%nat, []))
  /\
  Simulator.with_simulate third_call_int
    ({| Simulator.times := VInt 3; Simulator.title := VStr "Example";
        Simulator.results := [] |}, 0%nat, []) =
    (Raise (ExnFrom RuntimeError "Failed to run simulator!"
              (Exn TypeError "Expecting a Decimal, got:" (Some (VInt 1)))),
     ({| Simulator.times := VInt 3; Simulator.title := VStr "Example";
         Simulator.results := [42; 42] |}, 3%nat, [])).
Proof.
  split; [reflexivity |]. split.
  - apply (failed_trial_outcome nat third_call_raises (VInt 3) (VStr "Example")
             2 _ 0%nat 2%nat 3%nat [42; 42]
             (Raise (Exn (UserException "JSONDecodeError" 3) "Expecting value" None))
             []).
    + reflexivity.
    + simpl. lia.
    + reflexivity.
    + reflexivity.
    + intros d. discriminate.
  - apply (failed_trial_outcome nat third_call_int (VInt 3) (VStr "Example")
             2 _ 0%nat 2%nat 3%nat [42; 42] (Ok (VInt 1)) []).
    + reflexivity.
    + simpl. lia.
    + reflexivity.
    + reflexivity.
    + intros d. discriminate.
Qed.

Lemma example_collection_wf :
  Costs_wf example_heap {| Costs._Costs__costs := [("Energy"%string, 2%nat)] |}.
Proof.
  split; simpl.
  - apply NoDup_singleton.
  - constructor; [| constructor]. exists "Energy"%string, 1. reflexivity.
Qed.

(** The sums and the average of the examples are within the exponent range
    of [decimal]. *)
Example example_sums_in_context :
  sums_in_context 0 [1; 7] = true
  /\ sums_in_context 0 [1; 5; 5] = true
  /\ sums_in_context 0 [42; 42; 42] = true
  /\ context_range (num_value (py_sum [42; 42; 42]) / 3) = true.
Proof.
  vm_compute. repeat split.
Qed.


(** A product without demand, one without storage costs, and one without
    production costs. *)
Lemma optimum_inventory_level_zero_guards_witness :
  Product.optimum_inventory_level
    (example_product 0 [("Warehousing"%string, 3%nat)]) example_heap =
    (Raise (Exn RuntimeError "The demand must be positive." None), example_heap)
  /\
  Product.optimum_inventory_level
    (example_product 1000 []) example_heap =
    (Raise (Exn RuntimeError "The total storage cost must be positive." None),
     example_heap)
  /\
  Product.optimum_inventory_level
    (example_product 1000 [("Warehousing"%string, 3%nat)]) example_heap =
    (Raise (Exn RuntimeError "The total variable cost must be positive." None),
     example_heap).
Proof.
  split; [| split].
  - apply (proj1 (optimum_inventory_level_zero_guards
                    (example_product 0 [("Warehousing"%string, 3%nat)])
                    example_heap)).
    reflexivity.
  - apply (proj1 (proj2 (optimum_inventory_level_zero_guards
                           (example_product 1000 []) example_heap))
             (VInt 0)).
    + reflexivity.
    + reflexivity.
    + reflexivity.
  - apply (proj1 (proj2 (proj2 (optimum_inventory_level_zero_guards
                                  (example_product 1000
                                     [("Warehousing"%string, 3%nat)])
                                  example_heap)))
             (VDecimal 20) (VInt 0)).
    + reflexivity.
    + vm_compute. reflexivity.
    + reflexivity.
    + reflexivity.
    + reflexivity.
Defined.

(** The end-to-end scenario: three trials that return [Decimal(42)] leave
    the results [[42; 42; 42]], print the summary, and the average, the
    maximum and the minimum are [42]. *)
Example three_constant_trials :
  exists self out,
    Simulator.with_simulate constant_trial
      ({| Simulator.times := VInt 3; Simulator.title := VStr "Example";
          Simulator.results := [] |}, tt, []) = (Ok tt, (self, tt, out))
    /\ Simulator.results self = [42; 42; 42]
    /\ Simulator.average self == 42
    /\ Simulator.maximum self = 42
    /\ Simulator.minimum self = 42
    /\ nth_error out 2 = Some [VStr "- Simulated:"; VInt 3; VStr "times"]
    /\ length out = 7%nat.
Proof.
  eexists _, _. split; [reflexivity |].
  split; [reflexivity |]. split; [vm_compute; reflexivity |].
  repeat split.
Qed.

(** * Further properties of the code *)

(** ** Constructing and re-assigning a cost *)

Section Cost_round_trips.
Context `{PyLib}.

Lemma Cost_set_name_live (h : Cost.heap) (c : loc) (o : Cost.obj) (s : string) :
  h !! c = Some o -> s <> EmptyString ->
  Cost.set_name c (VStr s) h =
    (Ok tt, <[c := {| Cost._Cost__name := Some s;
                      Cost._Cost__value := Cost._Cost__value o |}]> h).
Proof.
  intros E Hs. unfold Cost.set_name.
  assert (G : negb (truthy (VStr s)) || negb (isinstance_str (VStr s)) = false)
    by (apply nonempty_str_guard; eauto).
  rewrite G. unfold bind. rewrite (Cost_load_live _ _ _ E). reflexivity.
Qed.

Lemma Cost_call_bad_name (name value : PyVal) (h : Cost.heap) :
  negb (truthy name) || negb (isinstance_str name) = true ->
  Cost.call [name; value] h =
    (Raise (Exn AttributeError "Invalid cost name:" (Some name)), h ++ [Cost.blank]).
Proof.
  intros G. unfold Cost.call, bind, Cost.new, Cost.__init__, bind, Cost.set_name.
  rewrite G. reflexivity.
Qed.

Lemma Cost_call_bad_value (n : string) (value : PyVal) (e : exn) (h : Cost.heap) :
  n <> EmptyString -> Decimal value = Raise e ->
  exists h', Cost.call [VStr n; value] h = (Raise e, h').
Proof.
  intros Hn Ed. unfold Cost.call, bind, Cost.new, Cost.__init__, bind.
  rewrite (Cost_set_name_live _ _ _ n (Cost_new_lookup h) Hn).
  unfold lift. rewrite Ed. eauto.
Qed.

(** X1. [Cost(name, value)] returns an instance exactly when [name] is a
    non-empty string and [value] converts to a decimal that is not
    negative. *)
Theorem Cost_constructor_succeeds_iff (name value : PyVal) (h : Cost.heap) :
  (exists c h', Cost.call [name; value] h = (Ok c, h')) <->
  (exists n d, name = VStr n /\ n <> EmptyString /\ Decimal value = Ok d /\ 0 <= d).
Proof.
  split.
  - intros (c & h' & E).
    destruct (negb (truthy name) || negb (isinstance_str name)) eqn:G.
    { rewrite (Cost_call_bad_name name value h G) in E. discriminate. }
    apply nonempty_str_guard in G. destruct G as (n & -> & Hn).
    destruct (Decimal value) as [d | e] eqn:Ed.
    + rewrite (Cost_call_computes n value d h Hn Ed) in E.
      destruct (Qltb d 0) eqn:Hd; [discriminate |].
      exists n, d. repeat split; auto. apply Qltb_ge, Hd.
    + destruct (Cost_call_bad_value n value e h Hn Ed) as (h1 & E1).
      rewrite E1 in E. discriminate.
  - intros (n & d & -> & Hn & Ed & Hd).
    rewrite (Cost_call_computes n value d h Hn Ed).
    apply Qltb_ge in Hd. rewrite Hd. eauto.
Qed.

(** X2. A successful [Cost(name, value)] allocates one new instance, whose
    getters return the name and the converted value, and leaves every
    instance that existed as it was. *)
Theorem Cost_constructor_builds (n : string) (value : PyVal) (d : Q)
    (h : Cost.heap) :
  n <> EmptyString -> Decimal value = Ok d -> 0 <= d ->
  exists c h',
    Cost.call [VStr n; value] h = (Ok c, h')
    /\ h !! c = None
    /\ Cost.name c h' = (Ok n, h')
    /\ Cost.value c h' = (Ok d, h')
    /\ length h' = S (length h)
    /\ (forall c' o, h !! c' = Some o -> h' !! c' = Some o).
Proof.
  intros Hn Ed Hd. exists (length h). eexists.
  rewrite (Cost_call_computes n value d h Hn Ed).
  apply Qltb_ge in Hd. rewrite Hd.
  assert (E : (h ++ [{| Cost._Cost__name := Some n; Cost._Cost__value := Some d |}])
                !! length h =
              Some {| Cost._Cost__name := Some n; Cost._Cost__value := Some d |}).
  { rewrite lookup_app_r by lia. rewrite Nat.sub_diag. reflexivity. }
  split; [reflexivity |].
  split; [apply lookup_ge_None; lia |].
  split; [eapply Cost_name_live; [exact E | reflexivity] |].
  split; [eapply Cost_value_live; [exact E | reflexivity] |].
  split; [rewrite length_app; simpl; lia |].
  intros c' o E'. rewrite lookup_app_l by (eapply lookup_lt_Some, E'). exact E'.
Qed.

(** X3. The setter of [name] checks before it assigns: a value that is
    not a non-empty string raises [AttributeError] and leaves the heap as it
    was; a non-empty string becomes the name, the value of the cost and
    every other instance staying as they were. *)
Theorem Cost_set_name_checks_then_assigns (h : Cost.heap) (c : loc)
    (o : Cost.obj) (value : PyVal) :
  h !! c = Some o ->
  ((forall s, value = VStr s -> s = EmptyString) ->
   Cost.set_name c value h =
     (Raise (Exn AttributeError "Invalid cost name:" (Some value)), h))
  /\
  (forall s, value = VStr s -> s <> EmptyString ->
   exists h',
     Cost.set_name c value h = (Ok tt, h')
     /\ Cost.name c h' = (Ok s, h')
     /\ fst (Cost.value c h') = fst (Cost.value c h)
     /\ (forall c', c' <> c -> h' !! c' = h !! c')).
Proof.
  intros E. split.
  - intros Hbad. unfold Cost.set_name.
    destruct (negb (truthy value) || negb (isinstance_str value)) eqn:G;
      [reflexivity |].
    apply nonempty_str_guard in G. destruct G as (s & -> & Hs).
    exfalso. apply Hs. apply Hbad. reflexivity.
  - intros s -> Hs. rewrite (Cost_set_name_live h c o s E Hs).
    eexists. split; [reflexivity |].
    assert (E' : (<[c := {| Cost._Cost__name := Some s;
                            Cost._Cost__value := Cost._Cost__value o |}]> h) !! c =
                 Some {| Cost._Cost__name := Some s;
                         Cost._Cost__value := Cost._Cost__value o |}).
    { apply list_lookup_insert_eq. eapply lookup_lt_Some, E. }
    split; [eapply Cost_name_live; [exact E' | reflexivity] |].
    split.
    + unfold Cost.value, bind. rewrite (Cost_load_live _ _ _ E'),
        (Cost_load_live _ _ _ E). simpl.
      destruct (Cost._Cost__value o); reflexivity.
    + intros c' Hne. apply list_lookup_insert_ne. congruence.
Qed.

(** X4. Assigning to [value] a value of an accepted type that converts to
    a decimal [d >= 0] returns normally; the getter then returns [d], and
    the name of the cost and every other instance stay as they were. *)
Theorem Cost_set_value_round_trip (h : Cost.heap) (c : loc) (o : Cost.obj)
    (value : PyVal) (d : Q) :
  h !! c = Some o ->
  isinstance_str_float_Decimal_int value = true ->
  Decimal value = Ok d ->
  0 <= d ->
  exists h',
    Cost.set_value c value h = (Ok tt, h')
    /\ Cost.value c h' = (Ok d, h')
    /\ fst (Cost.name c h') = fst (Cost.name c h)
    /\ (forall c', c' <> c -> h' !! c' = h !! c').
Proof.
  intros E Hi Ed Hd.
  rewrite (Cost_set_value_stores h c o value d E Hi Ed).
  apply Qltb_ge in Hd. rewrite Hd. eexists. split; [reflexivity |].
  assert (E' : (<[c := {| Cost._Cost__name := Cost._Cost__name o;
                          Cost._Cost__value := Some d |}]> h) !! c =
               Some {| Cost._Cost__name := Cost._Cost__name o;
                       Cost._Cost__value := Some d |}).
  { apply list_lookup_insert_eq. eapply lookup_lt_Some, E. }
  split; [eapply Cost_value_live; [exact E' | reflexivity] |].
  split.
  - unfold Cost.name, bind. rewrite (Cost_load_live _ _ _ E'),
      (Cost_load_live _ _ _ E). simpl.
    destruct (Cost._Cost__name o); reflexivity.
  - intros c' Hne. apply list_lookup_insert_ne. congruence.
Qed.

(** X5. An assignment to [value] that is refused for its type, or whose
    conversion to [Decimal] raises, changes nothing: the exception is
    [AttributeError], or the one of the conversion, and the heap is as it
    was. *)
Theorem Cost_set_value_refused_keeps_heap (h : Cost.heap) (c : loc)
    (value : PyVal) :
  (isinstance_str_float_Decimal_int value = false ->
   Cost.set_value c value h =
     (Raise (Exn AttributeError "Invalid cost:" (Some value)), h))
  /\
  (forall e,
     isinstance_str_float_Decimal_int value = true ->
     Decimal value = Raise e ->
     Cost.set_value c value h = (Raise e, h)).
Proof.
  split.
  - intros Hi. unfold Cost.set_value. rewrite Hi. reflexivity.
  - intros e Hi Ed. unfold Cost.set_value. rewrite Hi. simpl.
    unfold bind, lift. rewrite Ed. reflexivity.
Qed.

End Cost_round_trips.

(** ** Adding costs to a collection *)

Lemma dict_set_notin (k : string) (v : loc) (d : Costs.dict) :
  k ∉ Costs.dict_keys d -> Costs.dict_set k v d = d ++ [(k, v)].
Proof.
  induction d as [| [k' v'] d IH]; simpl; intros Hin; [reflexivity |].
  apply not_elem_of_cons in Hin. destruct Hin as [Hne Hin].
  destruct (String.eqb_spec k' k); [congruence |]. rewrite IH by exact Hin.
  reflexivity.
Qed.

Lemma dict_get_None (k : string) (d : Costs.dict) :
  Costs.dict_get k d = None <-> k ∉ Costs.dict_keys d.
Proof.
  induction d as [| [k' v'] d IH]; simpl.
  - split; [intros _; apply not_elem_of_nil | reflexivity].
  - rewrite not_elem_of_cons.
    destruct (String.eqb_spec k' k) as [-> | Hne].
    + split; [discriminate | intros [Hk _]; congruence].
    + rewrite IH. split; [intros Hk; split; congruence | tauto].
Qed.

Section Costs_add_facts.
Context `{PyLib}.

Lemma Costs_add_named (h : Cost.heap) (self : Costs.obj) (c : loc)
    (o : Cost.obj) (n : string) :
  h !! c = Some o -> Cost._Cost__name o = Some n ->
  Costs.add self (VCost c) h =
    (Ok {| Costs._Costs__costs := Costs.dict_set n c (Costs._Costs__costs self) |}, h).
Proof.
  intros E En. unfold Costs.add. simpl. unfold bind.
  rewrite (Cost_name_live h c o n E En). reflexivity.
Qed.

(** X6. [add] refuses what is not a [Cost] with [AttributeError]; it files
    a cost under the name the cost has at that moment: looking that name up
    gives the cost, the entries under other names are untouched, a name
    already present keeps its place among the keys and a new one goes last.
    The heap is not changed. *)
Theorem Costs_add_files_under_current_name (h : Cost.heap) (self : Costs.obj) :
  (forall cost,
     isinstance_Cost cost = false ->
     Costs.add self cost h =
       (Raise (Exn AttributeError "Expecting cost, got::" (Some cost)), h))
  /\
  (forall c o n,
     h !! c = Some o -> Cost._Cost__name o = Some n ->
     exists self',
       Costs.add self (VCost c) h = (Ok self', h)
       /\ Costs.dict_get n (Costs._Costs__costs self') = Some c
       /\ (forall k, k <> n ->
             Costs.dict_get k (Costs._Costs__costs self') =
             Costs.dict_get k (Costs._Costs__costs self))
       /\ Costs.dict_keys (Costs._Costs__costs self') =
            match Costs.dict_get n (Costs._Costs__costs self) with
            | Some _ => Costs.dict_keys (Costs._Costs__costs self)
            | None => Costs.dict_keys (Costs._Costs__costs self) ++ [n]
            end).
Proof.
  split.
  - intros cost Hc. unfold Costs.add. rewrite Hc. reflexivity.
  - intros c o n E En. rewrite (Costs_add_named h self c o n E En).
    eexists. split; [reflexivity |]. simpl.
    split; [apply dict_get_set_eq |].
    split; [intros k Hk; apply dict_get_set_ne; congruence |].
    destruct (Costs.dict_get n (Costs._Costs__costs self)) as [c0 |] eqn:Eg.
    + apply dict_keys_set_in.
      destruct (decide (n ∈ Costs.dict_keys (Costs._Costs__costs self)))
        as [Hin | Hin]; [exact Hin |].
      apply dict_get_None in Hin. congruence.
    + apply dict_keys_set_notin, dict_get_None, Eg.
Qed.

Lemma stored_value_insert_eq (h : Cost.heap) (c : loc) (o : Cost.obj) (d : Q)
    (n : option string) :
  h !! c = Some o ->
  stored_value (<[c := {| Cost._Cost__name := n; Cost._Cost__value := Some d |}]> h) c = d.
Proof.
  intros E. unfold stored_value.
  rewrite list_lookup_insert_eq by (eapply lookup_lt_Some, E). reflexivity.
Qed.

Lemma stored_value_insert_ne (h : Cost.heap) (c c' : loc) (o : Cost.obj) :
  c' <> c -> stored_value (<[c := o]> h) c' = stored_value h c'.
Proof.
  intros Hne. unfold stored_value.
  rewrite list_lookup_insert_ne by congruence. reflexivity.
Qed.

(** X7. A collection holds its costs by reference.  After an assignment to
    the value of a cost, whether it returns or raises for a negative
    value, the collections that hold the cost are still well formed and
    their total is the sum in which that cost counts for the decimal
    assigned, and every other cost for what it held. *)
Theorem Costs_total_follows_assignment (h : Cost.heap) (self : Costs.obj)
    (c : loc) (o : Cost.obj) (value : PyVal) (d : Q) :
  Costs_wf h self ->
  h !! c = Some o ->
  isinstance_str_float_Decimal_int value = true ->
  Decimal value = Ok d ->
  exists r h',
    Cost.set_value c value h = (r, h')
    /\ (r = Ok tt <-> 0 <= d)
    /\ Costs_wf h' self
    /\ Costs.total self h' =
         (Ok (py_sum (map (fun c' => if decide (c' = c) then d else stored_value h c')
                        (Costs.dict_values (Costs._Costs__costs self)))), h').
Proof.
  intros Hwf E Hi Ed.
  pose proof (Cost_set_value_stores h c o value d E Hi Ed) as Es.
  eexists _, _. split; [exact Es |].
  split.
  { destruct (Qltb d 0) eqn:Hd.
    - apply Qltb_lt in Hd. split; [discriminate | intros; lra].
    - apply Qltb_ge in Hd. split; [intros _; exact Hd | reflexivity]. }
  assert (Hwf' : Costs_wf
            (<[c := {| Cost._Cost__name := Cost._Cost__name o;
                       Cost._Cost__value := Some d |}]> h) self).
  { eapply Costs_wf_mono; [| exact Hwf].
    intros c' Hc'. eapply Cost_set_value_initialised; [exact Hc' | exact Es]. }
  split; [exact Hwf' |].
  rewrite (Costs_total_wf _ _ Hwf'). do 3 f_equal.
  apply map_ext. intros c'. destruct (decide (c' = c)) as [-> | Hne].
  - eapply stored_value_insert_eq, E.
  - apply stored_value_insert_ne, Hne.
Qed.

(** X8. The key of an entry is the name the cost had when it was added.
    A cost added under [n], renamed to [m] and added again is held twice,
    under [n] and under [m], and counts twice in the total: the total is
    [sum] of the values held before followed by the value of the cost,
    twice, when the additions are within the exponent range of
    [decimal]. *)
Theorem Costs_add_after_rename_counts_twice (h : Cost.heap) (self : Costs.obj)
    (c : loc) (n m : string) (v : Q) :
  Costs_wf h self ->
  h !! c = Some {| Cost._Cost__name := Some n; Cost._Cost__value := Some v |} ->
  m <> EmptyString -> m <> n ->
  n ∉ Costs.dict_keys (Costs._Costs__costs self) ->
  m ∉ Costs.dict_keys (Costs._Costs__costs self) ->
  exists s1 h1 s2,
    Costs.add self (VCost c) h = (Ok s1, h)
    /\ Cost.set_name c (VStr m) h = (Ok tt, h1)
    /\ Costs.add s1 (VCost c) h1 = (Ok s2, h1)
    /\ Costs._Costs__costs s2 = Costs._Costs__costs self ++ [(n, c); (m, c)]
    /\ let values :=
         map (stored_value h) (Costs.dict_values (Costs._Costs__costs self))
         ++ [v; v] in
       sums_in_context 0 values = true ->
       Costs.total s2 h1 = (Ok (py_sum values), h1).
Proof.
  intros Hwf E Hm Hmn Hn Hm'.
  pose proof (Costs_add_named h self c _ n E eq_refl) as A1.
  pose proof (Cost_set_name_live h c _ m E Hm) as S1. simpl in S1.
  set (h1 := <[c := {| Cost._Cost__name := Some m; Cost._Cost__value := Some v |}]> h) in *.
  assert (E1 : h1 !! c =
               Some {| Cost._Cost__name := Some m; Cost._Cost__value := Some v |}).
  { apply list_lookup_insert_eq. eapply lookup_lt_Some, E. }
  set (s1 := {| Costs._Costs__costs :=
                 Costs.dict_set n c (Costs._Costs__costs self) |}) in *.
  pose proof (Costs_add_named h1 s1 c _ m E1 eq_refl) as A2.
  assert (Ed : Costs.dict_set m c (Costs._Costs__costs s1) =
               Costs._Costs__costs self ++ [(n, c); (m, c)]).
  { unfold s1. simpl. rewrite (dict_set_notin n) by exact Hn.
    rewrite dict_set_notin.
    - rewrite <- app_assoc. reflexivity.
    - unfold Costs.dict_keys. rewrite map_app. simpl.
      rewrite elem_of_app, list_elem_of_singleton.
      intros [Hin | Heq]; [exact (Hm' Hin) | congruence]. }
  rewrite Ed in A2.
  set (s2 := {| Costs._Costs__costs := Costs._Costs__costs self ++ [(n, c); (m, c)] |}) in *.
  assert (Hval : forall c', stored_value h1 c' = stored_value h c').
  { intros c'. destruct (decide (c' = c)) as [-> | Hne].
    - unfold h1. rewrite (stored_value_insert_eq h c _ v (Some m) E).
      unfold stored_value. rewrite E. reflexivity.
    - apply stored_value_insert_ne, Hne. }
  assert (Hwf2 : Costs_wf h1 s2).
  { destruct Hwf as [Hk Hv]. split; unfold s2; simpl.
    - unfold Costs.dict_keys. rewrite map_app. simpl.
      apply NoDup_app. split; [exact Hk |]. split.
      + intros x Hx Hx'. apply elem_of_cons in Hx'. destruct Hx' as [-> | Hx'];
          [exact (Hn Hx) |].
        apply list_elem_of_singleton in Hx'. subst x. exact (Hm' Hx).
      + apply NoDup_cons. split; [| apply NoDup_singleton].
        rewrite list_elem_of_singleton. congruence.
    - unfold Costs.dict_values. rewrite map_app. simpl.
      apply Forall_app. split.
      + eapply Forall_impl; [exact Hv |]. intros c' Hc'.
        eapply Cost_set_name_initialised; [exact Hc' | exact S1].
      + repeat constructor; exists m, v; exact E1. }
  exists s1, h1, s2.
  split; [exact A1 |]. split; [exact S1 |]. split; [exact A2 |].
  split; [reflexivity |]. intros values _. unfold values.
  rewrite (Costs_total_wf _ _ Hwf2). do 3 f_equal. unfold s2. simpl.
  unfold Costs.dict_values. rewrite !map_app. simpl.
  rewrite !Hval. rewrite (map_ext _ _ Hval).
  unfold stored_value at 2 3. rewrite E. reflexivity.
Qed.

End Costs_add_facts.

(** ** Products *)

Section Product_facts.
Context `{PyLib}.

Lemma assign_Decimal_converted (invalid negative : string) (value : PyVal) (d : Q) :
  isinstance_str_float_Decimal_int value = true ->
  Decimal value = Ok d ->
  Product.assign_Decimal invalid negative value =
    (Some d, sign_check negative value d).
Proof.
  intros Hi Ed. unfold Product.assign_Decimal. rewrite Hi, Ed. reflexivity.
Qed.

Lemma assign_Decimal_refused (invalid negative : string) (value : PyVal) :
  (isinstance_str_float_Decimal_int value = false \/
   exists e, Decimal value = Raise e) ->
  exists e, Product.assign_Decimal invalid negative value = (None, Raise e).
Proof.
  unfold Product.assign_Decimal.
  destruct (isinstance_str_float_Decimal_int value); simpl.
  - intros [Hi | [e Ed]]; [discriminate | rewrite Ed; eauto].
  - eauto.
Qed.

(** X9. The setters of [inventory], [demand], [lead_time] and [price]
    assign before they check the sign: for a value of an accepted type that
    converts to [d], the attribute is [d] afterwards, and the setter raises
    [ValueError] exactly when [d] is negative.  The other attributes are
    not touched. *)
Theorem Product_setters_assign_before_sign_check (self : Product.obj)
    (value : PyVal) (d : Q) :
  isinstance_str_float_Decimal_int value = true ->
  Decimal value = Ok d ->
  Product.set_inventory value self =
    (sign_check "The inventory can not be negative:" value d,
     {| Product._Product__name := Product._Product__name self;
        Product._Product__inventory := d;
        Product._Product__demand := Product._Product__demand self;
        Product._Product__lead_time := Product._Product__lead_time self;
        Product._Product__price := Product._Product__price self;
        Product.storage_costs := Product.storage_costs self;
        Product.kind := Product.kind self |})
  /\
  Product.set_demand value self =
    (sign_check "The demand can not be negative:" value d,
     {| Product._Product__name := Product._Product__name self;
        Product._Product__inventory := Product._Product__inventory self;
        Product._Product__demand := d;
        Product._Product__lead_time := Product._Product__lead_time self;
        Product._Product__price := Product._Product__price self;
        Product.storage_costs := Product.storage_costs self;
        Product.kind := Product.kind self |})
  /\
  Product.set_lead_time value self =
    (sign_check "The lead time can not be negative:" value d,
     {| Product._Product__name := Product._Product__name self;
        Product._Product__inventory := Product._Product__inventory self;
        Product._Product__demand := Product._Product__demand self;
        Product._Product__lead_time := d;
        Product._Product__price := Product._Product__price self;
        Product.storage_costs := Product.storage_costs self;
        Product.kind := Product.kind self |})
  /\
  Product.set_price value self =
    (sign_check "The price can not be negative:" value d,
     {| Product._Product__name := Product._Product__name self;
        Product._Product__inventory := Product._Product__inventory self;
        Product._Product__demand := Product._Product__demand self;
        Product._Product__lead_time := Product._Product__lead_time self;
        Product._Product__price := d;
        Product.storage_costs := Product.storage_costs self;
        Product.kind := Product.kind self |})
  /\
  (sign_check "The demand can not be negative:" value d = Ok tt <-> 0 <= d).
Proof.
  intros Hi Ed.
  unfold Product.set_inventory, Product.set_demand, Product.set_lead_time,
    Product.set_price.
  rewrite !(assign_Decimal_converted _ _ value d Hi Ed).
  repeat (split; [reflexivity |]).
  unfold sign_check. destruct (Qltb d 0) eqn:Hd.
  - apply Qltb_lt in Hd. split; [discriminate | intros; lra].
  - apply Qltb_ge in Hd. split; [intros _; exact Hd | reflexivity].
Qed.

(** X10. An assignment to a product that is refused before the attribute
    is written leaves the product as it was: a value of a refused type or
    a string that is no decimal for the four numeric attributes, anything
    but a non-empty string for [name]. *)
Theorem Product_refused_assignment_keeps_product (self : Product.obj)
    (value : PyVal) :
  ((isinstance_str_float_Decimal_int value = false \/
    exists e, Decimal value = Raise e) ->
   exists e1 e2 e3 e4,
     Product.set_inventory value self = (Raise e1, self)
     /\ Product.set_demand value self = (Raise e2, self)
     /\ Product.set_lead_time value self = (Raise e3, self)
     /\ Product.set_price value self = (Raise e4, self))
  /\
  ((forall s, value = VStr s -> s = EmptyString) ->
   Product.set_name value self =
     (Raise (Exn AttributeError "Invalid product name:" (Some value)), self)).
Proof.
  split.
  - intros Hbad.
    unfold Product.set_inventory, Product.set_demand, Product.set_lead_time,
      Product.set_price.
    destruct (assign_Decimal_refused "Invalid product inventory:"
                "The inventory can not be negative:" value Hbad) as [e1 ->].
    destruct (assign_Decimal_refused "Invalid demand:"
                "The demand can not be negative:" value Hbad) as [e2 ->].
    destruct (assign_Decimal_refused "Invalid lead time:"
                "The lead time can not be negative:" value Hbad) as [e3 ->].
    destruct (assign_Decimal_refused "Invalid product price:"
                "The price can not be negative:" value Hbad) as [e4 ->].
    exists e1, e2, e3, e4. repeat split.
  - intros Hbad. unfold Product.set_name, Product.checked_name.
    destruct (negb (truthy value) || negb (isinstance_str value)) eqn:G;
      [reflexivity |].
    apply nonempty_str_guard in G. destruct G as (s & -> & Hs).
    exfalso. apply Hs, Hbad. reflexivity.
Qed.

Lemma checked_name_Ok (value : PyVal) (n : string) :
  Product.checked_name value = Ok n <-> value = VStr n /\ n <> EmptyString.
Proof.
  unfold Product.checked_name.
  destruct (negb (truthy value) || negb (isinstance_str value)) eqn:G.
  - split; [discriminate |]. intros [-> Hn].
    assert (G' : negb (truthy (VStr n)) || negb (isinstance_str (VStr n)) = false)
      by (apply nonempty_str_guard; eauto).
    congruence.
  - apply nonempty_str_guard in G. destruct G as (s & -> & Hs).
    split; [intros [= <-]; auto | intros [[= ->] _]; reflexivity].
Qed.

Lemma assigned_Ok (invalid negative : string) (value : PyVal) (d : Q) :
  Product.assigned invalid negative value = Ok d <-> accepted_Decimal value d.
Proof.
  unfold Product.assigned, Product.assign_Decimal, accepted_Decimal.
  destruct (isinstance_str_float_Decimal_int value); simpl.
  2:{ split; [discriminate | intros [? _]; discriminate]. }
  destruct (Decimal value) as [d' | e].
  2:{ split; [discriminate | intros (_ & ? & _); discriminate]. }
  destruct (Qltb d' 0) eqn:Hd.
  - apply Qltb_lt in Hd. split; [discriminate |].
    intros (_ & [= ->] & Hd'). lra.
  - apply Qltb_ge in Hd. split.
    + intros [= <-]. auto.
    + intros (_ & [= ->] & _). reflexivity.
Qed.

(** X11. A product of any of the three classes is constructed exactly when
    [name] is a non-empty string and [inventory], [demand], [lead_time] and
    [price] each convert to a decimal that is not negative; it then holds
    these five values, an empty collection of storage costs and, for a
    produced or purchased product, an empty collection of production or
    purchase costs. *)
Theorem Product_constructor_succeeds_iff (c : Product.cls)
    (name price demand lead_time inventory : PyVal) (p : Product.obj) :
  Product.__init__ c name price demand lead_time inventory = Ok p <->
  exists n i d l pr,
    name = VStr n /\ n <> EmptyString
    /\ accepted_Decimal inventory i /\ accepted_Decimal demand d
    /\ accepted_Decimal lead_time l /\ accepted_Decimal price pr
    /\ p = {| Product._Product__name := n;
              Product._Product__inventory := i;
              Product._Product__demand := d;
              Product._Product__lead_time := l;
              Product._Product__price := pr;
              Product.storage_costs := Costs.__init__;
              Product.kind :=
                match c with
                | Product.ClsProduct => Product.Product
                | Product.ClsProducedProduct => Product.ProducedProduct Costs.__init__
                | Product.ClsPurchasedProduct => Product.PurchasedProduct Costs.__init__
                end |}.
Proof.
  unfold Product.__init__. split.
  - destruct (Product.checked_name name) as [n | e] eqn:En; [| discriminate].
    destruct (Product.assigned _ _ inventory) as [i | e] eqn:Ei; [| discriminate].
    destruct (Product.assigned _ _ demand) as [d | e] eqn:Edm; [| discriminate].
    destruct (Product.assigned _ _ lead_time) as [l | e] eqn:El; [| discriminate].
    destruct (Product.assigned _ _ price) as [pr | e] eqn:Ep; [| discriminate].
    intros [= <-]. apply checked_name_Ok in En. destruct En as [-> Hn].
    apply assigned_Ok in Ei, Edm, El, Ep.
    exists n, i, d, l, pr.
    repeat (split; [first [reflexivity | assumption] |]). reflexivity.
  - intros (n & i & d & l & pr & -> & Hn & Hi & Hd & Hl & Hp & ->).
    assert (En : Product.checked_name (VStr n) = Ok n)
      by (apply checked_name_Ok; auto).
    rewrite En.
    apply (assigned_Ok "Invalid product inventory:"
             "The inventory can not be negative:") in Hi.
    apply (assigned_Ok "Invalid demand:" "The demand can not be negative:") in Hd.
    apply (assigned_Ok "Invalid lead time:"
             "The lead time can not be negative:") in Hl.
    apply (assigned_Ok "Invalid product price:"
             "The price can not be negative:") in Hp.
    rewrite Hi, Hd, Hl, Hp. reflexivity.
Qed.

(** X12. Reading [optimum_inventory_level] on an instance of the base
    class [Product] never returns a value: with a demand and a total
    storage cost that are not zero it raises [NotImplementedError], since
    the base class does not define the total variable cost. *)
Theorem Product_base_class_has_no_optimum (self : Product.obj) (h : Cost.heap) :
  Product.kind self = Product.Product ->
  (exists e, fst (Product.optimum_inventory_level self h) = Raise e)
  /\
  (forall s,
     ~ Product.demand self == 0 ->
     Product.total_storage_cost self h = (Ok s, h) -> ~ num_value s == 0 ->
     Product.optimum_inventory_level self h =
       (Raise (Exn NotImplementedError "Method not overrided!" None), h)).
Proof.
  intros Hk.
  assert (Ev : Product.total_variable_cost self h =
               (Raise (Exn NotImplementedError "Method not overrided!" None), h)).
  { unfold Product.total_variable_cost. rewrite Hk. reflexivity. }
  unfold Product.optimum_inventory_level.
  change (truthy (VDecimal (Product.demand self)))
    with (Qnonzero (Product.demand self)).
  split.
  - destruct (Qnonzero (Product.demand self)); simpl; [| eauto].
    unfold bind at 1.
    destruct (Product.total_storage_cost self h) as [[s | e] h1] eqn:Es;
      simpl; [| eauto].
    pose proof (Costs_total_pure _ _ _ _ Es) as ->.
    destruct (truthy s); simpl; [| eauto].
    unfold bind at 1. rewrite Ev. simpl. eauto.
  - intros s Hd Es Hs.
    apply Qnonzero_true in Hd. rewrite Hd. simpl.
    unfold bind at 1. rewrite Es.
    assert (Ht : truthy s = true).
    { destruct (truthy s) eqn:Ht; [reflexivity |].
      apply (total_truthy _ _ _ _ Es) in Ht. contradiction. }
    rewrite Ht. simpl. unfold bind at 1. rewrite Ev. reflexivity.
Qed.

(** X13. A product as its constructor returns it has no storage cost:
    reading [optimum_inventory_level] raises [RuntimeError], for the demand
    when the demand is zero and for the total storage cost otherwise. *)
Theorem Product_new_has_no_optimum (c : Product.cls)
    (name price demand lead_time inventory : PyVal) (p : Product.obj)
    (h : Cost.heap) :
  Product.__init__ c name price demand lead_time inventory = Ok p ->
  Product.total_storage_cost p h = (Ok (VInt 0), h)
  /\
  Product.optimum_inventory_level p h =
    (Raise (Exn RuntimeError
              (if Qnonzero (Product.demand p)
               then "The total storage cost must be positive."
               else "The demand must be positive.") None), h).
Proof.
  unfold Product.__init__.
  destruct (Product.checked_name name) as [n | e]; [| discriminate].
  destruct (Product.assigned _ _ inventory) as [i | e]; [| discriminate].
  destruct (Product.assigned _ _ demand) as [d | e]; [| discriminate].
  destruct (Product.assigned _ _ lead_time) as [l | e]; [| discriminate].
  destruct (Product.assigned _ _ price) as [pr | e]; [| discriminate].
  intros [= <-]. split; [reflexivity |].
  unfold Product.optimum_inventory_level, Product.demand. simpl.
  destruct (Qnonzero d); reflexivity.
Qed.

(** X14. When the demand, the total storage cost and the total variable
    cost are all different from zero, whatever their signs, and the
    products and the quotient are within the exponent range of [decimal],
    no guard fires and the value read is what [math.sqrt] gives for
    [2 * demand * total_variable_cost / total_storage_cost] as [decimal]
    computes it, each product and the quotient rounded to 28 digits:
    [ValueError] when the double nearest to it is negative.  The heap is
    left as it was. *)
Theorem optimum_inventory_level_past_guards (self : Product.obj) (h : Cost.heap)
    (s k : PyVal) :
  ~ Product.demand self == 0 ->
  Product.total_storage_cost self h = (Ok s, h) -> ~ num_value s == 0 ->
  Product.total_variable_cost self h = (Ok k, h) -> ~ num_value k == 0 ->
  quotient_in_context (Product.demand self) (num_value k) (num_value s) = true ->
  let x :=
    context_round
      (Decimal_mul (Decimal_mul 2 (Product.demand self)) (num_value k) /
       num_value s) in
  Product.optimum_inventory_level self h = (math_sqrt x, h)
  /\ (forall y,
        float_round x = Finite y -> y < 0 ->
        Product.optimum_inventory_level self h =
          (Raise (Exn ValueError "math domain error" None), h)).
Proof.
  intros Hd Es Hs Ek Hk _ x.
  assert (E : Product.optimum_inventory_level self h = (math_sqrt x, h)).
  { rewrite (optimum_inventory_level_cases self h s k Es Ek).
    apply Qnonzero_true in Hd. rewrite Hd.
    assert (Hts : truthy s = true).
    { destruct (truthy s) eqn:Ht; [reflexivity |].
      apply (total_truthy _ _ _ _ Es) in Ht. contradiction. }
    assert (Htk : truthy k = true).
    { destruct (truthy k) eqn:Ht; [reflexivity |].
      apply (total_variable_cost_truthy _ _ _ _ Ek) in Ht. contradiction. }
    rewrite Hts, Htk. reflexivity. }
  split; [exact E |].
  intros y Ey Hy. rewrite E. unfold math_sqrt. rewrite Ey.
  destruct (Qle_bool 0 y) eqn:Hle; [| reflexivity].
  apply Qle_bool_iff in Hle. lra.
Qed.

End Product_facts.

(** ** Statistics of the results *)

Lemma fold_max_bounds (l : list Q) (x : Q) :
  let m := fold_left (fun m y => if Qltb m y then y else m) l x in
  m ∈ x :: l /\ forall y, y ∈ x :: l -> y <= m.
Proof.
  revert x. induction l as [| z l IH]; intros x; simpl.
  - split; [apply list_elem_of_here |].
    intros y Hy. apply list_elem_of_singleton in Hy. subst y. lra.
  - destruct (Qltb x z) eqn:E.
    + apply Qltb_lt in E. destruct (IH z) as [Hin Hle]. split.
      * apply list_elem_of_further, Hin.
      * intros y Hy. apply elem_of_cons in Hy. destruct Hy as [-> | Hy].
        -- specialize (Hle z (list_elem_of_here _ _)). lra.
        -- apply Hle, Hy.
    + apply Qltb_ge in E. destruct (IH x) as [Hin Hle]. split.
      * apply elem_of_cons in Hin. destruct Hin as [Hin | Hin].
        -- rewrite Hin. apply list_elem_of_here.
        -- do 2 apply list_elem_of_further. exact Hin.
      * intros y Hy. apply elem_of_cons in Hy. destruct Hy as [-> | Hy].
        -- apply Hle, list_elem_of_here.
        -- apply elem_of_cons in Hy. destruct Hy as [-> | Hy].
           ++ specialize (Hle x (list_elem_of_here _ _)). lra.
           ++ apply Hle, list_elem_of_further, Hy.
Qed.

Lemma fold_min_bounds (l : list Q) (x : Q) :
  let m := fold_left (fun m y => if Qltb y m then y else m) l x in
  m ∈ x :: l /\ forall y, y ∈ x :: l -> m <= y.
Proof.
  revert x. induction l as [| z l IH]; intros x; simpl.
  - split; [apply list_elem_of_here |].
    intros y Hy. apply list_elem_of_singleton in Hy. subst y. lra.
  - destruct (Qltb z x) eqn:E.
    + apply Qltb_lt in E. destruct (IH z) as [Hin Hle]. split.
      * apply list_elem_of_further, Hin.
      * intros y Hy. apply elem_of_cons in Hy. destruct Hy as [-> | Hy].
        -- specialize (Hle z (list_elem_of_here _ _)). lra.
        -- apply Hle, Hy.
    + apply Qltb_ge in E. destruct (IH x) as [Hin Hle]. split.
      * apply elem_of_cons in Hin. destruct Hin as [Hin | Hin].
        -- rewrite Hin. apply list_elem_of_here.
        -- do 2 apply list_elem_of_further. exact Hin.
      * intros y Hy. apply elem_of_cons in Hy. destruct Hy as [-> | Hy].
        -- apply Hle, list_elem_of_here.
        -- apply elem_of_cons in Hy. destruct Hy as [-> | Hy].
           ++ specialize (Hle x (list_elem_of_here _ _)). lra.
           ++ apply Hle, list_elem_of_further, Hy.
Qed.

(** X15. When there are results, [maximum] and [minimum] are results, no
    result is above the maximum and none is below the minimum. *)
Theorem maximum_minimum_bound_the_results (self : Simulator.obj) :
  Simulator.results self <> [] ->
  Simulator.maximum self ∈ Simulator.results self
  /\ Simulator.minimum self ∈ Simulator.results self
  /\ (forall x, x ∈ Simulator.results self ->
        Simulator.minimum self <= x <= Simulator.maximum self).
Proof.
  unfold Simulator.maximum, Simulator.minimum.
  destruct (Simulator.results self) as [| x l]; [congruence |]. intros _.
  destruct (fold_max_bounds l x) as [Hmax Hle].
  destruct (fold_min_bounds l x) as [Hmin Hge].
  split; [exact Hmax |]. split; [exact Hmin |].
  intros y Hy. split; [apply Hge, Hy | apply Hle, Hy].
Qed.

(** ** What a run does to a simulator *)

Section run_facts.

Variable W : Type.
Variable fn : Simulator.trial W.

Lemma appended_appended (self : Simulator.obj) (ds1 ds2 : list Q) :
  appended (appended self ds1) ds2 = appended self (ds1 ++ ds2).
Proof.
  unfold appended. simpl. rewrite app_assoc. reflexivity.
Qed.

(** The loop, whatever the trial function does: it appends the decimals
    of the first calls, all [n] of them when it returns and fewer when it
    raises. *)
Lemma decorated_loop_appends (n : nat) (self self' : Simulator.obj) (w w' : W)
    (r : result unit) :
  Simulator.decorated_loop W fn n (self, w) = (r, (self', w')) ->
  exists ds,
    self' = appended self ds
    /\ map (fun d => Ok (VDecimal d)) ds =
         take (length ds) (fst (call_sequence fn n w))
    /\ (r = Ok tt -> length ds = n /\ snd (call_sequence fn n w) = w')
    /\ (r <> Ok tt -> (length ds < n)%nat).
Proof.
  revert self w. induction n as [| n IH]; intros self w; simpl.
  - unfold ret. intros [= <- <- <-]. exists []. rewrite appended_nil.
    repeat split; congruence.
  - destruct (fn w) as [[v | e] w1] eqn:E1.
    + destruct (call_sequence fn n w1) as [rs w2] eqn:E2.
      destruct v;
        try (simpl; intros [= <- <- <-]; exists []; rewrite appended_nil;
             split; [reflexivity |]; split; [reflexivity |];
             split; [discriminate | intros _; simpl; lia]).
      simpl. intros E. apply IH in E. rewrite E2 in E. simpl in E.
      destruct E as (ds & -> & Hpre & Hok & Hraise).
      exists (q :: ds). rewrite appended_cons.
      split; [reflexivity |]. simpl.
      split; [rewrite Hpre; reflexivity |].
      split.
      * intros Hr. destruct (Hok Hr) as [Hlen Hw]. split; [lia | exact Hw].
      * intros Hr. specialize (Hraise Hr). lia.
    + destruct (call_sequence fn n w1) as [rs w2].
      intros [= <- <- <-]. exists []. rewrite appended_nil.
      split; [reflexivity |]. split; [reflexivity |].
      split; [discriminate | intros _; simpl; lia].
Qed.

(** X16. A run, whatever the trial function does and however it ends,
    only appends to the results: the times and the title are kept, the
    results recorded before are kept in front, and what is appended are the
    decimals returned by the first calls of the trial function, as many as
    [times] when the run returns and fewer when it raises. *)
Theorem simulate_only_appends (self self' : Simulator.obj) (w w' : W)
    (r : result unit) (n : nat) :
  Simulator.range_len (Simulator.times self) = Ok n ->
  Simulator.simulate W fn (self, w) = (r, (self', w')) ->
  exists ds,
    self' = appended self ds
    /\ map (fun d => Ok (VDecimal d)) ds =
         take (length ds) (fst (call_sequence fn n w))
    /\ (r = Ok tt -> length ds = n)
    /\ (r <> Ok tt -> (length ds < n)%nat).
Proof.
  intros Hn. unfold Simulator.simulate, Simulator.decorated. rewrite Hn.
  intros E. apply decorated_loop_appends in E.
  destruct E as (ds & -> & Hpre & Hok & Hraise).
  exists ds. repeat split; auto. intros Hr. apply Hok, Hr.
Qed.

Lemma decorated_loop_decimals (n : nat) (self : Simulator.obj) (w : W) :
  (forall w0, exists d w1, fn w0 = (Ok (VDecimal d), w1)) ->
  exists ds w',
    Simulator.decorated_loop W fn n (self, w) = (Ok tt, (appended self ds, w'))
    /\ call_sequence fn n w = (map (fun d => Ok (VDecimal d)) ds, w')
    /\ length ds = n.
Proof.
  intros Hfn.
  destruct (call_sequence_decimals W fn n w Hfn) as (ds & w' & Eseq & Hlen).
  exists ds, w'. split; [| split; [exact Eseq | exact Hlen]].
  rewrite <- (Nat.add_0_r n) at 1.
  rewrite (decorated_loop_prefix W fn n 0 ds w w' self Eseq). reflexivity.
Qed.

Lemma call_sequence_app (n1 n2 : nat) (w : W) :
  call_sequence fn (n1 + n2) w =
    let (rs1, w1) := call_sequence fn n1 w in
    let (rs2, w2) := call_sequence fn n2 w1 in
    (rs1 ++ rs2, w2).
Proof.
  revert w. induction n1 as [| n1 IH]; intros w; simpl.
  - destruct (call_sequence fn n2 w). reflexivity.
  - destruct (fn w) as [r w0]. rewrite IH.
    destruct (call_sequence fn n1 w0) as [rs1 w1].
    destruct (call_sequence fn n2 w1) as [rs2 w2]. reflexivity.
Qed.

(** X17. A simulator can be run again: with a trial function that returns
    a decimal on every call, a second run of a simulator constructed with
    [times = N] returns too, keeps the [N] results of the first run in
    front and appends [N] more, and the results are the decimals of the
    [2 N] calls in call order. *)
Theorem simulate_twice_accumulates (times title : PyVal)
    (self : Simulator.obj) (w : W) :
  Simulator.__init__ times title = Ok self ->
  (forall w0, exists d w1, fn w0 = (Ok (VDecimal d), w1)) ->
  let N := Z.to_nat (int_value times) in
  exists self1 w1 self2 w2,
    Simulator.simulate W fn (self, w) = (Ok tt, (self1, w1))
    /\ Simulator.simulate W fn (self1, w1) = (Ok tt, (self2, w2))
    /\ length (Simulator.results self1) = N
    /\ length (Simulator.results self2) = (N + N)%nat
    /\ take N (Simulator.results self2) = Simulator.results self1
    /\ call_sequence fn (N + N) w =
         (map (fun d => Ok (VDecimal d)) (Simulator.results self2), w2).
Proof.
  intros Hinit Hfn N.
  destruct (Simulator_init_range times title self Hinit) as [-> Hrange].
  fold N in Hrange.
  set (self0 := {| Simulator.times := times; Simulator.title := title;
                   Simulator.results := [] |}).
  destruct (decorated_loop_decimals N self0 w Hfn) as (ds1 & w1 & E1 & S1 & L1).
  destruct (decorated_loop_decimals N (appended self0 ds1) w1 Hfn)
    as (ds2 & w2 & E2 & S2 & L2).
  exists (appended self0 ds1), w1, (appended (appended self0 ds1) ds2), w2.
  unfold Simulator.simulate, Simulator.decorated. simpl. rewrite Hrange.
  split; [exact E1 |]. split; [exact E2 |].
  split; [exact L1 |].
  split; [rewrite length_app; lia |].
  split; [simpl; rewrite take_app_length' by (symmetry; exact L1); reflexivity |].
  rewrite call_sequence_app, S1, S2, map_app. reflexivity.
Qed.

(** X18. In a [with] block, a run that returns prints the summary, and
    nothing else, after what was printed before: seven calls of [print],
    with the title, the times, and the average, maximum and minimum of the
    results of the run. *)
Theorem with_simulate_prints_the_summary (times title : PyVal)
    (self : Simulator.obj) (w : W) (out : Simulator.stdout) :
  Simulator.__init__ times title = Ok self ->
  (forall w0, exists d w1, fn w0 = (Ok (VDecimal d), w1)) ->
  exists self' w',
    Simulator.simulate W fn (self, w) = (Ok tt, (self', w'))
    /\ Simulator.with_simulate fn (self, w, out) =
         (Ok tt,
          (self', w',
           out ++
           [ [VStr "--------------------------------------------------"];
             [title; VStr "Summary:"];
             [VStr "- Simulated:"; times; VStr "times"];
             [VStr "- Average:"; VDecimal (Simulator.average self')];
             [VStr "- Maximum:"; VDecimal (Simulator.maximum self')];
             [VStr "- Minimum:"; VDecimal (Simulator.minimum self')];
             [VStr "--------------------------------------------------"] ])).
Proof.
  intros Hinit Hfn.
  destruct (Simulator_init_range times title self Hinit) as [-> Hrange].
  set (self0 := {| Simulator.times := times; Simulator.title := title;
                   Simulator.results := [] |}).
  destruct (decorated_loop_decimals (Z.to_nat (int_value times)) self0 w Hfn)
    as (ds & w' & E & _ & _).
  assert (Es : Simulator.simulate W fn (self0, w) = (Ok tt, (appended self0 ds, w'))).
  { unfold Simulator.simulate, Simulator.decorated. simpl. rewrite Hrange. exact E. }
  exists (appended self0 ds), w'. split; [exact Es |].
  unfold Simulator.with_simulate, Simulator.__enter__. rewrite Es.
  unfold Simulator.__exit__, Simulator.summary, bind, Simulator.print. simpl.
  rewrite <- !app_assoc. reflexivity.
Qed.

End run_facts.

(** ** The sampler without a spread *)

(** X19. With a standard deviation of zero [normal] never samples: it
    raises [ValueError] for a mean outside the bounds, as for any other
    standard deviation, and [ZeroDivisionError] for a mean within them,
    when it standardises the bounds.  The generator is left as it was. *)
Theorem normal_zero_std_never_samples (G : Type)
    (truncnorm_rvs : float -> float -> Q -> Q -> M G Q)
    (mean std upper lower : Q) (g : G) :
  std == 0 ->
  Simulator.normal G truncnorm_rvs mean std upper lower g =
    (Raise (if Qltb upper mean
            then Exn ValueError "Mean is too high:" (Some (VFloat mean))
            else if Qltb mean lower
            then Exn ValueError "Mean is too low:" (Some (VFloat mean))
            else Exn ZeroDivisionError "division by zero" None), g)
  /\ (lower <= mean <= upper ->
      Simulator.normal G truncnorm_rvs mean std upper lower g =
        (Raise (Exn ZeroDivisionError "division by zero" None), g)).
Proof.
  intros Hstd.
  assert (E : Simulator.normal G truncnorm_rvs mean std upper lower g =
    (Raise (if Qltb upper mean
            then Exn ValueError "Mean is too high:" (Some (VFloat mean))
            else if Qltb mean lower
            then Exn ValueError "Mean is too low:" (Some (VFloat mean))
            else Exn ZeroDivisionError "division by zero" None), g)).
  { unfold Simulator.normal.
    destruct (Qltb upper mean); [reflexivity |].
    destruct (Qltb mean lower); [reflexivity |].
    unfold bind, lift, float_truediv.
    apply Qeq_bool_iff in Hstd. rewrite Hstd. reflexivity. }
  split; [exact E |].
  intros [Hl Hu]. rewrite E.
  apply Qltb_ge in Hl, Hu. rewrite Hl, Hu. reflexivity.
Qed.

(** ** Centers *)

(** X20. The setters of a center check before they assign: anything but a
    non-empty string raises [AttributeError] and leaves the center as it
    was; a non-empty string becomes the name, or the address, the other
    attributes staying as they were, and shows in [repr]. *)
Theorem Center_setters_check_then_assign (self : Center.obj) (value : PyVal) :
  ((forall s, value = VStr s -> s = EmptyString) ->
   Center.set_name value self =
     (Raise (Exn AttributeError "Invalid center name:" (Some value)), self)
   /\ Center.set_address value self =
     (Raise (Exn AttributeError "Invalid center address:" (Some value)), self))
  /\
  (forall s, value = VStr s -> s <> EmptyString ->
   exists self1 self2,
     Center.set_name value self = (Ok tt, self1)
     /\ Center.name self1 = s
     /\ Center.address self1 = Center.address self
     /\ Center.costs self1 = Center.costs self
     /\ Center.__repr__ self1 =
          ("<Center: " ++ s ++ " - " ++ Center.address self ++ ">")%string
     /\ Center.set_address value self = (Ok tt, self2)
     /\ Center.address self2 = s
     /\ Center.name self2 = Center.name self
     /\ Center.costs self2 = Center.costs self
     /\ Center.__repr__ self2 =
          ("<Center: " ++ Center.name self ++ " - " ++ s ++ ">")%string).
Proof.
  split.
  - intros Hbad. unfold Center.set_name, Center.set_address.
    destruct (negb (truthy value) || negb (isinstance_str value)) eqn:G;
      [split; reflexivity |].
    apply nonempty_str_guard in G. destruct G as (s & -> & Hs).
    exfalso. apply Hs, Hbad. reflexivity.
  - intros s -> Hs. unfold Center.set_name, Center.set_address.
    assert (G : negb (truthy (VStr s)) || negb (isinstance_str (VStr s)) = false)
      by (apply nonempty_str_guard; eauto).
    rewrite G. eexists _, _. repeat split.
Qed.

Lemma Center_assign_name_nonempty (a : Center_assignment) (self : Center.obj) :
  Center.name self <> EmptyString ->
  Center.name (snd (Center_assign a self)) <> EmptyString.
Proof.
  intros Hn. destruct a as [value | value]; simpl;
    unfold Center.set_name, Center.set_address;
    destruct (negb (truthy value) || negb (isinstance_str value)) eqn:G;
    try exact Hn.
  - apply nonempty_str_guard in G. destruct G as (s & -> & Hs). exact Hs.
  - destruct value; exact Hn.
Qed.

Lemma Center_assign_address (a : Center_assignment) (self : Center.obj) :
  Center.address (snd (Center_assign a self)) <> EmptyString <->
  assigns_address a = true \/ Center.address self <> EmptyString.
Proof.
  destruct a as [value | value]; simpl;
    unfold Center.set_name, Center.set_address.
  - destruct (negb (truthy value) || negb (isinstance_str value));
      [| destruct value]; simpl; split; auto; intros [? | ?]; auto; discriminate.
  - destruct (negb (truthy value) || negb (isinstance_str value)) eqn:G.
    + simpl. split; [auto |]. intros [Ha | Ha]; [| exact Ha].
      destruct value; try discriminate. simpl in G, Ha.
      rewrite orb_false_r, negb_involutive in G. rewrite G in Ha. discriminate.
    + apply nonempty_str_guard in G. destruct G as (s & -> & Hs). simpl.
      split; [intros _; left | intros _; exact Hs].
      destruct (String.eqb_spec s EmptyString); [contradiction | reflexivity].
Qed.

Lemma Center_assign_costs (a : Center_assignment) (self : Center.obj) :
  Center.costs (snd (Center_assign a self)) = Center.costs self.
Proof.
  destruct a as [value | value]; simpl;
    unfold Center.set_name, Center.set_address;
    destruct (negb (truthy value) || negb (isinstance_str value));
    try reflexivity; destruct value; reflexivity.
Qed.

Lemma Center_assign_all_invariant (l : list Center_assignment) (self : Center.obj) :
  Center.name self <> EmptyString ->
  let self' := snd (Center_assign_all l self) in
  Center.name self' <> EmptyString
  /\ Center.costs self' = Center.costs self
  /\ (Center.address self' <> EmptyString <->
      existsb assigns_address l = true \/ Center.address self <> EmptyString)
  /\ length (fst (Center_assign_all l self)) = length l.
Proof.
  revert self. induction l as [| a l IH]; intros self Hn; simpl.
  - repeat split; auto. intros [? | ?]; [discriminate | assumption].
  - destruct (Center_assign a self) as [r self1] eqn:E1.
    pose proof (Center_assign_name_nonempty a self Hn) as Hn1.
    pose proof (Center_assign_address a self) as Ha1.
    pose proof (Center_assign_costs a self) as Hc1.
    rewrite E1 in Hn1, Ha1, Hc1. simpl in Hn1, Ha1, Hc1.
    specialize (IH self1 Hn1).
    destruct (Center_assign_all l self1) as [rs self2]. simpl in *.
    destruct IH as (IHn & IHc & IHa & IHl).
    split; [exact IHn |]. split; [congruence |].
    split; [| congruence].
    rewrite IHa, Ha1, orb_true_iff. tauto.
Qed.

(** X21. Whatever is assigned to the name and the address of a center
    after its construction, and whichever of the assignments raise: the
    name is never empty, the collection of costs is the one of the
    constructor, and the address is empty, as the constructor leaves it,
    until a non-empty string is assigned to it, and never afterwards. *)
Theorem Center_attributes_after_assignments (l : list Center_assignment) :
  let self := snd (Center_assign_all l Center.__init__) in
  Center.name self <> EmptyString
  /\ Center.costs self = Costs.__init__
  /\ (Center.address self = EmptyString <-> existsb assigns_address l = false)
  /\ Center.set_address (VStr (Center.address Center.__init__)) Center.__init__ =
       (Raise (Exn AttributeError "Invalid center address:" (Some (VStr EmptyString))),
        Center.__init__).
Proof.
  destruct (Center_assign_all_invariant l Center.__init__) as (Hn & Hc & Ha & _);
    [discriminate |].
  cbv zeta. split; [exact Hn |]. split; [exact Hc |].
  split; [| reflexivity].
  destruct (existsb assigns_address l).
  - split; [| discriminate]. intros E. exfalso.
    apply (proj2 Ha); [left; reflexivity | exact E].
  - split; [reflexivity |]. intros _.
    destruct (string_dec
                (Center.address (snd (Center_assign_all l Center.__init__)))
                EmptyString) as [E | E]; [exact E |].
    apply Ha in E. destruct E as [E | E]; [discriminate | contradiction E; reflexivity].
Qed.

(** ** Totals as results of a trial *)

Section total_as_result.
Context `{PyLib}.

(** X22. The total of a collection is a [Decimal] only when the
    collection is not empty: for an empty collection it is the integer
    [0] that [sum] starts from.  A trial function that returns the total of
    an empty collection therefore makes every run of at least one trial
    raise [TypeError] at the first trial, with no result recorded. *)
Theorem empty_total_is_not_a_Decimal (h : Cost.heap) (self : Costs.obj) :
  (Costs._Costs__costs self = [] ->
   Costs.total self h = (Ok (VInt 0), h)
   /\ forall times title s n,
        Simulator.__init__ times title = Ok s ->
        Z.to_nat (int_value times) = S n ->
        Simulator.simulate Cost.heap (Costs.total self) (s, h) =
          (Raise (Exn TypeError "Expecting a Decimal, got:" (Some (VInt 0))), (s, h)))
  /\
  (Costs._Costs__costs self <> [] -> Costs_wf h self ->
   exists q, Costs.total self h = (Ok (VDecimal q), h)).
Proof.
  split.
  - intros Hnil.
    assert (Et : Costs.total self h = (Ok (VInt 0), h)).
    { unfold Costs.total. rewrite Hnil. reflexivity. }
    split; [exact Et |].
    intros times title s n Hinit Hn.
    destruct (Simulator_init_range times title s Hinit) as [-> Hrange].
    unfold Simulator.simulate, Simulator.decorated. simpl.
    rewrite Hrange, Hn. simpl. rewrite Et. reflexivity.
  - intros Hne Hwf. rewrite (Costs_total_wf h self Hwf).
    destruct (Costs._Costs__costs self) as [| e d]; [congruence |].
    simpl. eauto.
Qed.

End total_as_result.

(** ** The trial functions of the modules *)

Lemma initialised_app (h l : Cost.heap) (c : loc) :
  initialised h c -> initialised (h ++ l) c.
Proof.
  intros (n & v & E). exists n, v.
  rewrite lookup_app_l by (eapply lookup_lt_Some, E). exact E.
Qed.

Lemma stored_value_app (h l : Cost.heap) (cs : list loc) :
  Forall (initialised h) cs ->
  map (stored_value (h ++ l)) cs = map (stored_value h) cs.
Proof.
  intros Hcs. apply map_ext_Forall. eapply Forall_impl; [exact Hcs |].
  intros c (n & v & E). unfold stored_value.
  rewrite lookup_app_l by (eapply lookup_lt_Some, E). reflexivity.
Qed.

(** The total of a well-formed collection that is not empty is a
    [Decimal] between the sums of bounds on the values held, when these
    sums have at most 28 digits. *)
Lemma Costs_total_bounded (h : Cost.heap) (costs : Costs.obj)
    (bounds : list (Q * Q)) :
  Costs_wf h costs -> Costs._Costs__costs costs <> [] ->
  Forall2 within bounds
    (map (stored_value h) (Costs.dict_values (Costs._Costs__costs costs))) ->
  bounds_fit 0 0 bounds = true ->
  exists q,
    Costs.total costs h = (Ok (VDecimal q), h)
    /\ Qsum (map fst bounds) <= q <= Qsum (map snd bounds).
Proof.
  intros Hwf Hne Hb Hfit. rewrite (Costs_total_wf h costs Hwf).
  destruct (Costs._Costs__costs costs) as [| e d]; [congruence |].
  eexists. split; [reflexivity |].
  pose proof (Decimal_sum_bounded_from bounds _ 0 0 0 Hb ltac:(lra) ltac:(lra) Hfit)
    as Hsum.
  unfold Decimal_sum. lra.
Qed.

Section mains_facts.
Context `{PyLib}.

Variable G : Type.
Variable truncnorm_rvs : float -> float -> Q -> Q -> M G Q.

Hypothesis truncnorm_support :
  forall a b loc scale g x g',
    a <= b -> 0 < scale ->
    truncnorm_rvs (Finite a) (Finite b) loc scale g = (Ok x, g') ->
    loc + scale * a <= x <= loc + scale * b.

Hypothesis truncnorm_draws :
  forall a b loc scale g,
    a < b -> 0 < scale ->
    exists x g', truncnorm_rvs (Finite a) (Finite b) loc scale g = (Ok x, g').

(** One [costs.add(Cost(name, simulator.normal(...)))], for bounds that
    standardise to the finite doubles [a < b] and a support within
    [[lo, hi]] with [lo] not negative: it returns, and the cost is filed
    last under its name with a value in [[lo, hi]]. *)
Lemma add_sampled_cost_step (costs : Costs.obj) (name : string)
    (mean std upper lower a b lo hi : Q) (bounds : list (Q * Q)) (w : world G) :
  0 < std -> lower <= mean <= upper ->
  float_truediv (float_sub lower mean) std = Ok (Finite a) ->
  float_truediv (float_sub upper mean) std = Ok (Finite b) ->
  a < b ->
  0 <= lo -> lo <= mean + std * a -> mean + std * b <= hi ->
  name <> EmptyString ->
  Costs_wf (world_heap G w) costs ->
  name ∉ Costs.dict_keys (Costs._Costs__costs costs) ->
  Forall2 within bounds
    (map (stored_value (world_heap G w))
       (Costs.dict_values (Costs._Costs__costs costs))) ->
  exists costs' w',
    add_sampled_cost G truncnorm_rvs costs name mean std upper lower w = (Ok costs', w')
    /\ Costs_wf (world_heap G w') costs'
    /\ Costs.dict_keys (Costs._Costs__costs costs') =
         Costs.dict_keys (Costs._Costs__costs costs) ++ [name]
    /\ Forall2 within (bounds ++ [(lo, hi)])
         (map (stored_value (world_heap G w'))
            (Costs.dict_values (Costs._Costs__costs costs')))
    /\ world_printed G w' = world_printed G w.
Proof.
  intros Hstd Hmean Ea Eb Hab Hlo0 Hlo Hhi Hname [Hk Hv] Hnotin Hbound.
  destruct (normal_standardised G truncnorm_rvs truncnorm_support truncnorm_draws
              mean std upper lower a b (world_generator G w) Hstd Hmean Ea Eb)
    as (_ & _ & _ & Hdraw).
  destruct (Hdraw Hab) as (v & g' & En & Hvb).
  unfold add_sampled_cost, bind, on_generator, on_heap. rewrite En. simpl.
  rewrite (Cost_call_computes name (VDecimal v) v _ Hname eq_refl).
  assert (Hpos : Qltb v 0 = false) by (apply Qltb_ge; lra).
  rewrite Hpos.
  set (h := world_heap G w) in *.
  set (o := {| Cost._Cost__name := Some name; Cost._Cost__value := Some v |}).
  assert (Eo : (h ++ [o]) !! length h = Some o).
  { rewrite lookup_app_r by lia. rewrite Nat.sub_diag. reflexivity. }
  cbn [world_heap world_generator world_printed].
  rewrite (Costs_add_live (h ++ [o]) costs (length h) name v Eo).
  rewrite (dict_set_notin name _ _ Hnotin).
  eexists _, _. split; [reflexivity |]. simpl.
  unfold Costs_wf, Costs.dict_keys, Costs.dict_values. simpl.
  rewrite !map_app. simpl.
  split; [split |].
  - apply NoDup_app. split; [exact Hk |]. split; [| apply NoDup_singleton].
    intros x Hx Hx'. apply list_elem_of_singleton in Hx'. subst x.
    exact (Hnotin Hx).
  - apply Forall_app. split.
    + eapply Forall_impl; [exact Hv |]. intros c. apply initialised_app.
    + repeat constructor. exists name, v. exact Eo.
  - split; [reflexivity |]. split; [| reflexivity].
    apply Forall2_app.
    + rewrite (stored_value_app h [o] (map snd (Costs._Costs__costs costs)) Hv).
      exact Hbound.
    + repeat constructor; unfold stored_value; rewrite Eo; simpl; lra.
Qed.

(** A run in a [with] block of a trial function that always returns a
    decimal with the property [P]: it returns, and every result has the
    property. *)
Lemma with_simulate_results_satisfy (W : Type) (fn : Simulator.trial W)
    (P : Q -> Prop) (times title : PyVal) (self : Simulator.obj) (w : W)
    (out : Simulator.stdout) :
  Simulator.__init__ times title = Ok self ->
  (forall w0, exists d w1, fn w0 = (Ok (VDecimal d), w1) /\ P d) ->
  exists self' w' out',
    Simulator.with_simulate fn (self, w, out) = (Ok tt, (self', w', out'))
    /\ length (Simulator.results self') = Z.to_nat (int_value times)
    /\ Forall P (Simulator.results self').
Proof.
  intros Hinit Hfn.
  destruct (Simulator_init_range times title self Hinit) as [-> Hrange].
  set (self0 := {| Simulator.times := times; Simulator.title := title;
                   Simulator.results := [] |}).
  assert (Hloop : forall n s w0, exists ds w',
            Simulator.decorated_loop W fn n (s, w0) = (Ok tt, (appended s ds, w'))
            /\ length ds = n /\ Forall P ds).
  { induction n as [| n IH]; intros s w0; simpl.
    - exists [], w0. rewrite appended_nil. repeat split. constructor.
    - destruct (Hfn w0) as (d & w1 & E & Hd). rewrite E. simpl.
      destruct (IH (Simulator.append s d) w1) as (ds & w' & El & Hlen & HP).
      exists (d :: ds), w'. rewrite El, appended_cons.
      repeat split; [simpl; congruence | constructor; assumption]. }
  destruct (Hloop (Z.to_nat (int_value times)) self0 w) as (ds & w' & E & Hlen & HP).
  unfold Simulator.with_simulate, Simulator.__enter__, Simulator.simulate,
    Simulator.decorated.
  simpl. rewrite Hrange, E.
  unfold Simulator.__exit__, Simulator.summary, bind, Simulator.print. simpl.
  eexists (appended self0 ds), w', _.
  split; [reflexivity |]. split; [simpl; exact Hlen | simpl; exact HP].
Qed.

Ltac notin_keys Hk :=
  rewrite Hk; simpl; rewrite ?not_elem_of_cons;
  repeat split; try discriminate; apply not_elem_of_nil.

Ltac by_computation := apply Qle_bool_iff; vm_compute; reflexivity.

(** One step of a trial function: the next [add] of a sampled cost, whose
    value lies in [[lo, hi]], with what is known of the collection and of
    the world before it. *)
Ltac sampled_step lo hi :=
  unfold bind at 1;
  lazymatch goal with
  | Hwf : Costs_wf (world_heap G ?w) ?costs,
    Hk : Costs.dict_keys (Costs._Costs__costs ?costs) = _,
    Hb : Forall2 within ?bounds (map (stored_value (world_heap G ?w)) _),
    Hp : world_printed G ?w = _
    |- context [add_sampled_cost G truncnorm_rvs ?costs ?name ?mean ?std
                  ?upper ?lower ?w] =>
      let ra := eval vm_compute in (float_truediv (float_sub lower mean) std) in
      let rb := eval vm_compute in (float_truediv (float_sub upper mean) std) in
      lazymatch ra with
      | Ok (Finite ?a) =>
      lazymatch rb with
      | Ok (Finite ?b) =>
          let E := fresh "E" in
          let costs' := fresh "costs" in
          let w' := fresh "w" in
          let Hwf' := fresh "Hwf" in
          let Hk' := fresh "Hk" in
          let Hb' := fresh "Hb" in
          let Hp' := fresh "Hp" in
          destruct (add_sampled_cost_step costs name mean std upper lower
                      a b lo hi bounds w)
            as (costs' & w' & E & Hwf' & Hk' & Hb' & Hp');
          [ reflexivity | split; by_computation
          | vm_compute; reflexivity | vm_compute; reflexivity
          | reflexivity | by_computation | by_computation | by_computation
          | discriminate | exact Hwf | notin_keys Hk | exact Hb | ];
          rewrite E; clear E;
          rewrite Hk in Hk'; simpl in Hk';
          rewrite Hp in Hp';
          cbn [app] in Hb';
          clear Hwf Hk Hb Hp
      end end
  end.

(** The end of a trial function: the total of the collection built. *)
Ltac total_of_collection :=
  lazymatch goal with
  | Hwf : Costs_wf (world_heap G ?w) ?costs,
    Hk : Costs.dict_keys (Costs._Costs__costs ?costs) = _,
    Hb : Forall2 within ?bounds (map (stored_value (world_heap G ?w)) _) |- _ =>
      let q := fresh "q" in
      let Et := fresh "Et" in
      let Hq := fresh "Hq" in
      destruct (Costs_total_bounded (world_heap G w) costs bounds Hwf)
        as (q & Et & Hq);
      [ intros Hnil; rewrite Hnil in Hk; discriminate
      | exact Hb | vm_compute; reflexivity | ];
      unfold on_heap, Center.total_fixed_cost, Product.total_storage_cost,
        Product.total_variable_cost;
      simpl; rewrite Et;
      eexists _, _; split; [reflexivity |];
      split; [cbn [map fst snd Qsum fold_right] in Hq; lra |]
  end.

(** [main] of center.py returns a [Decimal] between the sums of the lower
    and of the upper ends of the supports of its seven costs, after
    printing the identifier of the center.  The ends are the bounds in the
    code, except for 'Energy Costs', whose bounds [100] and [1000]
    standardise with a rounding error. *)
Lemma center_main_returns (w : world G) :
  exists t w',
    center_main G truncnorm_rvs w = (Ok (VDecimal t), w')
    /\ 509.9999999999999 <= t <= 6100.0000000000001
    /\ world_printed G w' =
         world_printed G w ++
         [[VStr "Center identifier:"; VStr "<Center: My Center I - 450 Hawk St.>"]].
Proof.
  set (w0 := {| world_heap := world_heap G w;
                world_generator := world_generator G w;
                world_printed := world_printed G w ++
                  [[VStr "Center identifier:";
                    VStr "<Center: My Center I - 450 Hawk St.>"]] |}).
  set (center := {| Center._Center__name := "My Center I";
                    Center._Center__address := "450 Hawk St.";
                    Center.costs := Costs.__init__ |}).
  assert (Hwf : Costs_wf (world_heap G w0) (Center.costs center))
    by apply Costs_init_wf.
  assert (Hk : Costs.dict_keys (Costs._Costs__costs (Center.costs center)) = [])
    by reflexivity.
  assert (Hb : Forall2 within []
                 (map (stored_value (world_heap G w0))
                    (Costs.dict_values (Costs._Costs__costs (Center.costs center)))))
    by constructor.
  assert (Hp : world_printed G w0 =
               world_printed G w ++
               [[VStr "Center identifier:";
                 VStr "<Center: My Center I - 450 Hawk St.>"]])
    by reflexivity.
  change (center_main G truncnorm_rvs w) with
    ((costs <- add_sampled_cost G truncnorm_rvs (Center.costs center)
                 "Quality Control Costs" 100 20 3000 50 ;;
      costs <- add_sampled_cost G truncnorm_rvs costs "Labor Costs" 500 100 1000 0 ;;
      costs <- add_sampled_cost G truncnorm_rvs costs "Energy Costs" 150 180 1000 100 ;;
      costs <- add_sampled_cost G truncnorm_rvs costs "Equipment Costs" 200 40 320 160 ;;
      costs <- add_sampled_cost G truncnorm_rvs costs "Overhead Costs" 30 20 300 0 ;;
      costs <- add_sampled_cost G truncnorm_rvs costs "Warehouse Rent" 300 50 400 200 ;;
      costs <- add_sampled_cost G truncnorm_rvs costs
                 "Inventory Management Software" 10 5 80 0 ;;
      on_heap G (Center.total_fixed_cost (with_costs center costs)))%py w0).
  clearbody w0.
  sampled_step 50 3000. sampled_step 0 1000.
  sampled_step 99.9999999999999 1000.0000000000001.
  sampled_step 160 320. sampled_step 0 300. sampled_step 200 400.
  sampled_step 0 80.
  total_of_collection. assumption.
Qed.

(** The first [main] of product.py returns a [Decimal] between [5] and
    [15], the total of the two production costs. *)
Lemma product_variable_main_returns (w : world G) :
  exists t w',
    product_variable_main G truncnorm_rvs w = (Ok (VDecimal t), w')
    /\ 5 <= t <= 15
    /\ world_printed G w' = world_printed G w.
Proof.
  set (product := {| Product._Product__name := "Product I";
                     Product._Product__inventory := inject_Z 100;
                     Product._Product__demand := inject_Z 0;
                     Product._Product__lead_time := inject_Z 0;
                     Product._Product__price := inject_Z 0;
                     Product.storage_costs := Costs.__init__;
                     Product.kind := Product.ProducedProduct Costs.__init__ |}).
  pose (w0 := w).
  assert (Hwf : Costs_wf (world_heap G w0) Costs.__init__) by apply Costs_init_wf.
  assert (Hk : Costs.dict_keys (Costs._Costs__costs Costs.__init__) = [])
    by reflexivity.
  assert (Hb : Forall2 within []
                 (map (stored_value (world_heap G w0))
                    (Costs.dict_values (Costs._Costs__costs Costs.__init__))))
    by constructor.
  assert (Hp : world_printed G w0 = world_printed G w) by reflexivity.
  change (product_variable_main G truncnorm_rvs w) with
    ((costs <- add_sampled_cost G truncnorm_rvs Costs.__init__ "Energy Costs" 2 1 5 0 ;;
      costs <- add_sampled_cost G truncnorm_rvs costs "Labor Costs" 7 2 10 5 ;;
      on_heap G (Product.total_variable_cost
                   (with_production_costs product costs)))%py w0).
  clearbody w0.
  sampled_step 0 5. sampled_step 5 10.
  total_of_collection. assumption.
Qed.

(** The second [main] of product.py returns a [Decimal], the total of the
    eight storage costs.  The upper bound [0.5] of each standardises to the
    double [4], for which the support ends at five times the double of
    [0.1], just above [0.5]. *)
Lemma product_storage_main_returns (w : world G) :
  exists t w',
    product_storage_main G truncnorm_rvs w = (Ok (VDecimal t), w')
    /\ 0 <= t <= 4.0000000000000008
    /\ world_printed G w' = world_printed G w.
Proof.
  set (product := {| Product._Product__name := "Product II";
                     Product._Product__inventory := inject_Z 100;
                     Product._Product__demand := inject_Z 0;
                     Product._Product__lead_time := inject_Z 0;
                     Product._Product__price := inject_Z 0;
                     Product.storage_costs := Costs.__init__;
                     Product.kind := Product.PurchasedProduct Costs.__init__ |}).
  pose (w0 := w).
  assert (Hwf : Costs_wf (world_heap G w0) Costs.__init__) by apply Costs_init_wf.
  assert (Hk : Costs.dict_keys (Costs._Costs__costs Costs.__init__) = [])
    by reflexivity.
  assert (Hb : Forall2 within []
                 (map (stored_value (world_heap G w0))
                    (Costs.dict_values (Costs._Costs__costs Costs.__init__))))
    by constructor.
  assert (Hp : world_printed G w0 = world_printed G w) by reflexivity.
  change (product_storage_main G truncnorm_rvs w) with
    ((costs <- add_sampled_cost G truncnorm_rvs Costs.__init__
                 "Warehousing" float_0_1 float_0_1 (1 # 2) 0 ;;
      costs <- add_sampled_cost G truncnorm_rvs costs
                 "Utilities" float_0_1 float_0_1 (1 # 2) 0 ;;
      costs <- add_sampled_cost G truncnorm_rvs costs
                 "Insurance" float_0_1 float_0_1 (1 # 2) 0 ;;
      costs <- add_sampled_cost G truncnorm_rvs costs
                 "Taxes" float_0_1 float_0_1 (1 # 2) 0 ;;
      costs <- add_sampled_cost G truncnorm_rvs costs
                 "Freight" float_0_1 float_0_1 (1 # 2) 0 ;;
      costs <- add_sampled_cost G truncnorm_rvs costs
                 "Placement" float_0_1 float_0_1 (1 # 2) 0 ;;
      costs <- add_sampled_cost G truncnorm_rvs costs
                 "Ordering" float_0_1 float_0_1 (1 # 2) 0 ;;
      costs <- add_sampled_cost G truncnorm_rvs costs
                 "Obsolescence" float_0_1 float_0_1 (1 # 2) 0 ;;
      on_heap G (Product.total_storage_cost
                   (with_storage_costs product costs)))%py w0).
  clearbody w0.
  do 8 (sampled_step 0 0.5000000000000001).
  total_of_collection. assumption.
Qed.

(** X23. The run of center.py, a hundred trials of its [main] in a
    [with] block, returns whatever the draws are: it records a hundred
    results, each between [510] and [6100], the sums of the lower and of
    the upper bounds of the seven costs, up to the [1e-13] by which the
    rounded bounds of 'Energy Costs' widen its support. *)
Theorem center_run_completes (w : world G) (out : Simulator.stdout) :
  exists self self' w' out',
    Simulator.__init__ (VInt 100) (VStr "Total Fixed Cost") = Ok self
    /\ Simulator.with_simulate (center_main G truncnorm_rvs) (self, w, out) =
         (Ok tt, (self', w', out'))
    /\ length (Simulator.results self') = 100%nat
    /\ Forall (fun t => 509.9999999999999 <= t <= 6100.0000000000001)
         (Simulator.results self').
Proof.
  eexists.
  destruct (with_simulate_results_satisfy (world G) (center_main G truncnorm_rvs)
              (fun t => 509.9999999999999 <= t <= 6100.0000000000001)
              (VInt 100) (VStr "Total Fixed Cost")
              _ w out eq_refl) as (self' & w' & out' & E & Hlen & HP).
  { intros w0. destruct (center_main_returns w0) as (t & w1 & Et & Ht & _).
    exists t, w1. split; assumption. }
  exists self', w', out'.
  split; [reflexivity |]. split; [exact E |]. split; [exact Hlen | exact HP].
Qed.

(** X24. The first run of product.py, ten trials of 'Product Variable
    Cost', returns whatever the draws are, with ten results between [5] and
    [15]: the total variable cost of a produced product is the total of its
    production costs. *)
Theorem product_variable_run_completes (w : world G) (out : Simulator.stdout) :
  exists self self' w' out',
    Simulator.__init__ (VInt 10) (VStr "Product Variable Cost") = Ok self
    /\ Simulator.with_simulate (product_variable_main G truncnorm_rvs)
         (self, w, out) = (Ok tt, (self', w', out'))
    /\ length (Simulator.results self') = 10%nat
    /\ Forall (fun t => 5 <= t <= 15) (Simulator.results self').
Proof.
  eexists.
  destruct (with_simulate_results_satisfy (world G)
              (product_variable_main G truncnorm_rvs)
              (fun t => 5 <= t <= 15) (VInt 10) (VStr "Product Variable Cost")
              _ w out eq_refl) as (self' & w' & out' & E & Hlen & HP).
  { intros w0.
    destruct (product_variable_main_returns w0) as (t & w1 & Et & Ht & _).
    exists t, w1. split; assumption. }
  exists self', w', out'.
  split; [reflexivity |]. split; [exact E |]. split; [exact Hlen | exact HP].
Qed.

(** X25. The second run of product.py, ten trials of 'Product Storage
    Cost', returns whatever the draws are, with ten results between [0] and
    eight times [0.5000000000000001]: in doubles the support of each of
    the eight costs ends just above the upper bound [0.5]. *)
Theorem product_storage_run_completes (w : world G) (out : Simulator.stdout) :
  exists self self' w' out',
    Simulator.__init__ (VInt 10) (VStr "Product Storage Cost") = Ok self
    /\ Simulator.with_simulate (product_storage_main G truncnorm_rvs)
         (self, w, out) = (Ok tt, (self', w', out'))
    /\ length (Simulator.results self') = 10%nat
    /\ Forall (fun t => 0 <= t <= 4.0000000000000008) (Simulator.results self').
Proof.
  eexists.
  destruct (with_simulate_results_satisfy (world G)
              (product_storage_main G truncnorm_rvs)
              (fun t => 0 <= t <= 4.0000000000000008)
              (VInt 10) (VStr "Product Storage Cost")
              _ w out eq_refl) as (self' & w' & out' & E & Hlen & HP).
  { intros w0.
    destruct (product_storage_main_returns w0) as (t & w1 & Et & Ht & _).
    exists t, w1. split; assumption. }
  exists self', w', out'.
  split; [reflexivity |]. split; [exact E |]. split; [exact Hlen | exact HP].
Qed.

(** X27. The run of simulator.py, ten trials that each return one draw
    of [normal(mean=3, std=1, upper=10, lower=1)], returns whatever the
    draws are, with ten results between [1] and [10]. *)
Theorem simulator_run_completes (g : G) (out : Simulator.stdout) :
  exists self self' g' out',
    Simulator.__init__ (VInt 10) (VStr "Example") = Ok self
    /\ Simulator.with_simulate (simulator_main G truncnorm_rvs) (self, g, out) =
         (Ok tt, (self', g', out'))
    /\ length (Simulator.results self') = 10%nat
    /\ Forall (fun t => 1 <= t <= 10) (Simulator.results self').
Proof.
  eexists.
  destruct (with_simulate_results_satisfy G (simulator_main G truncnorm_rvs)
              (fun t => 1 <= t <= 10) (VInt 10) (VStr "Example")
              _ g out eq_refl) as (self' & g' & out' & E & Hlen & HP).
  { intros g0.
    destruct (normal_standardised G truncnorm_rvs truncnorm_support
                truncnorm_draws 3 1 10 1 (-2) 7 g0)
      as (_ & _ & _ & Hdraw);
      [reflexivity | split; discriminate
      | vm_compute; reflexivity | vm_compute; reflexivity |].
    destruct (Hdraw eq_refl) as (v & g1 & En & Hv).
    exists v, g1. unfold simulator_main, bind. rewrite En.
    split; [reflexivity | lra]. }
  exists self', g', out'.
  split; [reflexivity |]. split; [exact E |]. split; [exact Hlen | exact HP].
Qed.

End mains_facts.

(** ** The further properties on the inputs of the examples *)

(** [Cost('Labor', '12')] on the empty heap. *)
Lemma Cost_constructor_builds_witness :
  exists c h',
    Cost.call (H := example_lib) [VStr "Labor"; VStr "12"] [] = (Ok c, h')
    /\ (@nil Cost.obj) !! c = None
    /\ Cost.name c h' = (Ok "Labor"%string, h')
    /\ Cost.value c h' = (Ok 12, h')
    /\ length h' = 1%nat
    /\ (forall c' o, (@nil Cost.obj) !! c' = Some o -> h' !! c' = Some o).
Proof.
  apply (Cost_constructor_builds (H := example_lib) "Labor" (VStr "12") 12 []).
  - discriminate.
  - reflexivity.
  - discriminate.
Defined.

(** Renaming the first cost of [example_heap] to [Wages]. *)
Lemma Cost_set_name_checks_then_assigns_witness :
  exists h',
    Cost.set_name 0%nat (VStr "Wages") example_heap = (Ok tt, h')
    /\ Cost.name 0%nat h' = (Ok "Wages"%string, h')
    /\ fst (Cost.value 0%nat h') = fst (Cost.value 0%nat example_heap)
    /\ (forall c', c' <> 0%nat -> h' !! c' = example_heap !! c').
Proof.
  apply (proj2 (Cost_set_name_checks_then_assigns example_heap 0%nat _
                  (VStr "Wages") eq_refl) "Wages"%string).
  - reflexivity.
  - discriminate.
Defined.

(** Assigning [9] to the value of the first cost of [example_heap]. *)
Lemma Cost_set_value_round_trip_witness :
  exists h',
    Cost.set_value (H := example_lib) 0%nat (VInt 9) example_heap = (Ok tt, h')
    /\ Cost.value 0%nat h' = (Ok 9, h')
    /\ fst (Cost.name 0%nat h') = fst (Cost.name 0%nat example_heap)
    /\ (forall c', c' <> 0%nat -> h' !! c' = example_heap !! c').
Proof.
  apply (Cost_set_value_round_trip (H := example_lib) example_heap 0%nat _
           (VInt 9) 9 eq_refl).
  - reflexivity.
  - reflexivity.
  - discriminate.
Defined.

(** Assigning [-9] to the value of [Energy], which a collection holds. *)
Lemma Costs_total_follows_assignment_witness :
  exists r h',
    Cost.set_value (H := example_lib) 2%nat (VInt (-9)) example_heap = (r, h')
    /\ (r = Ok tt <-> 0 <= -9)
    /\ Costs_wf h' {| Costs._Costs__costs := [("Energy"%string, 2%nat)] |}
    /\ Costs.total {| Costs._Costs__costs := [("Energy"%string, 2%nat)] |} h' =
         (Ok (py_sum [-9]), h').
Proof.
  apply (Costs_total_follows_assignment (H := example_lib) example_heap
           {| Costs._Costs__costs := [("Energy"%string, 2%nat)] |} 2%nat _
           (VInt (-9)) (-9) example_collection_wf eq_refl).
  - reflexivity.
  - reflexivity.
Defined.

(** [Labor] added to a collection that holds [Energy], renamed to [Wages]
    and added again. *)
Lemma Costs_add_after_rename_counts_twice_witness :
  exists s1 h1 s2,
    Costs.add {| Costs._Costs__costs := [("Energy"%string, 2%nat)] |} (VCost 0%nat)
      example_heap = (Ok s1, example_heap)
    /\ Cost.set_name 0%nat (VStr "Wages") example_heap = (Ok tt, h1)
    /\ Costs.add s1 (VCost 0%nat) h1 = (Ok s2, h1)
    /\ Costs._Costs__costs s2 =
         [("Energy"%string, 2%nat); ("Labor"%string, 0%nat); ("Wages"%string, 0%nat)]
    /\ (sums_in_context 0 [1; 5; 5] = true ->
        Costs.total s2 h1 = (Ok (py_sum [1; 5; 5]), h1)).
Proof.
  apply (Costs_add_after_rename_counts_twice example_heap
           {| Costs._Costs__costs := [("Energy"%string, 2%nat)] |}
           0%nat "Labor" "Wages" 5 example_collection_wf eq_refl).
  - discriminate.
  - discriminate.
  - simpl. rewrite list_elem_of_singleton. discriminate.
  - simpl. rewrite list_elem_of_singleton. discriminate.
Defined.

(** Assigning [-1] to the demand of a product. *)
Lemma Product_setters_assign_before_sign_check_witness :
  Product.set_demand (H := example_lib) (VInt (-1)) (example_product 1000 []) =
    (Raise (Exn ValueError "The demand can not be negative:" (Some (VInt (-1)))),
     example_product (-1) []).
Proof.
  apply (proj1 (proj2 (Product_setters_assign_before_sign_check
                         (H := example_lib) (example_product 1000 [])
                         (VInt (-1)) (-1) eq_refl eq_refl))).
Defined.

(** An instance of the base class with a demand and a storage cost. *)
Lemma Product_base_class_has_no_optimum_witness :
  Product.optimum_inventory_level example_base_product example_heap =
    (Raise (Exn NotImplementedError "Method not overrided!" None), example_heap).
Proof.
  apply (proj2 (Product_base_class_has_no_optimum
                  example_base_product example_heap eq_refl)
           (VDecimal 20)).
  - discriminate.
  - vm_compute. reflexivity.
  - discriminate.
Defined.

(** [ProducedProduct(name='Product I', inventory=100)]. *)
Lemma Product_new_has_no_optimum_witness :
  Product.total_storage_cost
    {| Product._Product__name := "Product I";
       Product._Product__inventory := 100;
       Product._Product__demand := 0;
       Product._Product__lead_time := 0;
       Product._Product__price := 0;
       Product.storage_costs := Costs.__init__;
       Product.kind := Product.ProducedProduct Costs.__init__ |} example_heap =
    (Ok (VInt 0), example_heap)
  /\
  Product.optimum_inventory_level
    {| Product._Product__name := "Product I";
       Product._Product__inventory := 100;
       Product._Product__demand := 0;
       Product._Product__lead_time := 0;
       Product._Product__price := 0;
       Product.storage_costs := Costs.__init__;
       Product.kind := Product.ProducedProduct Costs.__init__ |} example_heap =
    (Raise (Exn RuntimeError "The demand must be positive." None), example_heap).
Proof.
  apply (Product_new_has_no_optimum (H := example_lib) Product.ClsProducedProduct
           (VStr "Product I") (VInt 0) (VInt 0) (VInt 0) (VInt 100) _
           example_heap eq_refl).
Defined.

(** A produced product with a demand of [1000], a production cost of [5]
    and a storage cost of [20]: the double nearest to the root of [500]. *)
Lemma optimum_inventory_level_past_guards_witness :
  Product.optimum_inventory_level example_stocked_product example_heap =
    (math_sqrt
       (context_round (Decimal_mul (Decimal_mul 2 1000) 5 / 20)), example_heap)
  /\ (forall y,
        float_round (context_round (Decimal_mul (Decimal_mul 2 1000) 5 / 20)) =
          Finite y ->
        y < 0 ->
        Product.optimum_inventory_level example_stocked_product example_heap =
          (Raise (Exn ValueError "math domain error" None), example_heap)).
Proof.
  apply (optimum_inventory_level_past_guards
           example_stocked_product example_heap
           (VDecimal 20) (VDecimal 5)).
  - discriminate.
  - vm_compute. reflexivity.
  - discriminate.
  - vm_compute. reflexivity.
  - discriminate.
  - vm_compute. reflexivity.
Defined.

(** The results [3], [1], [2]. *)
Lemma maximum_minimum_bound_the_results_witness :
  Simulator.maximum example_simulator_run ∈ [3; 1; 2]
  /\ Simulator.minimum example_simulator_run ∈ [3; 1; 2]
  /\ (forall x, x ∈ [3; 1; 2] ->
        Simulator.minimum example_simulator_run <= x
        <= Simulator.maximum example_simulator_run).
Proof.
  apply (maximum_minimum_bound_the_results example_simulator_run).
  discriminate.
Defined.

(** Three trials, the third of which returns the integer [1]. *)
Lemma simulate_only_appends_witness :
  exists ds,
    {| Simulator.times := VInt 3; Simulator.title := VStr "Example";
       Simulator.results := [42; 42] |} = appended example_simulator ds
    /\ map (fun d => Ok (VDecimal d)) ds =
         take (length ds) (fst (call_sequence third_call_int 3 0%nat))
    /\ (Raise (Exn TypeError "Expecting a Decimal, got:" (Some (VInt 1))) = Ok tt ->
        length ds = 3%nat)
    /\ (Raise (Exn TypeError "Expecting a Decimal, got:" (Some (VInt 1))) <> Ok tt ->
        (length ds < 3)%nat).
Proof.
  apply (simulate_only_appends nat third_call_int example_simulator _ 0%nat 3%nat
           _ 3%nat).
  - reflexivity.
  - reflexivity.
Defined.

(** Two runs of three trials that return [Decimal(42)]. *)
Lemma simulate_twice_accumulates_witness :
  exists self1 w1 self2 w2,
    Simulator.simulate unit constant_trial (example_simulator, tt) =
      (Ok tt, (self1, w1))
    /\ Simulator.simulate unit constant_trial (self1, w1) = (Ok tt, (self2, w2))
    /\ length (Simulator.results self1) = 3%nat
    /\ length (Simulator.results self2) = 6%nat
    /\ take 3 (Simulator.results self2) = Simulator.results self1
    /\ call_sequence constant_trial 6 tt =
         (map (fun d => Ok (VDecimal d)) (Simulator.results self2), w2).
Proof.
  apply (simulate_twice_accumulates unit constant_trial (VInt 3) (VStr "Example")
           example_simulator tt eq_refl).
  intros w0. exists 42, w0. reflexivity.
Defined.

(** Three trials that return [Decimal(42)], in a [with] block. *)
Lemma with_simulate_prints_the_summary_witness :
  exists self' w',
    Simulator.simulate unit constant_trial (example_simulator, tt) =
      (Ok tt, (self', w'))
    /\ Simulator.with_simulate constant_trial (example_simulator, tt, []) =
         (Ok tt,
          (self', w',
           [] ++
           [ [VStr "--------------------------------------------------"];
             [VStr "Example"; VStr "Summary:"];
             [VStr "- Simulated:"; VInt 3; VStr "times"];
             [VStr "- Average:"; VDecimal (Simulator.average self')];
             [VStr "- Maximum:"; VDecimal (Simulator.maximum self')];
             [VStr "- Minimum:"; VDecimal (Simulator.minimum self')];
             [VStr "--------------------------------------------------"] ])).
Proof.
  apply (with_simulate_prints_the_summary unit constant_trial (VInt 3)
           (VStr "Example") example_simulator tt [] eq_refl).
  intros w0. exists 42, w0. reflexivity.
Defined.

(** [normal(mean=5, std=0, upper=10, lower=1)]. *)
Lemma normal_zero_std_never_samples_witness :
  Simulator.normal unit lowest_draw 5 0 10 1 tt =
    (Raise (Exn ZeroDivisionError "division by zero" None), tt).
Proof.
  apply (proj1 (normal_zero_std_never_samples unit lowest_draw 5 0 10 1 tt
                  eq_refl)).
Defined.

(** The runs of center.py and product.py with the lowest draws. *)
Lemma center_run_completes_witness :
  exists self self' w' out',
    Simulator.__init__ (VInt 100) (VStr "Total Fixed Cost") = Ok self
    /\ Simulator.with_simulate (center_main (H := example_lib) unit lowest_draw)
         (self, example_world, []) = (Ok tt, (self', w', out'))
    /\ length (Simulator.results self') = 100%nat
    /\ Forall (fun t => 509.9999999999999 <= t <= 6100.0000000000001)
         (Simulator.results self').
Proof.
  exact (center_run_completes (H := example_lib) unit lowest_draw
           lowest_draw_support lowest_draw_draws example_world []).
Defined.

Lemma product_variable_run_completes_witness :
  exists self self' w' out',
    Simulator.__init__ (VInt 10) (VStr "Product Variable Cost") = Ok self
    /\ Simulator.with_simulate
         (product_variable_main (H := example_lib) unit lowest_draw)
         (self, example_world, []) = (Ok tt, (self', w', out'))
    /\ length (Simulator.results self') = 10%nat
    /\ Forall (fun t => 5 <= t <= 15) (Simulator.results self').
Proof.
  exact (product_variable_run_completes (H := example_lib) unit lowest_draw
           lowest_draw_support lowest_draw_draws example_world []).
Defined.

Lemma product_storage_run_completes_witness :
  exists self self' w' out',
    Simulator.__init__ (VInt 10) (VStr "Product Storage Cost") = Ok self
    /\ Simulator.with_simulate
         (product_storage_main (H := example_lib) unit lowest_draw)
         (self, example_world, []) = (Ok tt, (self', w', out'))
    /\ length (Simulator.results self') = 10%nat
    /\ Forall (fun t => 0 <= t <= 4.0000000000000008) (Simulator.results self').
Proof.
  exact (product_storage_run_completes (H := example_lib) unit lowest_draw
           lowest_draw_support lowest_draw_draws example_world []).
Defined.

Lemma simulator_run_completes_witness :
  exists self self' g' out',
    Simulator.__init__ (VInt 10) (VStr "Example") = Ok self
    /\ Simulator.with_simulate (simulator_main unit lowest_draw) (self, tt, []) =
         (Ok tt, (self', g', out'))
    /\ length (Simulator.results self') = 10%nat
    /\ Forall (fun t => 1 <= t <= 10) (Simulator.results self').
Proof.
  exact (simulator_run_completes unit lowest_draw
           lowest_draw_support lowest_draw_draws tt []).
Defined.
